(** * update_srvp: requirement traceability and SRVP test report

    A shallow embedding of [scripts/update_srvp.py]: the script runs pytest,
    reads its JSON feed, extracts requirement identifiers from documents and
    from test docstrings with regular expressions, resolves a status per
    requirement and renders a Markdown report.

    Conventions of the embedding:
    - a Python [str] is a list of Unicode code points ([pystr]);
    - a Python [dict] is an insertion-ordered association list whose keys are
      pairwise distinct ([PyDict]); a Python [set] is a duplicate-free list
      whose order stands for the unspecified iteration order;
    - the patterns given to [re] are values of [regex], run by a backtracking
      matcher that lists the successes in the order in which [re] tries them;
    - an operation that may raise returns a [result]; the files, environment
      variables and subprocesses the script consults are fields of [world];
    - a function that writes to the console or to a file is a computation
      of [run] over a state that holds what has been written; every console
      write may raise, as the world decides;
    - text files are read with universal newlines and written with the line
      feed as line separator (a POSIX system). *)

From Stdlib Require Import NArith ZArith Strings.String Strings.Ascii.
From stdpp Require Import base tactics option list sorting numbers.

Open Scope N_scope.
Open Scope list_scope.

(** ** Strings *)

Definition pystr := list N.

(** [u "abc"] is the Python string with the same ASCII characters. *)
Definition u (s : String.string) : pystr :=
  List.map N_of_ascii (list_ascii_of_string s).

Definition NL : N := 10.
Definition DQUOTE : N := 34.

Definition str_eqb (a b : pystr) : bool := bool_decide (a = b).

(** [sep.join(parts)] *)
Fixpoint join (sep : pystr) (parts : list pystr) : pystr :=
  match parts with
  | [] => []
  | [p] => p
  | p :: ps => p ++ sep ++ join sep ps
  end.

(** [s.endswith(suffix)] *)
Definition endswith (s suffix : pystr) : bool :=
  str_eqb (drop (length s - length suffix)%nat s) suffix.

(** [str(n)] for a non-negative integer: decimal digits, most significant
    first. *)
Fixpoint digits_of (fuel : nat) (n : N) (acc : pystr) : pystr :=
  match fuel with
  | O => acc
  | S fuel' =>
      let acc' := (48 + n mod 10) :: acc in
      if n <? 10 then acc' else digits_of fuel' (n / 10) acc'
  end.

Definition str_of_N (n : N) : pystr := digits_of (S (N.to_nat (N.log2 n))) n [].

(** [str(z)] for a Python integer. *)
Definition str_of_int (z : Z) : pystr :=
  match z with
  | Zneg p => 45 :: str_of_N (Npos p)
  | _ => str_of_N (Z.to_N z)
  end.

(** ** Character classes of [re] on [str] patterns (Unicode 14.0 tables) *)

Definition in_ranges (tbl : list (N * N)) (c : N) : bool :=
  existsb (fun r => (fst r <=? c) && (c <=? snd r)) tbl.

Definition unicode_Nd : list (N * N) :=
  [
    (1632, 1641); (1776, 1785); (1984, 1993); (2406, 2415); (2534, 2543); (2662, 2671);
    (2790, 2799); (2918, 2927); (3046, 3055); (3174, 3183); (3302, 3311); (3430, 3439);
    (3558, 3567); (3664, 3673); (3792, 3801); (3872, 3881); (4160, 4169); (4240, 4249);
    (6112, 6121); (6160, 6169); (6470, 6479); (6608, 6617); (6784, 6793); (6800, 6809);
    (6992, 7001); (7088, 7097); (7232, 7241); (7248, 7257); (42528, 42537); (43216, 43225);
    (43264, 43273); (43472, 43481); (43504, 43513); (43600, 43609); (44016, 44025); (65296, 65305);
    (66720, 66729); (68912, 68921); (69734, 69743); (69872, 69881); (69942, 69951); (70096, 70105);
    (70384, 70393); (70736, 70745); (70864, 70873); (71248, 71257); (71360, 71369); (71472, 71481);
    (71904, 71913); (72016, 72025); (72784, 72793); (73040, 73049); (73120, 73129); (92768, 92777);
    (92864, 92873); (93008, 93017); (120782, 120831); (123200, 123209); (123632, 123641); (125264, 125273);
    (130032, 130041)
  ]%N.

Definition unicode_White_Space : list (N * N) :=
  [
    (133, 133); (160, 160); (5760, 5760); (8192, 8202); (8232, 8233); (8239, 8239);
    (8287, 8287); (12288, 12288)
  ]%N.

Definition unicode_word : list (N * N) :=
  [
    (170, 170); (178, 179); (181, 181); (185, 186); (188, 190); (192, 214);
    (216, 246); (248, 705); (710, 721); (736, 740); (748, 748); (750, 750);
    (880, 884); (886, 887); (890, 893); (895, 895); (902, 902); (904, 906);
    (908, 908); (910, 929); (931, 1013); (1015, 1153); (1162, 1327); (1329, 1366);
    (1369, 1369); (1376, 1416); (1488, 1514); (1519, 1522); (1568, 1610); (1632, 1641);
    (1646, 1647); (1649, 1747); (1749, 1749); (1765, 1766); (1774, 1788); (1791, 1791);
    (1808, 1808); (1810, 1839); (1869, 1957); (1969, 1969); (1984, 2026); (2036, 2037);
    (2042, 2042); (2048, 2069); (2074, 2074); (2084, 2084); (2088, 2088); (2112, 2136);
    (2144, 2154); (2160, 2183); (2185, 2190); (2208, 2249); (2308, 2361); (2365, 2365);
    (2384, 2384); (2392, 2401); (2406, 2415); (2417, 2432); (2437, 2444); (2447, 2448);
    (2451, 2472); (2474, 2480); (2482, 2482); (2486, 2489); (2493, 2493); (2510, 2510);
    (2524, 2525); (2527, 2529); (2534, 2545); (2548, 2553); (2556, 2556); (2565, 2570);
    (2575, 2576); (2579, 2600); (2602, 2608); (2610, 2611); (2613, 2614); (2616, 2617);
    (2649, 2652); (2654, 2654); (2662, 2671); (2674, 2676); (2693, 2701); (2703, 2705);
    (2707, 2728); (2730, 2736); (2738, 2739); (2741, 2745); (2749, 2749); (2768, 2768);
    (2784, 2785); (2790, 2799); (2809, 2809); (2821, 2828); (2831, 2832); (2835, 2856);
    (2858, 2864); (2866, 2867); (2869, 2873); (2877, 2877); (2908, 2909); (2911, 2913);
    (2918, 2927); (2929, 2935); (2947, 2947); (2949, 2954); (2958, 2960); (2962, 2965);
    (2969, 2970); (2972, 2972); (2974, 2975); (2979, 2980); (2984, 2986); (2990, 3001);
    (3024, 3024); (3046, 3058); (3077, 3084); (3086, 3088); (3090, 3112); (3114, 3129);
    (3133, 3133); (3160, 3162); (3165, 3165); (3168, 3169); (3174, 3183); (3192, 3198);
    (3200, 3200); (3205, 3212); (3214, 3216); (3218, 3240); (3242, 3251); (3253, 3257);
    (3261, 3261); (3293, 3294); (3296, 3297); (3302, 3311); (3313, 3314); (3332, 3340);
    (3342, 3344); (3346, 3386); (3389, 3389); (3406, 3406); (3412, 3414); (3416, 3425);
    (3430, 3448); (3450, 3455); (3461, 3478); (3482, 3505); (3507, 3515); (3517, 3517);
    (3520, 3526); (3558, 3567); (3585, 3632); (3634, 3635); (3648, 3654); (3664, 3673);
    (3713, 3714); (3716, 3716); (3718, 3722); (3724, 3747); (3749, 3749); (3751, 3760);
    (3762, 3763); (3773, 3773); (3776, 3780); (3782, 3782); (3792, 3801); (3804, 3807);
    (3840, 3840); (3872, 3891); (3904, 3911); (3913, 3948); (3976, 3980); (4096, 4138);
    (4159, 4169); (4176, 4181); (4186, 4189); (4193, 4193); (4197, 4198); (4206, 4208);
    (4213, 4225); (4238, 4238); (4240, 4249); (4256, 4293); (4295, 4295); (4301, 4301);
    (4304, 4346); (4348, 4680); (4682, 4685); (4688, 4694); (4696, 4696); (4698, 4701);
    (4704, 4744); (4746, 4749); (4752, 4784); (4786, 4789); (4792, 4798); (4800, 4800);
    (4802, 4805); (4808, 4822); (4824, 4880); (4882, 4885); (4888, 4954); (4969, 4988);
    (4992, 5007); (5024, 5109); (5112, 5117); (5121, 5740); (5743, 5759); (5761, 5786);
    (5792, 5866); (5870, 5880); (5888, 5905); (5919, 5937); (5952, 5969); (5984, 5996);
    (5998, 6000); (6016, 6067); (6103, 6103); (6108, 6108); (6112, 6121); (6128, 6137);
    (6160, 6169); (6176, 6264); (6272, 6276); (6279, 6312); (6314, 6314); (6320, 6389);
    (6400, 6430); (6470, 6509); (6512, 6516); (6528, 6571); (6576, 6601); (6608, 6618);
    (6656, 6678); (6688, 6740); (6784, 6793); (6800, 6809); (6823, 6823); (6917, 6963);
    (6981, 6988); (6992, 7001); (7043, 7072); (7086, 7141); (7168, 7203); (7232, 7241);
    (7245, 7293); (7296, 7304); (7312, 7354); (7357, 7359); (7401, 7404); (7406, 7411);
    (7413, 7414); (7418, 7418); (7424, 7615); (7680, 7957); (7960, 7965); (7968, 8005);
    (8008, 8013); (8016, 8023); (8025, 8025); (8027, 8027); (8029, 8029); (8031, 8061);
    (8064, 8116); (8118, 8124); (8126, 8126); (8130, 8132); (8134, 8140); (8144, 8147);
    (8150, 8155); (8160, 8172); (8178, 8180); (8182, 8188); (8304, 8305); (8308, 8313);
    (8319, 8329); (8336, 8348); (8450, 8450); (8455, 8455); (8458, 8467); (8469, 8469);
    (8473, 8477); (8484, 8484); (8486, 8486); (8488, 8488); (8490, 8493); (8495, 8505);
    (8508, 8511); (8517, 8521); (8526, 8526); (8528, 8585); (9312, 9371); (9450, 9471);
    (10102, 10131); (11264, 11492); (11499, 11502); (11506, 11507); (11517, 11517); (11520, 11557);
    (11559, 11559); (11565, 11565); (11568, 11623); (11631, 11631); (11648, 11670); (11680, 11686);
    (11688, 11694); (11696, 11702); (11704, 11710); (11712, 11718); (11720, 11726); (11728, 11734);
    (11736, 11742); (11823, 11823); (12293, 12295); (12321, 12329); (12337, 12341); (12344, 12348);
    (12353, 12438); (12445, 12447); (12449, 12538); (12540, 12543); (12549, 12591); (12593, 12686);
    (12690, 12693); (12704, 12735); (12784, 12799); (12832, 12841); (12872, 12879); (12881, 12895);
    (12928, 12937); (12977, 12991); (13312, 19903); (19968, 42124); (42192, 42237); (42240, 42508);
    (42512, 42539); (42560, 42606); (42623, 42653); (42656, 42735); (42775, 42783); (42786, 42888);
    (42891, 42954); (42960, 42961); (42963, 42963); (42965, 42969); (42994, 43009); (43011, 43013);
    (43015, 43018); (43020, 43042); (43056, 43061); (43072, 43123); (43138, 43187); (43216, 43225);
    (43250, 43255); (43259, 43259); (43261, 43262); (43264, 43301); (43312, 43334); (43360, 43388);
    (43396, 43442); (43471, 43481); (43488, 43492); (43494, 43518); (43520, 43560); (43584, 43586);
    (43588, 43595); (43600, 43609); (43616, 43638); (43642, 43642); (43646, 43695); (43697, 43697);
    (43701, 43702); (43705, 43709); (43712, 43712); (43714, 43714); (43739, 43741); (43744, 43754);
    (43762, 43764); (43777, 43782); (43785, 43790); (43793, 43798); (43808, 43814); (43816, 43822);
    (43824, 43866); (43868, 43881); (43888, 44002); (44016, 44025); (44032, 55203); (55216, 55238);
    (55243, 55291); (63744, 64109); (64112, 64217); (64256, 64262); (64275, 64279); (64285, 64285);
    (64287, 64296); (64298, 64310); (64312, 64316); (64318, 64318); (64320, 64321); (64323, 64324);
    (64326, 64433); (64467, 64829); (64848, 64911); (64914, 64967); (65008, 65019); (65136, 65140);
    (65142, 65276); (65296, 65305); (65313, 65338); (65345, 65370); (65382, 65470); (65474, 65479);
    (65482, 65487); (65490, 65495); (65498, 65500); (65536, 65547); (65549, 65574); (65576, 65594);
    (65596, 65597); (65599, 65613); (65616, 65629); (65664, 65786); (65799, 65843); (65856, 65912);
    (65930, 65931); (66176, 66204); (66208, 66256); (66273, 66299); (66304, 66339); (66349, 66378);
    (66384, 66421); (66432, 66461); (66464, 66499); (66504, 66511); (66513, 66517); (66560, 66717);
    (66720, 66729); (66736, 66771); (66776, 66811); (66816, 66855); (66864, 66915); (66928, 66938);
    (66940, 66954); (66956, 66962); (66964, 66965); (66967, 66977); (66979, 66993); (66995, 67001);
    (67003, 67004); (67072, 67382); (67392, 67413); (67424, 67431); (67456, 67461); (67463, 67504);
    (67506, 67514); (67584, 67589); (67592, 67592); (67594, 67637); (67639, 67640); (67644, 67644);
    (67647, 67669); (67672, 67702); (67705, 67742); (67751, 67759); (67808, 67826); (67828, 67829);
    (67835, 67867); (67872, 67897); (67968, 68023); (68028, 68047); (68050, 68096); (68112, 68115);
    (68117, 68119); (68121, 68149); (68160, 68168); (68192, 68222); (68224, 68255); (68288, 68295);
    (68297, 68324); (68331, 68335); (68352, 68405); (68416, 68437); (68440, 68466); (68472, 68497);
    (68521, 68527); (68608, 68680); (68736, 68786); (68800, 68850); (68858, 68899); (68912, 68921);
    (69216, 69246); (69248, 69289); (69296, 69297); (69376, 69415); (69424, 69445); (69457, 69460);
    (69488, 69505); (69552, 69579); (69600, 69622); (69635, 69687); (69714, 69743); (69745, 69746);
    (69749, 69749); (69763, 69807); (69840, 69864); (69872, 69881); (69891, 69926); (69942, 69951);
    (69956, 69956); (69959, 69959); (69968, 70002); (70006, 70006); (70019, 70066); (70081, 70084);
    (70096, 70106); (70108, 70108); (70113, 70132); (70144, 70161); (70163, 70187); (70272, 70278);
    (70280, 70280); (70282, 70285); (70287, 70301); (70303, 70312); (70320, 70366); (70384, 70393);
    (70405, 70412); (70415, 70416); (70419, 70440); (70442, 70448); (70450, 70451); (70453, 70457);
    (70461, 70461); (70480, 70480); (70493, 70497); (70656, 70708); (70727, 70730); (70736, 70745);
    (70751, 70753); (70784, 70831); (70852, 70853); (70855, 70855); (70864, 70873); (71040, 71086);
    (71128, 71131); (71168, 71215); (71236, 71236); (71248, 71257); (71296, 71338); (71352, 71352);
    (71360, 71369); (71424, 71450); (71472, 71483); (71488, 71494); (71680, 71723); (71840, 71922);
    (71935, 71942); (71945, 71945); (71948, 71955); (71957, 71958); (71960, 71983); (71999, 71999);
    (72001, 72001); (72016, 72025); (72096, 72103); (72106, 72144); (72161, 72161); (72163, 72163);
    (72192, 72192); (72203, 72242); (72250, 72250); (72272, 72272); (72284, 72329); (72349, 72349);
    (72368, 72440); (72704, 72712); (72714, 72750); (72768, 72768); (72784, 72812); (72818, 72847);
    (72960, 72966); (72968, 72969); (72971, 73008); (73030, 73030); (73040, 73049); (73056, 73061);
    (73063, 73064); (73066, 73097); (73112, 73112); (73120, 73129); (73440, 73458); (73648, 73648);
    (73664, 73684); (73728, 74649); (74752, 74862); (74880, 75075); (77712, 77808); (77824, 78894);
    (82944, 83526); (92160, 92728); (92736, 92766); (92768, 92777); (92784, 92862); (92864, 92873);
    (92880, 92909); (92928, 92975); (92992, 92995); (93008, 93017); (93019, 93025); (93027, 93047);
    (93053, 93071); (93760, 93846); (93952, 94026); (94032, 94032); (94099, 94111); (94176, 94177);
    (94179, 94179); (94208, 100343); (100352, 101589); (101632, 101640); (110576, 110579); (110581, 110587);
    (110589, 110590); (110592, 110882); (110928, 110930); (110948, 110951); (110960, 111355); (113664, 113770);
    (113776, 113788); (113792, 113800); (113808, 113817); (119520, 119539); (119648, 119672); (119808, 119892);
    (119894, 119964); (119966, 119967); (119970, 119970); (119973, 119974); (119977, 119980); (119982, 119993);
    (119995, 119995); (119997, 120003); (120005, 120069); (120071, 120074); (120077, 120084); (120086, 120092);
    (120094, 120121); (120123, 120126); (120128, 120132); (120134, 120134); (120138, 120144); (120146, 120485);
    (120488, 120512); (120514, 120538); (120540, 120570); (120572, 120596); (120598, 120628); (120630, 120654);
    (120656, 120686); (120688, 120712); (120714, 120744); (120746, 120770); (120772, 120779); (120782, 120831);
    (122624, 122654); (123136, 123180); (123191, 123197); (123200, 123209); (123214, 123214); (123536, 123565);
    (123584, 123627); (123632, 123641); (124896, 124902); (124904, 124907); (124909, 124910); (124912, 124926);
    (124928, 125124); (125127, 125135); (125184, 125251); (125259, 125259); (125264, 125273); (126065, 126123);
    (126125, 126127); (126129, 126132); (126209, 126253); (126255, 126269); (126464, 126467); (126469, 126495);
    (126497, 126498); (126500, 126500); (126503, 126503); (126505, 126514); (126516, 126519); (126521, 126521);
    (126523, 126523); (126530, 126530); (126535, 126535); (126537, 126537); (126539, 126539); (126541, 126543);
    (126545, 126546); (126548, 126548); (126551, 126551); (126553, 126553); (126555, 126555); (126557, 126557);
    (126559, 126559); (126561, 126562); (126564, 126564); (126567, 126570); (126572, 126578); (126580, 126583);
    (126585, 126588); (126590, 126590); (126592, 126601); (126603, 126619); (126625, 126627); (126629, 126633);
    (126635, 126651); (127232, 127244); (130032, 130041); (131072, 173791); (173824, 177976); (177984, 178205);
    (178208, 183969); (183984, 191456); (194560, 195101); (196608, 201546)
  ]%N.

Definition is_upper_AZ (c : N) : bool := (65 <=? c) && (c <=? 90).
Definition is_ascii_digit (c : N) : bool := (48 <=? c) && (c <=? 57).

(** [\d]: a decimal digit (category Nd). *)
Definition is_digit (c : N) : bool :=
  if c <? 128 then is_ascii_digit c else in_ranges unicode_Nd c.

(** [\s]: whitespace; [str.strip()] removes the same characters. *)
Definition is_space (c : N) : bool :=
  if c <? 128 then ((9 <=? c) && (c <=? 13)) || ((28 <=? c) && (c <=? 32))
  else in_ranges unicode_White_Space c.

(** [\w]: alphanumeric or underscore. *)
Definition is_word (c : N) : bool :=
  if c <? 128 then
    is_ascii_digit c || is_upper_AZ c || ((97 <=? c) && (c <=? 122)) || (c =? 95)
  else in_ranges unicode_word c.

Definition any_char (_ : N) : bool := true.
Definition is_char (a : N) (c : N) : bool := c =? a.
Definition not_char (a : N) (c : N) : bool := negb (c =? a).
Definition not_newline (c : N) : bool := negb (c =? NL).

(** [s.strip()] *)
Fixpoint lstrip (s : pystr) : pystr :=
  match s with
  | c :: s' => if is_space c then lstrip s' else s
  | [] => []
  end.

Definition strip (s : pystr) : pystr := rev (lstrip (rev (lstrip s))).

(** ** Regular expressions as [re] runs them

    [rmatch r t] lists every way [r] can match at the thread [t], in the order
    in which the backtracking matcher of [re] tries them: the head of the
    list is the match [re] reports. *)

Inductive regex :=
| Eps
| Cls (p : N -> bool)                (* one character of a class *)
| Seq (r1 r2 : regex)
| Star (greedy : bool) (r : regex)   (* [r*] and [r*?] *)
| Group (i : nat) (r : regex)        (* capturing group number [i] *)
| Bol                                (* [^] under re.MULTILINE *)
| Eol.                               (* [$] under re.MULTILINE *)

Record thread := Thread {
  caps : list (nat * pystr);   (* groups closed so far, latest first *)
  prev : option N;             (* the character before the position *)
  rest : pystr                 (* the text from the position on *)
}.

Fixpoint star_iter (step : thread -> list thread) (greedy : bool)
    (fuel : nat) (t : thread) : list thread :=
  match fuel with
  | O => [t]
  | S fuel' =>
      let more :=
        flat_map (fun t' =>
          if (length (rest t') <? length (rest t))%nat
          then star_iter step greedy fuel' t' else []) (step t) in
      if greedy then more ++ [t] else t :: more
  end.

Fixpoint rmatch (r : regex) (t : thread) : list thread :=
  match r with
  | Eps => [t]
  | Cls p =>
      match rest t with
      | c :: s => if p c then [Thread (caps t) (Some c) s] else []
      | [] => []
      end
  | Seq r1 r2 => flat_map (rmatch r2) (rmatch r1 t)
  | Star greedy r1 => star_iter (rmatch r1) greedy (length (rest t)) t
  | Group i r1 =>
      List.map (fun t' =>
        Thread ((i, take (length (rest t) - length (rest t'))%nat (rest t)) :: caps t')
               (prev t') (rest t'))
        (rmatch r1 t)
  | Bol =>
      match prev t with
      | None => [t]
      | Some c => if c =? NL then [t] else []
      end
  | Eol =>
      match rest t with
      | [] => [t]
      | c :: _ => if c =? NL then [t] else []
      end
  end.

(** Pattern syntax. *)
Definition Plus (r : regex) : regex := Seq r (Star true r).
Definition Chr (c : N) : regex := Cls (is_char c).

Fixpoint Lit (s : pystr) : regex :=
  match s with
  | [] => Eps
  | c :: s' => Seq (Chr c) (Lit s')
  end.

Fixpoint Rep (n : nat) (r : regex) : regex :=
  match n with
  | O => Eps
  | S n' => Seq r (Rep n' r)
  end.

(** A match object: the matched text and the captured groups. *)
Record rematch := Rematch { m_text : pystr; m_caps : list (nat * pystr) }.

Definition group (m : rematch) (i : nat) : pystr :=
  match List.find (fun c => Nat.eqb (fst c) i) (m_caps m) with
  | Some c => snd c
  | None => []
  end.

(** [re.finditer]: leftmost matches, not overlapping, scanning on after the
    end of each match. *)
Fixpoint scan (r : regex) (fuel : nat) (p : option N) (s : pystr) : list rematch :=
  match fuel with
  | O => []
  | S fuel' =>
      match head (rmatch r (Thread [] p s)), s with
      | Some t', c :: s' =>
          Rematch (take (length s - length (rest t'))%nat s) (caps t') ::
          (if (length (rest t') <? length s)%nat
           then scan r fuel' (prev t') (rest t')
           else scan r fuel' (Some c) s')
      | Some t', [] => [Rematch [] (caps t')]
      | None, c :: s' => scan r fuel' (Some c) s'
      | None, [] => []
      end
  end.

Definition finditer (r : regex) (text : pystr) : list rematch :=
  scan r (S (length text)) None text.

(** [re.findall] of a pattern without capturing groups. *)
Definition findall (r : regex) (text : pystr) : list pystr :=
  List.map m_text (finditer r text).

(** [re.search] *)
Definition search (r : regex) (text : pystr) : option rematch :=
  head (finditer r text).

(** The patterns of the script. *)

(** [REQ-(?:[A-Z]+-)+\d{3}] *)
Definition REQ_PATTERN : regex :=
  Seq (Lit (u "REQ-"))
      (Seq (Plus (Seq (Plus (Cls is_upper_AZ)) (Chr 45)))
           (Rep 3 (Cls is_digit))).

Definition TRIPLE_QUOTE : pystr := [DQUOTE; DQUOTE; DQUOTE].

(** [def (test_\w+)\([^)]*\):[\s\S]*?QQQ([\s\S]*?)QQQ], where QQQ stands for
    three double quotes *)
Definition DOCSTRING_PATTERN : regex :=
  Seq (Lit (u "def "))
  (Seq (Group 1 (Seq (Lit (u "test_")) (Plus (Cls is_word))))
  (Seq (Chr 40)
  (Seq (Star true (Cls (not_char 41)))
  (Seq (Chr 41)
  (Seq (Chr 58)
  (Seq (Star false (Cls any_char))
  (Seq (Lit TRIPLE_QUOTE)
  (Seq (Group 2 (Star false (Cls any_char)))
       (Lit TRIPLE_QUOTE))))))))).

(** [^docAuthor:\s*(.+)$] with [re.MULTILINE] *)
Definition DOC_AUTHOR_PATTERN : regex :=
  Seq Bol
  (Seq (Lit (u "docAuthor:"))
  (Seq (Star true (Cls is_space))
  (Seq (Group 1 (Plus (Cls not_newline)))
       Eol))).

(** ** Python containers *)

(** [dict] with [str] keys: insertion-ordered, one entry per key. *)
Module PyDict.
Section Dict.
Context {V : Type}.

Definition t := list (pystr * V).

Definition empty : t := [].

(** [d.get(k)] *)
Fixpoint get (d : t) (k : pystr) : option V :=
  match d with
  | [] => None
  | (k', v) :: d' => if str_eqb k' k then Some v else get d' k
  end.

(** [d[k] = v]: replaces the value in place, or appends a new entry. *)
Fixpoint set (d : t) (k : pystr) (v : V) : t :=
  match d with
  | [] => [(k, v)]
  | (k', v') :: d' =>
      if str_eqb k' k then (k', v) :: d' else (k', v') :: set d' k v
  end.

(** [k in d] *)
Definition mem (d : t) (k : pystr) : bool :=
  match get d k with Some _ => true | None => false end.

Definition keys (d : t) : list pystr := List.map fst d.
Definition values (d : t) : list V := List.map snd d.

(** The invariant of a [dict]: no key twice. *)
Definition wf (d : t) : Prop := List.NoDup (keys d).
End Dict.
Arguments t : clear implicits.
End PyDict.

(** [set] of [str]: duplicate-free; the list order is the iteration order,
    which Python leaves unspecified. *)
Module PySet.
Definition t := list pystr.

Definition mem (s : t) (x : pystr) : bool := existsb (str_eqb x) s.

(** [s.add(x)] *)
Definition add (s : t) (x : pystr) : t := if mem s x then s else s ++ [x].

(** [s.update(xs)] *)
Definition update (s : t) (xs : list pystr) : t := fold_left add xs s.

(** [set(xs)] *)
Definition of_list (xs : list pystr) : t := update [] xs.

(** [a | b] *)
Definition union (a b : t) : t := update a b.
End PySet.

(** [a <= b] on [str]: lexicographic on code points. *)
Fixpoint str_leb (a b : pystr) : bool :=
  match a, b with
  | [], _ => true
  | _ :: _, [] => false
  | x :: a', y :: b' =>
      if x <? y then true else if y <? x then false else str_leb a' b'
  end.

Definition str_le (a b : pystr) : Prop := str_leb a b = true.

#[export] Instance str_le_dec a b : Decision (str_le a b).
Proof. unfold str_le. apply _. Defined.

(** [sorted(xs)] on strings. *)
Definition sorted (xs : list pystr) : list pystr := merge_sort str_le xs.

(** ** Exceptions and the world outside the script *)

Inductive exn := CalledProcessError | FileNotFoundError | OtherException.

Inductive result (A : Type) :=
| Ok (a : A)
| Raise (e : exn).
Arguments Ok {A} a.
Arguments Raise {A} e.

#[export] Instance result_ret : MRet result := fun _ a => Ok a.

#[export] Instance result_bind : MBind result := fun _ _ k r =>
  match r with
  | Ok a => k a
  | Raise e => Raise e
  end.

(** [try: body except Exception: handler] *)
Definition try_except {A} (body : result A) (handler : A) : A :=
  match body with
  | Ok a => a
  | Raise _ => handler
  end.

(** ** State

    A computation that reads and changes a state of type [S] and returns or
    raises; what it did to the state before it raised stays done. *)
Definition run (S A : Type) : Type := S -> result A * S.

#[export] Instance run_ret {S} : MRet (run S) := fun _ a s => (Ok a, s).

#[export] Instance run_bind {S} : MBind (run S) := fun _ _ k m s =>
  match m s with
  | (Ok a, s') => k a s'
  | (Raise e, s') => (Raise e, s')
  end.

(** An operation that leaves the state alone. *)
Definition lift {S A} (r : result A) : run S A := fun s => (r, s).

(** [raise e] *)
Definition raise {S A} (e : exn) : run S A := fun s => (Raise e, s).

(** [try: body except Exception as e: handler] *)
Definition try_catch {S A} (body : run S A) (handler : exn -> run S A) : run S A :=
  fun s =>
    match body s with
    | (Ok a, s') => (Ok a, s')
    | (Raise e, s') => handler e s'
    end.

(** [for x in xs: body] *)
Fixpoint for_each {S A} (body : A -> run S unit) (xs : list A) : run S unit :=
  match xs with
  | [] => mret tt
  | x :: xs' => _ ← body x; for_each body xs'
  end.

(** A loop that updates a value [b] at each turn. *)
Fixpoint fold_run {S A B} (body : B -> A -> run S B) (xs : list A) (b : B) : run S B :=
  match xs with
  | [] => mret b
  | x :: xs' => b' ← body b x; fold_run body xs' b'
  end.

(** A path on disk: what [exists()] and [read_text()] do there. *)
Record file := File {
  f_exists : result bool;
  f_read : result pystr
}.

(** What [json.load] returns, as far as [parse_test_report] looks into it: an
    object with an optional ["tests"] array of objects whose ["nodeid"] and
    ["outcome"] keys may be missing, or some other JSON value. *)
Inductive json_report :=
| JOther
| JObject (tests : option (list (option pystr * option pystr))).

(** The console writes of the script: one constructor for each [print] call
    (and for [traceback.print_exc]), with the values it formats. *)
Inductive message :=
(* main *)
| MsgBanner                                  (* === CAN Frame ... Script === *)
| MsgNoSrvp                                  (* WARNING: SRVP file not found *)
| MsgNoTestsDir                              (* ERROR: Tests directory not found *)
| MsgRunFailed                               (* Failed to run tests *)
| MsgDebugOutcomes                           (* --- DEBUG: TEST OUTCOMES --- *)
| MsgOutcome (nodeid outcome : pystr)        (* {nodeid}: {outcome} *)
| MsgMore (n : Z)                            (* ... and {n} more *)
| MsgDebugMapping                            (* --- DEBUG: REQ TO TESTS MAPPING --- *)
| MsgMappingEntry (req_id : pystr) (tests : list pystr)   (* {req_id}: {tests} *)
| MsgDebugStatuses                           (* --- DEBUG: FINAL REQ STATUSES --- *)
| MsgStatus (req_id status : pystr)          (* {req_id}: {status} *)
| MsgCompleted                               (* Process completed successfully! *)
| MsgError (e : exn)                         (* An error occurred: {e} *)
| MsgTraceback (e : exn)                     (* traceback.print_exc() *)
(* check_pytest_available *)
| MsgPytestAvailable (version : pystr)       (* pytest available: {version} *)
| MsgPytestMissing                           (* ERROR: pytest is not available. *)
| MsgInstallHint                             (* Install with: pip install ... *)
(* run_tests *)
| MsgRunning                                 (* Running tests... *)
| MsgReportGenerated                         (* Test report generated at ... *)
| MsgPytestStdout (out : pystr)              (* pytest stdout: {out} *)
| MsgPytestError                             (* ERROR running pytest: {e} *)
| MsgPytestErrorStdout                       (* stdout: {e.stdout} *)
| MsgPytestErrorStderr                       (* stderr: {e.stderr} *)
(* parse_test_report *)
| MsgParsing                                 (* Parsing test report... *)
| MsgFoundResults (n : nat)                  (* Found {n} test results *)
(* extract_req_ids_from_docstrings *)
| MsgExtracting                              (* Extracting requirement IDs ... *)
| MsgProcessing (file_name : pystr)          (* Processing {file_name}... *)
| MsgMapping (req_id test_name : pystr)      (* {req_id} -> {test_name} *)
| MsgFoundRequirements (n : nat)             (* Found {n} requirements ... *)
(* get_requirement_statuses *)
| MsgDetermining                             (* Determining requirement statuses... *)
| MsgStatusInput (req_id : pystr) (test_names outcomes : list pystr)
                                             (* {req_id}: tests=..., outcomes=... *)
| MsgNoClearStatus (req_id : pystr) (outcomes : list pystr)
                                             (* No clear status for {req_id} ... *)
| MsgDetermined (n : nat)                    (* Determined status for {n} ... *)
(* write_markdown_report *)
| MsgReportWritten.                          (* Test report written to ... *)

(** What [OUTPUT_PATH.write_text(text)] does. Opening the file for writing
    empties it, so that a write that raises after the file has been opened
    leaves what had reached the file by then: nothing, when the text cannot
    be encoded. *)
Inductive write_outcome :=
| Written                              (* the file holds the text *)
| NotOpened (e : exn)                  (* raises, the file is as before *)
| Truncated (e : exn) (kept : pystr).  (* raises, the file holds [kept] *)

Record world := World {
  (* os.environ.get *)
  environ : pystr -> option pystr;
  (* python -m pytest --version: its stdout *)
  pytest_version : result pystr;
  (* python -m pytest --json-report ...: its stdout *)
  pytest_run : result pystr;
  (* REPORT_PATH once the tests have run, and json.load of it *)
  report_exists : result bool;
  report_load : result json_report;
  (* SRVP_PATH, SRS_PATH *)
  srvp : file;
  srs : file;
  (* TESTS_DIR.exists(), and TESTS_DIR.glob("test_*.py") with read_text() *)
  tests_dir_exists : result bool;
  test_files : list (pystr * result pystr);
  (* subprocess.check_output(["git", *args]) *)
  git : list pystr -> result pystr;
  (* from core.version import __version__ *)
  version_import : result pystr;
  (* datetime.fromisoformat(s).date().isoformat() *)
  iso_to_date : pystr -> result pystr;
  (* datetime.now().date().isoformat() *)
  today : pystr;
  (* print and traceback.print_exc: what writing a message to the console
     does, after the messages written so far *)
  stdout : list message -> message -> result unit;
  (* OUTPUT_PATH: what write_text does with a text, and the text the file
     holds when the script starts *)
  output_write : pystr -> write_outcome;
  output_file : option pystr
}.

(** What the script has written to the console, and the text OUTPUT_PATH
    holds. *)
Record state := State {
  console : list message;
  output : option pystr
}.

(** [print(...)] *)
Definition print (w : world) (m : message) : run state unit := fun s =>
  match stdout w (console s) m with
  | Ok _ => (Ok tt, State (console s ++ [m]) (output s))
  | Raise e => (Raise e, s)
  end.

(** [OUTPUT_PATH.write_text(text)] *)
Definition write_text (w : world) (text : pystr) : run state unit := fun s =>
  match output_write w text with
  | Written => (Ok tt, State (console s) (Some text))
  | NotOpened e => (Raise e, s)
  | Truncated e kept => (Raise e, State (console s) (Some kept))
  end.

(** ** The script *)

Definition truthy (o : option pystr) : bool :=
  match o with
  | Some (_ :: _) => true
  | _ => false
  end.

(** [a or b] on values that are [None] or a [str]. *)
Definition py_or (a b : option pystr) : option pystr :=
  if truthy a then a else b.

(** [a or "literal"] *)
Definition or_else (a : option pystr) (b : pystr) : pystr :=
  match a with
  | Some (c :: s) => c :: s
  | _ => b
  end.

(** [s.replace("Z", "+00:00")] *)
Definition replace_Z (s : pystr) : pystr :=
  flat_map (fun c => if c =? 90 then u "+00:00" else [c]) s.

Definition check_pytest_available (w : world) : run state bool :=
  try_catch
    (result ← lift (pytest_version w);
     _ ← print w (MsgPytestAvailable (strip result));
     mret true)
    (fun e =>
       match e with
       | CalledProcessError =>
           _ ← print w MsgPytestMissing;
           _ ← print w MsgInstallHint;
           mret false
       | _ => raise e
       end).

Definition run_tests (w : world) : run state bool :=
  _ ← print w MsgRunning;
  try_catch
    (result ← lift (pytest_run w);
     _ ← print w MsgReportGenerated;
     _ ← print w (MsgPytestStdout result);
     mret true)
    (fun e =>
       match e with
       | CalledProcessError =>
           _ ← print w MsgPytestError;
           _ ← print w MsgPytestErrorStdout;
           _ ← print w MsgPytestErrorStderr;
           mret false
       | _ => raise e
       end).

(** [parse_test_report], [extract_req_ids_from_docstrings] and
    [get_requirement_statuses] are given twice: first as what they compute,
    without their console writes, and then, in [Logged], as [main] runs
    them. *)

Fixpoint load_outcomes (tests : list (option pystr * option pystr))
    (test_outcomes : PyDict.t pystr) : result (PyDict.t pystr) :=
  match tests with
  | [] => Ok test_outcomes
  | (Some nodeid, Some outcome) :: tests' =>
      load_outcomes tests' (PyDict.set test_outcomes nodeid outcome)
  | _ :: _ => Raise OtherException        (* KeyError *)
  end.

Definition parse_test_report (w : world) : result (PyDict.t pystr) :=
  ex ← report_exists w;
  if negb ex then Raise FileNotFoundError else
  report ← report_load w;
  match report with
  | JOther => Raise OtherException        (* no [get] on it *)
  | JObject tests => load_outcomes (default [] tests) PyDict.empty
  end.

(** One turn of the loop over [(SRVP_PATH, SRS_PATH)]. *)
Definition docs_step (ids : PySet.t) (path : file) : PySet.t :=
  try_except
    (ex ← f_exists path;
     if (ex : bool) then
       text ← f_read path;
       Ok (PySet.update ids (findall REQ_PATTERN text))
     else Ok ids)
    ids.

Definition extract_requirement_ids_from_docs (w : world) : PySet.t :=
  fold_left docs_step [srvp w; srs w] [].

Definition _read_doc_author_from_srvp (w : world) : option pystr :=
  try_except
    (ex ← f_exists (srvp w);
     if (ex : bool) then
       txt ← f_read (srvp w);
       match search DOC_AUTHOR_PATTERN txt with
       | Some m => Ok (Some (strip (group m 1)))
       | None => Ok None
       end
     else Ok None)
    None.

Definition _git_cmd_output (w : world) (args : list pystr) : option pystr :=
  try_except (out ← git w args; Ok (Some (strip out))) None.

Definition release_version (w : world) : pystr :=
  try_except (version_import w) (u "0.0.0").

Definition release_author (w : world) : pystr :=
  or_else
    (py_or (environ w (u "RELEASE_AUTHOR"))
    (py_or (environ w (u "GITHUB_ACTOR"))
    (py_or (_read_doc_author_from_srvp w)
           (_git_cmd_output w [u "config"; u "user.name"]))))
    (u "Unknown").

Definition release_date (w : world) : pystr :=
  let date := environ w (u "RELEASE_DATE") in
  let date :=
    if truthy date then date
    else
      let iso := _git_cmd_output w [u "log"; u "-1"; u "--format=%aI"] in
      if truthy iso
      then try_except (d ← iso_to_date w (replace_Z (default [] iso)); Ok (Some d)) None
      else date in
  or_else date (today w).

(** [(version, author, date)] *)
Definition _get_release_metadata (w : world) : pystr * pystr * pystr :=
  (release_version w, release_author w, release_date w).

(** The body of [for req_id in req_ids]. *)
Definition add_req (full_test_name : pystr) (req_to_tests : PyDict.t (list pystr))
    (req_id : pystr) : PyDict.t (list pystr) :=
  let req_to_tests :=
    if PyDict.mem req_to_tests req_id then req_to_tests
    else PyDict.set req_to_tests req_id [] in
  PyDict.set req_to_tests req_id
    (default [] (PyDict.get req_to_tests req_id) ++ [full_test_name]).

(** The body of [for match in re.finditer(pattern, content)]. *)
Definition scan_match (file_name : pystr) (req_to_tests : PyDict.t (list pystr))
    (m : rematch) : PyDict.t (list pystr) :=
  let test_name := group m 1 in
  let docstring := group m 2 in
  let full_test_name := u "tests/" ++ file_name ++ u "::" ++ test_name in
  let req_ids := findall REQ_PATTERN docstring in
  fold_left (add_req full_test_name) req_ids req_to_tests.

Definition scan_file (req_to_tests : PyDict.t (list pystr)) (file_name content : pystr)
    : PyDict.t (list pystr) :=
  fold_left (scan_match file_name) (finditer DOCSTRING_PATTERN content) req_to_tests.

Fixpoint scan_files (files : list (pystr * result pystr))
    (req_to_tests : PyDict.t (list pystr)) : result (PyDict.t (list pystr)) :=
  match files with
  | [] => Ok req_to_tests
  | (file_name, read_text) :: files' =>
      content ← read_text;
      scan_files files' (scan_file req_to_tests file_name content)
  end.

Definition extract_req_ids_from_docstrings (w : world) : result (PyDict.t (list pystr)) :=
  scan_files (test_files w) PyDict.empty.

Definition FAILED : pystr := u "[x] Failed".
Definition VERIFIED : pystr := u "[x] Verified".
Definition NOT_STARTED : pystr := u "[ ] Not Started".

(** [[test_outcomes.get(name, "skipped") for name in test_names]] *)
Definition outcomes_of (test_outcomes : PyDict.t pystr) (test_names : list pystr)
    : list pystr :=
  List.map (fun name => default (u "skipped") (PyDict.get test_outcomes name)) test_names.

Definition is_empty {A} (l : list A) : bool :=
  match l with [] => true | _ => false end.

(** The body of [for req_id, test_names in req_to_tests.items()]. *)
Definition status_step (test_outcomes : PyDict.t pystr) (req_statuses : PyDict.t pystr)
    (item : pystr * list pystr) : PyDict.t pystr :=
  let '(req_id, test_names) := item in
  let outcomes := outcomes_of test_outcomes test_names in
  if existsb (str_eqb (u "failed")) outcomes then
    PyDict.set req_statuses req_id FAILED
  else if negb (is_empty outcomes) && forallb (fun o => str_eqb o (u "passed")) outcomes then
    PyDict.set req_statuses req_id VERIFIED
  else req_statuses.

Definition get_requirement_statuses (test_outcomes : PyDict.t pystr)
    (req_to_tests : PyDict.t (list pystr)) : PyDict.t pystr :=
  fold_left (status_step test_outcomes) req_to_tests PyDict.empty.

(** [sum(1 for x in xs if p(x))] *)
Definition count_if {A} (p : A -> bool) (xs : list A) : Z :=
  Z.of_nat (length (List.filter p xs)).

Definition status_of (req_statuses : PyDict.t pystr) (req_id : pystr) : pystr :=
  default NOT_STARTED (PyDict.get req_statuses req_id).

Definition PASS_BADGE : pystr := [9989].      (* U+2705 *)
Definition FAIL_BADGE : pystr := [10060].     (* U+274C *)
Definition NEUTRAL_BADGE : pystr := [10134].  (* U+2796 *)
Definition EM_DASH : pystr := [8212].         (* U+2014 *)

Definition NO_TESTS_LINE : pystr := u "  - " ++ NEUTRAL_BADGE ++ u " No tests mapped yet".

Definition table_row (req_statuses : PyDict.t pystr) (req_to_tests : PyDict.t (list pystr))
    (req_id : pystr) : pystr :=
  let status := default NOT_STARTED (PyDict.get req_statuses req_id) in
  let tests := join (u ", ") (default [] (PyDict.get req_to_tests req_id)) in
  u "| " ++ req_id ++ u " | " ++ status ++ u " | " ++ tests ++ u " |".

Definition evidence_line (test_outcomes : PyDict.t pystr) (nodeid : pystr) : pystr :=
  let outcome := default (u "skipped") (PyDict.get test_outcomes nodeid) in
  let badge :=
    if str_eqb outcome (u "passed") then PASS_BADGE
    else if str_eqb outcome (u "failed") then FAIL_BADGE
    else NEUTRAL_BADGE in
  u "  - " ++ badge ++ u " `" ++ nodeid ++ u "` " ++ EM_DASH ++ u " " ++ outcome.

Definition detail_block (req_statuses : PyDict.t pystr)
    (req_to_tests : PyDict.t (list pystr)) (test_outcomes : PyDict.t pystr)
    (req_id : pystr) : list pystr :=
  [u "### " ++ req_id;
   [];
   u "- Status: " ++ default NOT_STARTED (PyDict.get req_statuses req_id);
   u "- Tests:"]
  ++ List.map (evidence_line test_outcomes) (default [] (PyDict.get req_to_tests req_id))
  ++ (if is_empty (default [] (PyDict.get req_to_tests req_id)) then [NO_TESTS_LINE] else [])
  ++ [[]].

(** [sorted(set(req_to_tests.keys()) | ids_from_docs)] *)
Definition all_req_ids_sorted (w : world) (req_to_tests : PyDict.t (list pystr))
    : list pystr :=
  let ids_from_docs := extract_requirement_ids_from_docs w in
  sorted (PySet.union (PySet.of_list (PyDict.keys req_to_tests)) ids_from_docs).

Definition front_matter (w : world) : list pystr :=
  let '(version, author, date) := _get_release_metadata w in
  [u "---";
   u "docType: Software Requirements Verification Plan Report (SRVPR)";
   u "docSubtitle: CAN Frame Retransmission Tool";
   u "docVersion: " ++ version;
   u "docAuthor: " ++ author;
   u "createdDate: " ++ date;
   u "---"].

(** The counters of the summary. *)
Definition total_reqs (ids : list pystr) : Z := Z.of_nat (length ids).

Definition verified_count (req_statuses : PyDict.t pystr) (ids : list pystr) : Z :=
  count_if (fun rid => endswith (status_of req_statuses rid) (u "Verified")) ids.

Definition req_failed_count (req_statuses : PyDict.t pystr) (ids : list pystr) : Z :=
  count_if (fun rid => endswith (status_of req_statuses rid) (u "Failed")) ids.

Definition pending_count (req_statuses : PyDict.t pystr) (ids : list pystr) : Z :=
  (total_reqs ids - verified_count req_statuses ids - req_failed_count req_statuses ids)%Z.

Definition summary_lines (w : world) (req_statuses : PyDict.t pystr)
    (req_to_tests : PyDict.t (list pystr)) (test_outcomes : PyDict.t pystr)
    : list pystr :=
  let total_tests := Z.of_nat (length test_outcomes) in
  let passed := count_if (fun o => str_eqb o (u "passed")) (PyDict.values test_outcomes) in
  let failed := count_if (fun o => str_eqb o (u "failed")) (PyDict.values test_outcomes) in
  let skipped := count_if (fun o => str_eqb o (u "skipped")) (PyDict.values test_outcomes) in
  let ids := all_req_ids_sorted w req_to_tests in
  let verified := verified_count req_statuses ids in
  let req_failed := req_failed_count req_statuses ids in
  let pending := pending_count req_statuses ids in
  [u "- Tests: " ++ str_of_int passed ++ u " passed, " ++ str_of_int failed
     ++ u " failed, " ++ str_of_int skipped ++ u " skipped (total "
     ++ str_of_int total_tests ++ u ")";
   u "- Requirements: " ++ str_of_int verified ++ u " verified, "
     ++ str_of_int req_failed ++ u " failed, " ++ str_of_int pending
     ++ u " pending (total " ++ str_of_int (total_reqs ids) ++ u ")"].

(** The lines up to the header of the requirements table. *)
Definition report_preamble (w : world) (req_statuses : PyDict.t pystr)
    (req_to_tests : PyDict.t (list pystr)) (test_outcomes : PyDict.t pystr)
    : list pystr :=
  front_matter w
  ++ [[];
      u "# Test Report - SRVP Functional Requirements";
      [];
      u "This document summarizes the latest test run and the verification status "
        ++ u "of the SRVP functional requirements.";
      [];
      u "## Summary";
      []]
  ++ summary_lines w req_statuses req_to_tests test_outcomes
  ++ [[];
      u "## Requirements Status";
      [];
      u "| Requirement | Status | Tests |";
      u "| --- | --- | --- |"].

(** The list [lines] when [build_markdown_report] returns. *)
Definition report_lines (w : world) (req_statuses : PyDict.t pystr)
    (req_to_tests : PyDict.t (list pystr)) (test_outcomes : PyDict.t pystr)
    : list pystr :=
  let all_req_ids := all_req_ids_sorted w req_to_tests in
  report_preamble w req_statuses req_to_tests test_outcomes
  ++ List.map (table_row req_statuses req_to_tests) all_req_ids
  ++ [[];
      u "## Details";
      []]
  ++ flat_map (detail_block req_statuses req_to_tests test_outcomes) all_req_ids.

Definition build_markdown_report (w : world) (req_statuses : PyDict.t pystr)
    (req_to_tests : PyDict.t (list pystr)) (test_outcomes : PyDict.t pystr) : pystr :=
  join [NL] (report_lines w req_statuses req_to_tests test_outcomes).

(** The three functions with their console writes. *)
Module Logged.

Definition parse_test_report (w : world) : run state (PyDict.t pystr) :=
  _ ← print w MsgParsing;
  test_outcomes ← lift (parse_test_report w);
  _ ← print w (MsgFoundResults (length test_outcomes));
  mret test_outcomes.

(** The body of [for req_id in req_ids]. *)
Definition add_req (w : world) (test_name full_test_name : pystr)
    (req_to_tests : PyDict.t (list pystr)) (req_id : pystr)
    : run state (PyDict.t (list pystr)) :=
  let req_to_tests := add_req full_test_name req_to_tests req_id in
  _ ← print w (MsgMapping req_id test_name);
  mret req_to_tests.

(** The body of [for match in re.finditer(pattern, content)]. *)
Definition scan_match (w : world) (file_name : pystr)
    (req_to_tests : PyDict.t (list pystr)) (m : rematch)
    : run state (PyDict.t (list pystr)) :=
  let test_name := group m 1 in
  let docstring := group m 2 in
  let full_test_name := u "tests/" ++ file_name ++ u "::" ++ test_name in
  let req_ids := findall REQ_PATTERN docstring in
  fold_run (add_req w test_name full_test_name) req_ids req_to_tests.

(** The body of [for test_file in TESTS_DIR.glob("test_*.py")]. *)
Definition scan_file (w : world) (req_to_tests : PyDict.t (list pystr))
    (test_file : pystr * result pystr) : run state (PyDict.t (list pystr)) :=
  let '(file_name, read_text) := test_file in
  _ ← print w (MsgProcessing file_name);
  content ← lift read_text;
  fold_run (scan_match w file_name) (finditer DOCSTRING_PATTERN content) req_to_tests.

Definition extract_req_ids_from_docstrings (w : world)
    : run state (PyDict.t (list pystr)) :=
  _ ← print w MsgExtracting;
  req_to_tests ← fold_run (scan_file w) (test_files w) PyDict.empty;
  _ ← print w (MsgFoundRequirements (length req_to_tests));
  mret req_to_tests.

(** The body of [for req_id, test_names in req_to_tests.items()]. *)
Definition status_step (w : world) (test_outcomes : PyDict.t pystr)
    (req_statuses : PyDict.t pystr) (item : pystr * list pystr)
    : run state (PyDict.t pystr) :=
  let '(req_id, test_names) := item in
  let outcomes := outcomes_of test_outcomes test_names in
  _ ← print w (MsgStatusInput req_id test_names outcomes);
  if existsb (str_eqb (u "failed")) outcomes then
    mret (PyDict.set req_statuses req_id FAILED)
  else if negb (is_empty outcomes) && forallb (fun o => str_eqb o (u "passed")) outcomes then
    mret (PyDict.set req_statuses req_id VERIFIED)
  else
    _ ← print w (MsgNoClearStatus req_id outcomes);
    mret req_statuses.

Definition get_requirement_statuses (w : world) (test_outcomes : PyDict.t pystr)
    (req_to_tests : PyDict.t (list pystr)) : run state (PyDict.t pystr) :=
  _ ← print w MsgDetermining;
  req_statuses ← fold_run (status_step w test_outcomes) req_to_tests PyDict.empty;
  _ ← print w (MsgDetermined (length req_statuses));
  mret req_statuses.

End Logged.

Definition write_markdown_report (w : world) (req_statuses : PyDict.t pystr)
    (req_to_tests : PyDict.t (list pystr)) (test_outcomes : PyDict.t pystr)
    : run state unit :=
  let report := build_markdown_report w req_statuses req_to_tests test_outcomes in
  _ ← write_text w report;
  print w MsgReportWritten.

(** The [try] block of [main]. *)
Definition main_steps (w : world) : run state Z :=
  ran ← run_tests w;
  if negb ran then
    _ ← print w MsgRunFailed;
    mret 1%Z
  else
  test_outcomes ← Logged.parse_test_report w;
  _ ← print w MsgDebugOutcomes;
  _ ← for_each (fun item => print w (MsgOutcome (fst item) (snd item)))
               (take 5 test_outcomes);
  _ ← print w (MsgMore (Z.of_nat (length test_outcomes) - 5));
  req_to_tests ← Logged.extract_req_ids_from_docstrings w;
  _ ← print w MsgDebugMapping;
  _ ← for_each (fun item => print w (MsgMappingEntry (fst item) (snd item)))
               (take 5 req_to_tests);
  _ ← print w (MsgMore (Z.of_nat (length req_to_tests) - 5));
  req_statuses ← Logged.get_requirement_statuses w test_outcomes req_to_tests;
  _ ← print w MsgDebugStatuses;
  _ ← for_each (fun item => print w (MsgStatus (fst item) (snd item))) req_statuses;
  _ ← write_markdown_report w req_statuses req_to_tests test_outcomes;
  _ ← print w MsgCompleted;
  mret 0%Z.

Definition main (w : world) : run state Z :=
  _ ← print w MsgBanner;
  avail ← check_pytest_available w;
  if negb avail then mret 1%Z else
  srvp_exists ← lift (f_exists (srvp w));
  _ ← (if negb srvp_exists then print w MsgNoSrvp else mret tt);
  tests_dir ← lift (tests_dir_exists w);
  if negb tests_dir then
    _ ← print w MsgNoTestsDir;
    mret 1%Z
  else
  try_catch (main_steps w)
    (fun e =>
       _ ← print w (MsgError e);
       _ ← print w (MsgTraceback e);
       mret 1%Z).

(** [sys.exit(main())]: the exit status of the process (1 when an exception
    escapes [main]) and the text OUTPUT_PATH holds afterwards. *)
Definition script (w : world) : Z * option pystr :=
  let '(r, s) := main w (State [] (output_file w)) in
  (match r with Ok status => status | Raise _ => 1%Z end, output s).

(** ** Notions used to state the properties *)

(** The status one turn of the loop stores for a requirement, if any. *)
Definition stored_status (test_outcomes : PyDict.t pystr) (test_names : list pystr)
    : option pystr :=
  let outcomes := outcomes_of test_outcomes test_names in
  if existsb (str_eqb (u "failed")) outcomes then Some FAILED
  else if negb (is_empty outcomes) && forallb (fun o => str_eqb o (u "passed")) outcomes
       then Some VERIFIED
       else None.

(** Two dictionaries that hold the same entries, whatever the insertion order
    (Python's [d1 == d2]). *)
Definition same_dict {V} (d1 d2 : PyDict.t V) : Prop :=
  forall k, PyDict.get d1 k = PyDict.get d2 k.

(** The failures that stop a run: pytest cannot be started or its run fails,
    or the JSON feed is missing or cannot be read as a test report. *)
Inductive fatal_failure (w : world) : Prop :=
| pytest_unavailable e : pytest_version w = Raise e -> fatal_failure w
| tests_run_failed e : pytest_run w = Raise e -> fatal_failure w
| feed_missing : report_exists w = Ok false -> fatal_failure w
| feed_unreachable e : report_exists w = Raise e -> fatal_failure w
| feed_unparseable e : report_load w = Raise e -> fatal_failure w
| feed_not_a_report e : parse_test_report w = Raise e -> fatal_failure w.

(** The grammar in the words of the specification: [REQ-], then one or more
    groups of uppercase letters each followed by [-], then three digits. *)
Definition is_segment (g : pystr) : Prop :=
  g <> [] /\ Forall (fun c => is_upper_AZ c = true) g.

Definition is_req_id (x : pystr) : Prop :=
  exists (segs : list pystr) (d1 d2 d3 : N),
    segs <> [] /\ Forall is_segment segs /\
    is_digit d1 = true /\ is_digit d2 = true /\ is_digit d3 = true /\
    x = u "REQ-" ++ concat (List.map (fun g => g ++ [45]) segs) ++ [d1; d2; d3].

(** What the matcher does on [REQ_PATTERN], written as a deterministic
    function: the last character matched and the text left over. *)
Fixpoint strip_prefix (l s : pystr) : option pystr :=
  match l, s with
  | [], _ => Some s
  | a :: l', c :: s' => if c =? a then strip_prefix l' s' else None
  | _ :: _, [] => None
  end.

Fixpoint seg_tail (s : pystr) : option pystr :=
  match s with
  | y :: s' =>
      if is_upper_AZ y then seg_tail s'
      else if y =? 45 then Some s' else None
  | [] => None
  end.

Definition upper_seg (s : pystr) : option pystr :=
  match s with
  | x :: s' => if is_upper_AZ x then seg_tail s' else None
  | [] => None
  end.

Definition three_digits (s : pystr) : option (N * pystr) :=
  match s with
  | d1 :: d2 :: d3 :: tail =>
      if is_digit d1 && is_digit d2 && is_digit d3 then Some (d3, tail) else None
  | _ => None
  end.

Fixpoint groups_digits (fuel : nat) (s : pystr) : option (N * pystr) :=
  match fuel with
  | O => three_digits s
  | S fuel' =>
      match upper_seg s with
      | Some s' => groups_digits fuel' s'
      | None => three_digits s
      end
  end.

Definition req_match (s : pystr) : option (N * pystr) :=
  match strip_prefix (u "REQ-") s with
  | Some s1 =>
      match upper_seg s1 with
      | Some s2 => groups_digits (length s2) s2
      | None => None
      end
  | None => None
  end.

Definition thread_after (c : list (nat * pystr)) (r : option (N * pystr)) : list thread :=
  match r with
  | Some (d, tail) => [Thread c (Some d) tail]
  | None => []
  end.

Definition GROUP : regex := Seq (Plus (Cls is_upper_AZ)) (Chr 45).

(** The occurrences of requirement ids in test docstrings, in the order in
    which the loops of [extract_req_ids_from_docstrings] meet them: each with
    the test id it is recorded under. *)
Definition match_mentions (file_name : pystr) (m : rematch) : list (pystr * pystr) :=
  List.map (fun req_id => (req_id, u "tests/" ++ file_name ++ u "::" ++ group m 1))
           (findall REQ_PATTERN (group m 2)).

Definition file_mentions (file_name content : pystr) : list (pystr * pystr) :=
  flat_map (match_mentions file_name) (finditer DOCSTRING_PATTERN content).

Definition annotation_mentions (files : list (pystr * result pystr))
    : list (pystr * pystr) :=
  flat_map (fun file =>
    match snd file with
    | Ok content => file_mentions (fst file) content
    | Raise _ => []
    end) files.

(** The test ids recorded with [req_id], in order. *)
Definition tests_mentioning (mentions : list (pystr * pystr)) (req_id : pystr)
    : list pystr :=
  List.map snd (List.filter (fun m => str_eqb (fst m) req_id) mentions).

Definition tests_for (req_to_tests : PyDict.t (list pystr)) (req_id : pystr) : list pystr :=
  default [] (PyDict.get req_to_tests req_id).

(** ** Reading a report

    What a reader finds in the text of a report. *)

(** [l] is a line of [text], or a run of consecutive lines of it: it stands
    between the start of the text or a line feed and a line feed or the end
    of the text. *)
Definition is_line_of (l text : pystr) : Prop :=
  exists before after,
    text = before ++ l ++ after /\
    (before = [] \/ exists b, before = b ++ [NL]) /\
    (after = [] \/ exists a, after = NL :: a).

(** [text.split("\n")] *)
Fixpoint split_lines (text : pystr) : list pystr :=
  match text with
  | [] => [[]]
  | c :: text' =>
      if c =? NL then [] :: split_lines text'
      else
        match split_lines text' with
        | l :: ls => (c :: l) :: ls
        | [] => [[c]]
        end
  end.

(** A text without a line feed. *)
Definition one_line (s : pystr) : bool := forallb (fun c => negb (c =? NL)) s.

(** The lines after the first line equal to [marker]. *)
Fixpoint skip_to (marker : pystr) (lines : list pystr) : list pystr :=
  match lines with
  | [] => []
  | l :: lines' => if str_eqb l marker then lines' else skip_to marker lines'
  end.

(** The lines before the first empty one. *)
Fixpoint until_blank (lines : list pystr) : list pystr :=
  match lines with
  | [] => []
  | l :: lines' => if is_empty l then [] else l :: until_blank lines'
  end.

(** The rows of the requirements table: the lines that follow its header, up
    to the first empty line. *)
Definition table_rows (text : pystr) : list pystr :=
  until_blank (skip_to (u "| --- | --- | --- |") (split_lines text)).

(** The requirement ids of the detail section: what follows [### ] on the
    heading lines after [## Details]. *)
Definition detail_ids (text : pystr) : list pystr :=
  omap (strip_prefix (u "### ")) (skip_to (u "## Details") (split_lines text)).

(** The console never raises. *)
Definition quiet (w : world) : Prop := forall log m, stdout w log m = Ok tt.

(** [m] leaves the report file alone and writes at most to the console: what
    it returns is what [r] gives, and it does as [r] when the console never
    raises. *)
Definition agrees {A} (w : world) (m : run state A) (r : result A) : Prop :=
  forall s,
    output (snd (m s)) = output s /\
    (forall a, fst (m s) = Ok a -> r = Ok a) /\
    (quiet w -> fst (m s) = r).

(** ** Sample inputs *)

Definition line (s : String.string) : pystr := u s ++ [NL].

(** A test file whose first test has no docstring. *)
Definition undocumented_first : pystr :=
  line "def test_a():" ++
  line "    assert True" ++
  line "" ++
  line "def test_b():" ++
  u "    " ++ TRIPLE_QUOTE ++ u "Covers REQ-FUNC-010." ++ TRIPLE_QUOTE ++ [NL] ++
  line "    assert True".

(** A test without a docstring whose body holds a triple-quoted string. *)
Definition string_in_body : pystr :=
  line "def test_a():" ++
  u "    text = " ++ TRIPLE_QUOTE ++ u "REQ-FUNC-020" ++ TRIPLE_QUOTE ++ [NL] ++
  line "    assert text".

(** A test whose docstring names one requirement twice. *)
Definition repeated_mention : pystr :=
  line "def test_a():" ++
  u "    " ++ TRIPLE_QUOTE ++ u "REQ-FUNC-010 and again REQ-FUNC-010" ++ TRIPLE_QUOTE ++ [NL] ++
  line "    assert True".

(** A test file with three documented tests. *)
Definition sample_tests : pystr :=
  line "def test_log():" ++
  u "    " ++ TRIPLE_QUOTE ++ u "REQ-FUNC-LOG-010 REQ-FUNC-UI-030" ++ TRIPLE_QUOTE ++ [NL] ++
  line "    assert True" ++
  line "def test_cli(tmp_path):" ++
  u "    " ++ TRIPLE_QUOTE ++ u "REQ-FUNC-LOG-010, REQ-FUNC-CLI-020" ++ TRIPLE_QUOTE ++ [NL] ++
  line "    assert True" ++
  line "def test_rel():" ++
  u "    " ++ TRIPLE_QUOTE ++ u "REQ-NFR-REL-001" ++ TRIPLE_QUOTE ++ [NL] ++
  line "    assert True".

Definition sample_outcomes : PyDict.t pystr :=
  [(u "tests/test_x.py::test_log", u "passed");
   (u "tests/test_x.py::test_cli", u "failed")].

Definition sample_outcomes_reordered : PyDict.t pystr :=
  [(u "tests/test_x.py::test_cli", u "failed");
   (u "tests/test_x.py::test_log", u "passed")].

Definition sample_req_to_tests : PyDict.t (list pystr) :=
  [(u "REQ-FUNC-LOG-010", [u "tests/test_x.py::test_log"; u "tests/test_x.py::test_cli"]);
   (u "REQ-FUNC-UI-030", [u "tests/test_x.py::test_log"]);
   (u "REQ-FUNC-CLI-020", [u "tests/test_x.py::test_cli"]);
   (u "REQ-NFR-REL-001", [u "tests/test_x.py::test_rel"])].

Definition sample_req_to_tests_reordered : PyDict.t (list pystr) :=
  [(u "REQ-NFR-REL-001", [u "tests/test_x.py::test_rel"]);
   (u "REQ-FUNC-CLI-020", [u "tests/test_x.py::test_cli"]);
   (u "REQ-FUNC-UI-030", [u "tests/test_x.py::test_log"]);
   (u "REQ-FUNC-LOG-010", [u "tests/test_x.py::test_log"; u "tests/test_x.py::test_cli"])].

Definition sample_world : world := {|
  environ := fun k =>
    if str_eqb k (u "RELEASE_AUTHOR") then Some (u "Release Bot") else None;
  pytest_version := Ok (u "pytest 8.0.0");
  pytest_run := Ok [];
  report_exists := Ok true;
  report_load :=
    Ok (JObject (Some [(Some (u "tests/test_x.py::test_log"), Some (u "passed"));
                       (Some (u "tests/test_x.py::test_cli"), Some (u "failed"))]));
  srvp := File (Ok true)
               (Ok (line "docAuthor: Jane Doe" ++ line "REQ-DOC-ONLY-123, REQ-FUNC-LOG-010"));
  srs := File (Ok false) (Raise FileNotFoundError);
  tests_dir_exists := Ok true;
  test_files := [(u "test_x.py", Ok sample_tests)];
  git := fun args =>
    if bool_decide (args = [u "config"; u "user.name"]) then Ok (line "Git User")
    else Ok (line "2025-09-16T09:58:12+00:00");
  version_import := Ok (u "1.2.3");
  iso_to_date := fun s => Ok (take 10 s);
  today := u "2026-01-01";
  stdout := fun _ _ => Ok tt;
  output_write := fun _ => Written;
  output_file := Some (u "old report")
|}.

(** The same world when pytest exits with an error. *)
Definition failing_world : world := {|
  environ := environ sample_world;
  pytest_version := pytest_version sample_world;
  pytest_run := Raise CalledProcessError;
  report_exists := report_exists sample_world;
  report_load := report_load sample_world;
  srvp := srvp sample_world;
  srs := srs sample_world;
  tests_dir_exists := tests_dir_exists sample_world;
  test_files := test_files sample_world;
  git := git sample_world;
  version_import := version_import sample_world;
  iso_to_date := iso_to_date sample_world;
  today := today sample_world;
  stdout := stdout sample_world;
  output_write := output_write sample_world;
  output_file := output_file sample_world
|}.

(** ** Notions used to state further properties *)

(** The outcome the feed gives for a test id: that of its last record. *)
Definition feed_outcome (records : list (pystr * pystr)) (nodeid : pystr) : option pystr :=
  PyDict.get (rev records) nodeid.

(** A feed record as [json.load] returns it when both keys are present. *)
Definition complete_record (r : pystr * pystr) : option pystr * option pystr :=
  (Some (fst r), Some (snd r)).

(** The outcomes the summary counts. *)
Definition counted_outcome (o : pystr) : Prop :=
  o = u "passed" \/ o = u "failed" \/ o = u "skipped".

(** [sample_world] with another feed. *)
Definition with_feed (load : result json_report) : world := {|
  environ := environ sample_world;
  pytest_version := pytest_version sample_world;
  pytest_run := pytest_run sample_world;
  report_exists := report_exists sample_world;
  report_load := load;
  srvp := srvp sample_world;
  srs := srs sample_world;
  tests_dir_exists := tests_dir_exists sample_world;
  test_files := test_files sample_world;
  git := git sample_world;
  version_import := version_import sample_world;
  iso_to_date := iso_to_date sample_world;
  today := today sample_world;
  stdout := stdout sample_world;
  output_write := output_write sample_world;
  output_file := output_file sample_world
|}.

(** A feed that reports one test twice. *)
Definition repeated_feed : list (pystr * pystr) :=
  [(u "tests/test_x.py::test_log", u "failed");
   (u "tests/test_x.py::test_cli", u "passed");
   (u "tests/test_x.py::test_log", u "passed")].

(** ** core/version.py *)

(** [_load_version()], given what opening and reading [version_info.txt] in
    the package resources does. *)
Definition _load_version (version_info : result pystr) : pystr :=
  try_except (text ← version_info; Ok (strip text)) (u "0.0.0").

(** ** What a pattern can match *)

(** [matches r x captures]: the pattern [r] can consume the text [x], closing
    the groups listed in [captures], latest first (anchors consume
    nothing). *)
Inductive matches : regex -> pystr -> list (nat * pystr) -> Prop :=
| matches_Eps : matches Eps [] []
| matches_Cls p c : p c = true -> matches (Cls p) [c] []
| matches_Seq r1 r2 x y c1 c2 :
    matches r1 x c1 -> matches r2 y c2 -> matches (Seq r1 r2) (x ++ y) (c2 ++ c1)
| matches_Star_nil g r : matches (Star g r) [] []
| matches_Star_more g r x y c1 c2 :
    matches r x c1 -> matches (Star g r) y c2 -> matches (Star g r) (x ++ y) (c2 ++ c1)
| matches_Group i r x c : matches r x c -> matches (Group i r) x ((i, x) :: c)
| matches_Bol : matches Bol [] []
| matches_Eol : matches Eol [] [].

(** The character before a position of a text: the last one of what stands
    [before] it, or [p] at the start of the text. *)
Definition char_before (p : option N) (before : pystr) : option N :=
  match list.last before with
  | Some c => Some c
  | None => p
  end.

(** ** hooks/update_version_from_changelog.py *)

(** [\d+\.\d+\.\d+] *)
Definition VERSION_NUMBER : regex :=
  Seq (Plus (Cls is_digit))
  (Seq (Chr 46)
  (Seq (Plus (Cls is_digit))
  (Seq (Chr 46)
       (Plus (Cls is_digit))))).

(** [x in y] on strings. *)
Fixpoint is_infix (x y : pystr) : bool :=
  match strip_prefix x y with
  | Some _ => true
  | None =>
      match y with
      | [] => false
      | _ :: y' => is_infix x y'
      end
  end.

(** A version number in the form the hooks look for. *)
Definition is_version_number (v : pystr) : Prop :=
  exists a b c,
    v = a ++ [46] ++ b ++ [46] ++ c /\
    a <> [] /\ b <> [] /\ c <> [] /\
    Forall (fun d => is_digit d = true) (a ++ b ++ c).

(** Reading a file in text mode turns a carriage return, alone or followed by
    a line feed, into one line feed. *)
Fixpoint universal_newlines (s : pystr) : pystr :=
  match s with
  | [] => []
  | c :: s' =>
      if c =? 13 then
        NL :: match s' with
              | d :: s'' => if d =? NL then universal_newlines s'' else universal_newlines s'
              | [] => []
              end
      else c :: universal_newlines s'
  end.

Module UpdateVersion.

(** The three files of the hook, each with the text it holds on disk; [None]
    stands for a file that does not exist. *)
Record files := Files {
  CHANGELOG : option pystr;
  VERSION_FILE : option pystr;
  PYPROJECT : option pystr
}.

(** [path.read_text()] *)
Definition read_text (f : option pystr) : result pystr :=
  match f with
  | Some text => Ok (universal_newlines text)
  | None => Raise FileNotFoundError
  end.

(** [path.write_text(text)]: the file afterwards. *)
Definition write_text (text : pystr) : option pystr := Some text.

(** [^## \[(?P<ver>\d+\.\d+\.\d+)\]] with [re.MULTILINE]; the named group is
    group 1. *)
Definition RE_RELEASE : regex :=
  Seq Bol (Seq (Lit (u "## [")) (Seq (Group 1 VERSION_NUMBER) (Chr 93))).

Definition read_current_version (fs : files) : result pystr :=
  text ← read_text (VERSION_FILE fs);
  Ok (strip text).

Section Lower.
(** [str.lower], which the hook applies to the version it has matched. *)
Variable lower : pystr -> pystr.

(** The loop of [extract_latest_release] over the matches. *)
Fixpoint first_release (matches : list rematch) : option pystr :=
  match matches with
  | [] => None
  | m :: matches' =>
      let ver := group m 1 in
      if negb (str_eqb (lower ver) (u "unreleased")) then Some ver
      else first_release matches'
  end.

Definition extract_latest_release (fs : files) : result (option pystr) :=
  text ← read_text (CHANGELOG fs);
  Ok (first_release (finditer RE_RELEASE text)).

(** Returns what it raises, if anything, and the files afterwards. *)
Definition update_version_files (fs : files) (new_version : pystr)
    : result unit * files :=
  let fs := Files (CHANGELOG fs) (write_text (new_version ++ [NL])) (PYPROJECT fs) in
  match read_text (PYPROJECT fs) with
  | Ok py => (Ok tt, Files (CHANGELOG fs) (VERSION_FILE fs) (write_text py))
  | Raise e => (Raise e, fs)
  end.

(** The value returned, or the exception that escapes, and the files
    afterwards, when the console writes of the hook go through. (The hook
    prints once, as the last thing it does on each path; were that [print]
    to raise, the files would be the same and the exception would escape
    in place of the 0.) *)
Definition main (fs : files) : result Z * files :=
  match CHANGELOG fs with
  | None => (Ok 0%Z, fs)
  | Some _ =>
      match read_current_version fs with
      | Raise e => (Raise e, fs)
      | Ok current =>
          match extract_latest_release fs with
          | Raise e => (Raise e, fs)
          | Ok latest =>
              if negb (truthy latest) then (Ok 0%Z, fs)
              else
                let latest := default [] latest in
                if str_eqb latest current || is_infix latest current then (Ok 0%Z, fs)
                else
                  match update_version_files fs latest with
                  | (Ok _, fs') => (Ok 0%Z, fs')
                  | (Raise e, fs') => (Raise e, fs')
                  end
          end
      end
  end.
End Lower.

End UpdateVersion.

(** ** hooks/create_git_tag_from_changelog.py *)

Module CreateTag.

(** [##\s*\[(\d+\.\d+\.\d+)\]] *)
Definition VERSION_PATTERN : regex :=
  Seq (Lit (u "##"))
  (Seq (Star true (Cls is_space))
  (Seq (Chr 91)
  (Seq (Group 1 VERSION_NUMBER)
       (Chr 93)))).

(** [re.findall] of a pattern with one capturing group. *)
Definition findall_group (r : regex) (text : pystr) : list pystr :=
  List.map (fun m => group m 1) (finditer r text).

(** The changelog is the text that reading the file gives, [None] when the
    file does not exist. *)
Definition get_latest_version_from_changelog (changelog : option pystr) : result pystr :=
  match changelog with
  | None => Raise FileNotFoundError
  | Some content =>
      match findall_group VERSION_PATTERN content with
      | [] => Raise OtherException        (* ValueError *)
      | version :: _ => Ok version
      end
  end.

(** The console writes of the hook. *)
Inductive message :=
| MsgReading                         (* Reading changelog from: ... *)
| MsgLatest (version : pystr)        (* Latest version from changelog: ... *)
| MsgCompleted                       (* Tagging process completed successfully. *)
| MsgFailed                          (* Failed to create tag *)
| MsgError (e : exn)                 (* Error: {exc} *)
| MsgTagExists (tag_name : pystr)    (* Tag {tag_name} already exists. ... *)
| MsgCreated (tag_name : pystr)      (* Created tag: {tag_name} *)
| MsgPushed (tag_name : pystr)       (* Pushed tag: {tag_name} *)
| MsgTagError.                       (* Error creating tag: {exc} *)

(** The git commands the hook has run and what it has written to the
    console, both in order. *)
Record state := State {
  commands : list (list pystr);
  console : list message
}.

Section Git.
(** [subprocess.run(["git", *args], check=True)]: its stdout, or what it
    raises ([CalledProcessError] when git exits with an error). *)
Variable git : list pystr -> result pystr.
(** [print]: what writing a message to the console does, after the messages
    written so far. *)
Variable stdout : list message -> message -> result unit.

Definition run_git (args : list pystr) : run state pystr := fun s =>
  (git args, State (commands s ++ [args]) (console s)).

Definition print (m : message) : run state unit := fun s =>
  match stdout (console s) m with
  | Ok _ => (Ok tt, State (commands s) (console s ++ [m]))
  | Raise e => (Raise e, s)
  end.

Definition check_if_tag_exists (tag : pystr) : run state bool :=
  try_catch
    (result ← run_git [u "tag"; u "-l"; tag];
     mret (negb (is_empty (strip result))))
    (fun e =>
       match e with
       | CalledProcessError => mret false
       | _ => raise e
       end).

Definition create_git_tag (version : pystr) (message : option pystr) : run state bool :=
  let message :=
    match message with
    | None => u "Release version " ++ version
    | Some text => text
    end in
  let tag_name := u "v" ++ version in
  tag_exists ← check_if_tag_exists tag_name;
  if tag_exists : bool then
    _ ← print (MsgTagExists tag_name);
    mret true
  else
    try_catch
      (_ ← run_git [u "tag"; u "-a"; tag_name; u "-m"; message];
       _ ← print (MsgCreated tag_name);
       _ ← run_git [u "push"; u "origin"; tag_name];
       _ ← print (MsgPushed tag_name);
       mret true)
      (fun e =>
         match e with
         | CalledProcessError =>
             _ ← print MsgTagError;
             mret false
         | _ => raise e
         end).

(** The body of [main], which ends in [sys.exit] on every path: the status
    it exits with. *)
Definition main_body (changelog : option pystr) : run state Z :=
  try_catch
    (_ ← print MsgReading;
     version ← lift (get_latest_version_from_changelog changelog);
     _ ← print (MsgLatest version);
     created ← create_git_tag version None;
     if created : bool then
       _ ← print MsgCompleted;
       mret 0%Z
     else
       _ ← print MsgFailed;
       mret 1%Z)
    (fun e =>
       _ ← print (MsgError e);
       mret 1%Z).

(** The exit status of the hook (1 when an exception escapes) and the git
    commands it has run. *)
Definition main (changelog : option pystr) : Z * list (list pystr) :=
  let '(r, s) := main_body changelog (State [] []) in
  (match r with Ok status => status | Raise _ => 1%Z end, commands s).
End Git.

End CreateTag.

(** ** core/utils.py *)

(** The digits 0-9 and A-F. *)
Definition hex_digit (d : N) : N := if d <? 10 then 48 + d else 55 + d.

Fixpoint hex_digits_of (fuel : nat) (n : N) (acc : pystr) : pystr :=
  match fuel with
  | O => acc
  | S fuel' =>
      let acc' := hex_digit (n mod 16) :: acc in
      if n <? 16 then acc' else hex_digits_of fuel' (n / 16) acc'
  end.

(** [f"{n:X}"] for a non-negative integer. *)
Definition hex_of_N (n : N) : pystr := hex_digits_of (S (N.to_nat (N.log2 n))) n [].

(** [f"{z:X}"] *)
Definition format_X (z : Z) : pystr :=
  match z with
  | Zneg p => 45 :: hex_of_N (Npos p)
  | _ => hex_of_N (Z.to_N z)
  end.

(** [f"{b:02X}"] for an element of a [bytes] object. *)
Definition format_02X (b : N) : pystr :=
  let h := hex_of_N b in
  if (length h <? 2)%nat then 48 :: h else h.

(** A frame dictionary: what [frame.get("id")] and [frame.get("data")] find,
    the data being a [bytes] object. *)
Record frame := Frame {
  frame_id : option Z;
  frame_data : option (list N)
}.

Definition format_can_frame (f : frame) : result pystr :=
  let data := default [] (frame_data f) in
  let hex_data := join (u " ") (List.map format_02X data) in
  match frame_id f with
  | None => Raise OtherException          (* TypeError: None has no format X *)
  | Some id => Ok (u "ID=0x" ++ format_X id ++ u " DATA=" ++ hex_data)
  end.

(** Reading back the DATA field: pairs of hexadecimal digits with single
    spaces between them. *)
Definition hex_value (c : N) : option N :=
  if (48 <=? c) && (c <=? 57) then Some (c - 48)
  else if (65 <=? c) && (c <=? 70) then Some (c - 55)
  else None.

Fixpoint parse_hex_data (fuel : nat) (s : pystr) : option (list N) :=
  match fuel, s with
  | _, [] => Some []
  | S fuel', h :: l :: rest =>
      match hex_value h, hex_value l with
      | Some a, Some b =>
          match rest with
          | [] => Some [16 * a + b]
          | sp :: (_ :: _) as rest' =>
              if sp =? 32 then
                match parse_hex_data fuel' rest' with
                | Some bytes => Some ((16 * a + b) :: bytes)
                | None => None
                end
              else None
          | _ => None
          end
      | _, _ => None
      end
  | _, _ => None
  end.

Definition parse_data (s : pystr) : option (list N) := parse_hex_data (length s) s.

(** The value of a hexadecimal numeral, least significant digit first. *)
Fixpoint hex_number_le (s : pystr) : option N :=
  match s with
  | [] => Some 0
  | c :: cs =>
      match hex_value c, hex_number_le cs with
      | Some d, Some v => Some (d + 16 * v)
      | _, _ => None
      end
  end.

Definition hex_number (s : pystr) : option N := hex_number_le (rev s).

(** * Properties *)

(** ** Dictionaries *)

Module PyDictFacts.
Import PyDict.
Section Facts.
Context {V : Type}.
Implicit Types (d : PyDict.t V) (k : pystr) (v : V).

Lemma get_set_eq d k v : get (set d k v) k = Some v.
Proof.
  induction d as [|[k' v'] d IH]; simpl;
    repeat (unfold str_eqb in *; case_bool_decide; simpl); congruence.
Qed.

Lemma get_set_ne d k k' v : k ≠ k' -> get (set d k v) k' = get d k'.
Proof.
  intros Hne. induction d as [|[k0 v0] d IH]; simpl;
    repeat (unfold str_eqb in *; case_bool_decide; simpl); congruence.
Qed.

Lemma get_None_keys d k : get d k = None <-> ¬ In k (keys d).
Proof.
  induction d as [|[k' v'] d IH]; simpl; [tauto|].
  unfold str_eqb. case_bool_decide.
  - split; [done|]. intros Hn. exfalso. apply Hn. by left.
  - rewrite IH. tauto.
Qed.

Lemma get_Some_In d k v : get d k = Some v -> In (k, v) d.
Proof.
  induction d as [|[k' v'] d IH]; simpl; [done|].
  unfold str_eqb. case_bool_decide.
  - intros [= ->]. subst. by left.
  - intros. right. auto.
Qed.

Lemma In_keys d k v : In (k, v) d -> In k (keys d).
Proof. intros Hin. exact (in_map fst _ _ Hin). Qed.

Lemma In_get d k v : wf d -> In (k, v) d -> get d k = Some v.
Proof.
  unfold wf. induction d as [|[k' v'] d IH]; simpl; [done|].
  intros Hnd Hin. inversion Hnd as [|? ? Hk Hnd']; subst.
  unfold str_eqb. destruct Hin as [[= -> ->]|Hin].
  - by rewrite bool_decide_eq_true_2.
  - case_bool_decide; [|by apply IH].
    subst k'. exfalso. apply Hk. by eapply In_keys.
Qed.

Lemma keys_set d k v x : In x (keys (set d k v)) <-> In x (keys d) \/ x = k.
Proof.
  induction d as [|[k' v'] d IH]; simpl.
  - intuition.
  - unfold str_eqb. case_bool_decide; simpl.
    + subst. intuition.
    + rewrite IH. intuition.
Qed.

Lemma wf_set d k v : wf d -> wf (set d k v).
Proof.
  unfold wf. induction d as [|[k' v'] d IH]; simpl.
  - intros _. repeat constructor. simpl. tauto.
  - intros Hnd. inversion Hnd as [|? ? Hk Hnd']; subst.
    unfold str_eqb. case_bool_decide; simpl.
    + by constructor.
    + constructor; [|by apply IH].
      rewrite keys_set. intros [?|?]; [done|]. by subst.
Qed.
End Facts.
End PyDictFacts.

Lemma str_eqb_eq a b : str_eqb a b = true <-> a = b.
Proof. unfold str_eqb. apply bool_decide_eq_true. Qed.

Lemma str_eqb_refl a : str_eqb a a = true.
Proof. by apply str_eqb_eq. Qed.

Lemma str_eqb_neq a b : str_eqb a b = false <-> a ≠ b.
Proof. unfold str_eqb. apply bool_decide_eq_false. Qed.

Lemma existsb_str_eqb x l : existsb (str_eqb x) l = true <-> In x l.
Proof.
  rewrite existsb_exists. split.
  - intros (y & Hin & ->%str_eqb_eq). done.
  - intros Hin. exists x. split; [done|apply str_eqb_refl].
Qed.

Lemma forallb_str_eqb x l :
  forallb (fun o => str_eqb o x) l = true <-> Forall (fun o => o = x) l.
Proof.
  rewrite forallb_forall, List.Forall_forall. split; intros H o Ho.
  - by apply str_eqb_eq, H.
  - by apply str_eqb_eq, H.
Qed.

(** ** Status resolution *)

Arguments status_step : simpl never.

Section StatusResolution.
Variable test_outcomes : PyDict.t pystr.

Lemma status_step_stored req_statuses req_id test_names :
  status_step test_outcomes req_statuses (req_id, test_names) =
  match stored_status test_outcomes test_names with
  | Some s => PyDict.set req_statuses req_id s
  | None => req_statuses
  end.
Proof.
  unfold status_step, stored_status.
  destruct (existsb _ _); [done|]. by destruct (_ && _).
Qed.

Lemma stored_status_range test_names s :
  stored_status test_outcomes test_names = Some s -> s = FAILED \/ s = VERIFIED.
Proof.
  unfold stored_status. destruct (existsb _ _); [intros [= <-]; by left|].
  destruct (_ && _); [intros [= <-]; by right|done].
Qed.

Lemma fold_status_absent items acc req_id :
  ¬ In req_id (PyDict.keys items) ->
  PyDict.get (fold_left (status_step test_outcomes) items acc) req_id =
  PyDict.get acc req_id.
Proof.
  revert acc. induction items as [|[k tests] items IH]; intros acc Hk; simpl; [done|].
  simpl in Hk. rewrite IH by tauto.
  rewrite status_step_stored. destruct (stored_status test_outcomes tests); [|done].
  apply PyDictFacts.get_set_ne. tauto.
Qed.

Lemma fold_status_present items acc req_id test_names :
  PyDict.wf items ->
  PyDict.get items req_id = Some test_names ->
  PyDict.get (fold_left (status_step test_outcomes) items acc) req_id =
  match stored_status test_outcomes test_names with
  | Some s => Some s
  | None => PyDict.get acc req_id
  end.
Proof.
  revert acc. induction items as [|[k tests] items IH]; intros acc Hwf; simpl; [done|].
  inversion Hwf as [|? ? Hk Hwf']; subst.
  unfold str_eqb. case_bool_decide as Heq.
  - intros [= ->]. subst k. rewrite fold_status_absent by done.
    rewrite status_step_stored. destruct (stored_status test_outcomes test_names); [|done].
    apply PyDictFacts.get_set_eq.
  - intros Hget. rewrite (IH _ Hwf' Hget).
    destruct (stored_status test_outcomes test_names); [done|].
    rewrite status_step_stored. destruct (stored_status test_outcomes tests); [|done].
    by apply PyDictFacts.get_set_ne.
Qed.

Lemma fold_status_values items acc :
  Forall (fun kv => snd kv = FAILED \/ snd kv = VERIFIED) acc ->
  Forall (fun kv => snd kv = FAILED \/ snd kv = VERIFIED)
         (fold_left (status_step test_outcomes) items acc).
Proof.
  revert acc. induction items as [|[k tests] items IH]; intros acc Hacc; simpl; [done|].
  apply IH. rewrite status_step_stored.
  destruct (stored_status test_outcomes tests) as [s|] eqn:Hs; [|done].
  apply stored_status_range in Hs. clear IH.
  induction acc as [|[k' v'] acc IHacc]; simpl.
  - constructor; [exact Hs|constructor].
  - inversion Hacc; subst. destruct (str_eqb k' k); constructor; auto.
Qed.
End StatusResolution.

(** C1: for a requirement with at least one associated test, the status shown
    for it is Failed when one of the collected outcomes (an absent test id
    counting as skipped) is failed, else Verified when all of them are passed,
    else Not Started. *)
Theorem status_resolution_priority
    (test_outcomes : PyDict.t pystr) (req_to_tests : PyDict.t (list pystr))
    (req_id : pystr) (test_names : list pystr) :
  PyDict.wf req_to_tests ->
  PyDict.get req_to_tests req_id = Some test_names ->
  test_names <> [] ->
  let outcomes :=
    List.map (fun name =>
      match PyDict.get test_outcomes name with
      | Some o => o
      | None => u "skipped"
      end) test_names in
  let status := status_of (get_requirement_statuses test_outcomes req_to_tests) req_id in
  (In (u "failed") outcomes -> status = FAILED) /\
  (¬ In (u "failed") outcomes -> Forall (fun o => o = u "passed") outcomes ->
     status = VERIFIED) /\
  (¬ In (u "failed") outcomes -> ¬ Forall (fun o => o = u "passed") outcomes ->
     status = NOT_STARTED).
Proof.
  intros Hwf Hget Hne outcomes status.
  assert (Hst : PyDict.get (get_requirement_statuses test_outcomes req_to_tests) req_id
                = stored_status test_outcomes test_names).
  { unfold get_requirement_statuses.
    rewrite (fold_status_present _ _ _ _ _ Hwf Hget).
    by destruct (stored_status _ _). }
  subst status. unfold status_of. rewrite Hst. unfold stored_status.
  change (outcomes_of test_outcomes test_names) with outcomes.
  assert (Hemp : is_empty outcomes = false).
  { subst outcomes. by destruct test_names. }
  rewrite Hemp. simpl negb. rewrite andb_true_l.
  destruct (existsb _ outcomes) eqn:Hf.
  - apply existsb_str_eqb in Hf. simpl. tauto.
  - assert (¬ In (u "failed") outcomes) as Hnf.
    { intros Hin%existsb_str_eqb. congruence. }
    destruct (forallb _ outcomes) eqn:Hp; simpl.
    + apply forallb_str_eqb in Hp. tauto.
    + assert (¬ Forall (fun o => o = u "passed") outcomes).
      { intros Hall%forallb_str_eqb. congruence. }
      tauto.
Qed.

(** ** Sets and [sorted] *)

Lemma PySet_mem_In s x : PySet.mem s x = true <-> In x s.
Proof. unfold PySet.mem. apply existsb_str_eqb. Qed.

Lemma PySet_add_In s x y : In y (PySet.add s x) <-> In y s \/ y = x.
Proof.
  unfold PySet.add. destruct (PySet.mem s x) eqn:Hm.
  - apply PySet_mem_In in Hm. split; [auto|]. intros [?|Heq]; [done|by subst].
  - rewrite in_app_iff. simpl. intuition.
Qed.

Lemma PySet_add_NoDup s x : List.NoDup s -> List.NoDup (PySet.add s x).
Proof.
  intros Hnd. unfold PySet.add. destruct (PySet.mem s x) eqn:Hm; [done|].
  assert (¬ In x s) as Hx by (rewrite <- PySet_mem_In; congruence).
  clear Hm. induction Hnd as [|y s Hy Hnd IH]; simpl.
  - repeat constructor. simpl. tauto.
  - constructor.
    + rewrite in_app_iff. simpl in *. intuition.
    + apply IH. simpl in Hx. tauto.
Qed.

Lemma PySet_update_In xs s y : In y (PySet.update s xs) <-> In y s \/ In y xs.
Proof.
  unfold PySet.update. revert s. induction xs as [|x xs IH]; intros s; simpl.
  - tauto.
  - rewrite IH, PySet_add_In. intuition.
Qed.

Lemma PySet_update_NoDup xs s : List.NoDup s -> List.NoDup (PySet.update s xs).
Proof.
  unfold PySet.update. revert s. induction xs as [|x xs IH]; intros s Hnd; simpl; [done|].
  by apply IH, PySet_add_NoDup.
Qed.

#[export] Instance str_le_total : Total str_le.
Proof.
  unfold Total, str_le. intros a. induction a as [|x a IH]; intros [|y b]; simpl; auto.
  destruct (N.ltb_spec x y), (N.ltb_spec y x); auto; try lia.
Qed.

#[export] Instance str_le_trans : Transitive str_le.
Proof.
  unfold Transitive, str_le. intros a. induction a as [|x a IH]; intros [|y b] [|z c]; simpl; auto;
    try discriminate.
  destruct (N.ltb_spec x y), (N.ltb_spec y x), (N.ltb_spec y z), (N.ltb_spec z y),
    (N.ltb_spec x z), (N.ltb_spec z x); try discriminate; try lia; auto.
  apply IH.
Qed.

#[export] Instance str_le_antisymm : AntiSymm (=) str_le.
Proof.
  unfold AntiSymm, str_le. intros a. induction a as [|x a IH]; intros [|y b]; simpl; auto;
    try discriminate.
  destruct (N.ltb_spec x y), (N.ltb_spec y x); try discriminate; try lia.
  intros Hab Hba. assert (x = y) as -> by lia. f_equal. by apply IH.
Qed.

Lemma sorted_In xs x : In x (sorted xs) <-> In x xs.
Proof.
  unfold sorted. split; apply Permutation_in.
  - apply merge_sort_Permutation.
  - symmetry. apply merge_sort_Permutation.
Qed.

Lemma sorted_Sorted xs : Sorted str_le (sorted xs).
Proof. apply (Sorted_merge_sort str_le). Qed.

Lemma sorted_NoDup xs : List.NoDup xs -> List.NoDup (sorted xs).
Proof.
  unfold sorted. intros Hnd. eapply Permutation_NoDup; [|exact Hnd].
  symmetry. apply merge_sort_Permutation.
Qed.

(** [sorted] does not depend on the order in which a set is iterated. *)
Lemma sorted_set_ext xs ys :
  List.NoDup xs -> List.NoDup ys -> (forall x, In x xs <-> In x ys) -> sorted xs = sorted ys.
Proof.
  intros Hx Hy Hxy. apply (Sorted_unique str_le); try apply sorted_Sorted.
  unfold sorted. rewrite !merge_sort_Permutation.
  by apply Permutation.NoDup_Permutation.
Qed.

(** ** The requirement universe of the report *)

Lemma docs_step_In ids path x :
  In x (docs_step ids path) <->
  In x ids \/
  (f_exists path = Ok true /\
   exists text, f_read path = Ok text /\ In x (findall REQ_PATTERN text)).
Proof.
  unfold docs_step. destruct (f_exists path) as [[|]|e]; simpl.
  - destruct (f_read path) as [text|e]; simpl.
    + rewrite PySet_update_In. split.
      * intros [?|?]; [by left|right]. eauto.
      * intros [?|(_ & t & [= <-] & ?)]; auto.
    + split; [auto|]. intros [?|(_ & text & ? & _)]; done.
  - split; [auto|]. intros [?|(? & _)]; done.
  - split; [auto|]. intros [?|(? & _)]; done.
Qed.

Lemma docs_step_NoDup ids path : List.NoDup ids -> List.NoDup (docs_step ids path).
Proof.
  intros Hnd. unfold docs_step. destruct (f_exists path) as [[|]|e]; simpl; try done.
  destruct (f_read path) as [text|e]; simpl; [|done].
  by apply PySet_update_NoDup.
Qed.

(** The identifiers of document mode: those found in a document that exists
    and can be read. *)
Lemma extract_requirement_ids_from_docs_In w x :
  In x (extract_requirement_ids_from_docs w) <->
  exists path, In path [srvp w; srs w] /\ f_exists path = Ok true /\
    exists text, f_read path = Ok text /\ In x (findall REQ_PATTERN text).
Proof.
  unfold extract_requirement_ids_from_docs. simpl. rewrite !docs_step_In. simpl.
  split.
  - intros [[[]|H]|H]; [exists (srvp w)|exists (srs w)]; tauto.
  - intros (path & [<-|[<-|[]]] & H); tauto.
Qed.

Lemma extract_requirement_ids_from_docs_NoDup w :
  List.NoDup (extract_requirement_ids_from_docs w).
Proof.
  unfold extract_requirement_ids_from_docs. simpl.
  apply docs_step_NoDup, docs_step_NoDup. constructor.
Qed.

Lemma all_req_ids_sorted_In w req_to_tests x :
  In x (all_req_ids_sorted w req_to_tests) <->
  In x (PyDict.keys req_to_tests) \/ In x (extract_requirement_ids_from_docs w).
Proof.
  unfold all_req_ids_sorted, PySet.union, PySet.of_list.
  rewrite sorted_In, !PySet_update_In. simpl. tauto.
Qed.

Lemma all_req_ids_sorted_NoDup w req_to_tests :
  List.NoDup (all_req_ids_sorted w req_to_tests).
Proof.
  unfold all_req_ids_sorted, PySet.union, PySet.of_list.
  apply sorted_NoDup, PySet_update_NoDup, PySet_update_NoDup. constructor.
Qed.

Lemma strip_prefix_sound l s tail : strip_prefix l s = Some tail -> s = l ++ tail.
Proof.
  revert s. induction l as [|a l IH]; intros s; simpl.
  - by intros [= ->].
  - destruct s as [|c s]; [done|].
    destruct (N.eqb_spec c a) as [->|]; [|done]. intros H%IH. by subst.
Qed.

Lemma strip_prefix_complete l tail : strip_prefix l (l ++ tail) = Some tail.
Proof. induction l as [|a l IH]; simpl; [done|]. by rewrite N.eqb_refl. Qed.

(** ** The lines of a text *)

Lemma join_cons2 sep (p q : pystr) ps :
  join sep (p :: q :: ps) = p ++ sep ++ join sep (q :: ps).
Proof. reflexivity. Qed.

Lemma join_app sep (l1 l2 : list pystr) :
  l1 <> [] -> l2 <> [] -> join sep (l1 ++ l2) = join sep l1 ++ sep ++ join sep l2.
Proof.
  intros H1 H2. induction l1 as [|a l1 IH]; [done|].
  destruct l1 as [|b l1].
  - destruct l2; [done|]. reflexivity.
  - specialize (IH ltac:(done)). cbn [app] in *.
    rewrite !join_cons2, IH. by rewrite <- !app_assoc.
Qed.

(** A run of the lines that are joined is a run of lines of the text. *)
Lemma is_line_of_join block l1 l2 :
  block <> [] -> is_line_of (join [NL] block) (join [NL] (l1 ++ block ++ l2)).
Proof.
  intros Hblock. unfold is_line_of.
  destruct l1 as [|a l1], l2 as [|b l2].
  - exists [], []. rewrite !app_nil_r. auto.
  - exists [], (NL :: join [NL] (b :: l2)). rewrite app_nil_l, join_app by done.
    split; [done|]. split; [by left|right; eauto].
  - exists (join [NL] (a :: l1) ++ [NL]), []. rewrite app_nil_r, join_app by done.
    split; [by rewrite app_nil_r, <- app_assoc|]. split; [right; eauto|by left].
  - exists (join [NL] (a :: l1) ++ [NL]), (NL :: join [NL] (b :: l2)).
    rewrite join_app by (done || by destruct block).
    rewrite (join_app _ block) by done.
    split; [by rewrite <- !app_assoc|]. split; right; eauto.
Qed.

Lemma is_line_of_In l lines : In l lines -> is_line_of l (join [NL] lines).
Proof.
  intros (l1 & l2 & ->)%in_split. by apply (is_line_of_join [l] l1 l2).
Qed.

Lemma split_lines_line l rest :
  one_line l = true -> split_lines (l ++ NL :: rest) = l :: split_lines rest.
Proof.
  induction l as [|c l IH]; [done|]. cbn [one_line forallb].
  intros [Hc Hl]%andb_true_iff. cbn [app split_lines].
  apply negb_true_iff in Hc. rewrite Hc. fold (one_line l) in Hl. by rewrite IH.
Qed.

Lemma split_lines_one l : one_line l = true -> split_lines l = [l].
Proof.
  induction l as [|c l IH]; [done|]. cbn [one_line forallb].
  intros [Hc Hl]%andb_true_iff. cbn [split_lines].
  apply negb_true_iff in Hc. rewrite Hc. fold (one_line l) in Hl. by rewrite IH.
Qed.

(** Splitting undoes joining when no line holds a line feed. *)
Lemma split_lines_join lines :
  lines <> [] -> forallb one_line lines = true ->
  split_lines (join [NL] lines) = lines.
Proof.
  induction lines as [|l lines IH]; [done|]. intros _.
  cbn [forallb]. intros [Hl Hlines]%andb_true_iff.
  destruct lines as [|l2 lines]; [by apply split_lines_one|].
  change (join [NL] (l :: l2 :: lines)) with (l ++ NL :: join [NL] (l2 :: lines)).
  rewrite split_lines_line by done. by rewrite IH.
Qed.

Lemma skip_to_app marker (skipped rest : list pystr) :
  Forall (fun l => str_eqb l marker = false) skipped ->
  skip_to marker (skipped ++ marker :: rest) = rest.
Proof.
  induction 1 as [|l skipped Hl _ IH]; cbn [app skip_to].
  - by rewrite str_eqb_refl.
  - by rewrite Hl.
Qed.

Lemma until_blank_app (rows rest : list pystr) :
  Forall (fun l => l <> []) rows -> until_blank (rows ++ [] :: rest) = rows.
Proof.
  induction 1 as [|l rows Hl _ IH]; [done|].
  cbn [app until_blank]. destruct l; [done|]. cbn [is_empty]. by rewrite IH.
Qed.

(** ** The layout of the report *)

Ltac line_differs :=
  unfold str_eqb; apply bool_decide_eq_false;
  let H := fresh in intros H; vm_compute in H; discriminate H.

Lemma front_matter_shape w :
  exists version author date,
    front_matter w =
      [u "---";
       u "docType: Software Requirements Verification Plan Report (SRVPR)";
       u "docSubtitle: CAN Frame Retransmission Tool";
       u "docVersion: " ++ version;
       u "docAuthor: " ++ author;
       u "createdDate: " ++ date;
       u "---"].
Proof.
  unfold front_matter. destruct (_get_release_metadata w) as [[version author] date].
  by exists version, author, date.
Qed.

Lemma summary_lines_shape w req_statuses req_to_tests test_outcomes :
  exists tests reqs,
    summary_lines w req_statuses req_to_tests test_outcomes =
      [u "- Tests: " ++ tests; u "- Requirements: " ++ reqs].
Proof. unfold summary_lines. eexists _, _. reflexivity. Qed.

(** The header of the requirements table closes the preamble and stands
    nowhere before; the heading of the detail section is no line of the
    preamble. *)
Lemma report_preamble_shape w req_statuses req_to_tests test_outcomes :
  exists before,
    report_preamble w req_statuses req_to_tests test_outcomes
      = before ++ [u "| --- | --- | --- |"] /\
    Forall (fun l => str_eqb l (u "| --- | --- | --- |") = false) before /\
    Forall (fun l => str_eqb l (u "## Details") = false)
           (before ++ [u "| --- | --- | --- |"]).
Proof.
  unfold report_preamble.
  destruct (front_matter_shape w) as (version & author & date & ->).
  destruct (summary_lines_shape w req_statuses req_to_tests test_outcomes)
    as (tests & reqs & ->).
  eexists (_ :: _ :: _ :: _ :: _ :: _ :: _ :: _ :: _ :: _ :: _ :: _ :: _
             :: _ :: _ :: _ :: _ :: _ :: _ :: _ :: []).
  split; [reflexivity|]. split; repeat constructor; line_differs.
Qed.

Lemma table_row_shape req_statuses req_to_tests req_id :
  table_row req_statuses req_to_tests req_id =
    u "| " ++ req_id ++ u " | " ++ status_of req_statuses req_id ++ u " | "
    ++ join (u ", ") (default [] (PyDict.get req_to_tests req_id)) ++ u " |".
Proof. reflexivity. Qed.

Lemma table_rows_of_lines before rows rest :
  Forall (fun l => str_eqb l (u "| --- | --- | --- |") = false) before ->
  Forall (fun l => l <> []) rows ->
  until_blank (skip_to (u "| --- | --- | --- |")
                 ((before ++ [u "| --- | --- | --- |"]) ++ rows ++ [] :: rest)) = rows.
Proof.
  intros Hbefore Hrows. rewrite <- app_assoc. cbn [app].
  rewrite skip_to_app by done. by apply until_blank_app.
Qed.

Lemma omap_cons_None {A B} (f : A -> option B) x l :
  f x = None -> omap f (x :: l) = omap f l.
Proof. intros H. simpl. by rewrite H. Qed.

Lemma omap_cons_Some {A B} (f : A -> option B) x y l :
  f x = Some y -> omap f (x :: l) = y :: omap f l.
Proof. intros H. simpl. by rewrite H. Qed.

Lemma evidence_lines_no_heading test_outcomes nodeids :
  omap (strip_prefix (u "### ")) (List.map (evidence_line test_outcomes) nodeids) = [].
Proof.
  induction nodeids as [|n nodeids IH]; [done|].
  cbn [List.map]. by rewrite omap_cons_None.
Qed.

(** The headings of the detail blocks give the requirement ids back. *)
Lemma detail_blocks_ids req_statuses req_to_tests test_outcomes ids :
  omap (strip_prefix (u "### "))
       (flat_map (detail_block req_statuses req_to_tests test_outcomes) ids) = ids.
Proof.
  induction ids as [|req_id ids IH]; [done|].
  cbn [flat_map]. rewrite omap_app, IH. unfold detail_block.
  rewrite !omap_app, evidence_lines_no_heading.
  rewrite (omap_cons_Some _ _ req_id) by apply strip_prefix_complete.
  rewrite !omap_cons_None by done.
  destruct (is_empty _); [by rewrite omap_cons_None|done].
Qed.

Lemma detail_ids_of_lines skipped ids req_statuses req_to_tests test_outcomes :
  Forall (fun l => str_eqb l (u "## Details") = false) skipped ->
  omap (strip_prefix (u "### "))
       (skip_to (u "## Details")
          (skipped ++ [[]; u "## Details"; []]
           ++ flat_map (detail_block req_statuses req_to_tests test_outcomes) ids)) = ids.
Proof.
  intros Hskipped.
  change (skipped ++ [[]; u "## Details"; []] ++ ?l)
    with (skipped ++ [] :: u "## Details" :: [] :: l).
  replace (skipped ++ [] :: u "## Details" :: [] :: flat_map
             (detail_block req_statuses req_to_tests test_outcomes) ids)
    with ((skipped ++ [[]]) ++ u "## Details" :: [] :: flat_map
             (detail_block req_statuses req_to_tests test_outcomes) ids)
    by by rewrite <- app_assoc.
  rewrite skip_to_app.
  - rewrite omap_cons_None by done. apply detail_blocks_ids.
  - apply Forall_app. split; [done|]. by repeat constructor.
Qed.

(** The text of the report, read back line by line. *)
Lemma report_read_back w req_statuses req_to_tests test_outcomes :
  forallb one_line (report_lines w req_statuses req_to_tests test_outcomes) = true ->
  let text := build_markdown_report w req_statuses req_to_tests test_outcomes in
  let ids := all_req_ids_sorted w req_to_tests in
  table_rows text = List.map (table_row req_statuses req_to_tests) ids /\
  detail_ids text = ids.
Proof.
  intros Hlines text ids. unfold table_rows, detail_ids. subst text.
  unfold build_markdown_report. rewrite split_lines_join; [|unfold report_lines|done].
  2: { destruct (report_preamble_shape w req_statuses req_to_tests test_outcomes)
         as ([|? ?] & -> & _); done. }
  unfold report_lines. fold ids.
  destruct (report_preamble_shape w req_statuses req_to_tests test_outcomes)
    as (before & -> & Hheader & Hdetails).
  split.
  - change ([[]; u "## Details"; []] ++ ?l) with ([] :: (u "## Details" :: [] :: l)).
    apply table_rows_of_lines; [done|].
    apply List.Forall_forall. intros l (req_id & <- & _)%in_map_iff. done.
  - rewrite app_assoc. apply detail_ids_of_lines.
    apply Forall_app. split; [done|].
    apply List.Forall_forall. intros l (req_id & <- & _)%in_map_iff.
    rewrite table_row_shape. line_differs.
Qed.


(** C2: a requirement id of the universe that no test annotation mentions is
    shown as Not Started in the rendered report: its row of the table is a
    line of the text, with no test, and the lines of its detail block stand
    in the text one after the other, the line No tests mapped yet in the
    place of the evidence lines. *)
Theorem untested_requirement_reported
    (w : world) (test_outcomes : PyDict.t pystr)
    (req_to_tests : PyDict.t (list pystr)) (req_id : pystr) :
  In req_id (all_req_ids_sorted w req_to_tests) ->
  PyDict.get req_to_tests req_id = None ->
  let req_statuses := get_requirement_statuses test_outcomes req_to_tests in
  let text := build_markdown_report w req_statuses req_to_tests test_outcomes in
  let row := u "| " ++ req_id ++ u " | [ ] Not Started |  |" in
  let block :=
    [u "### " ++ req_id;
     [];
     u "- Status: [ ] Not Started";
     u "- Tests:";
     u "  - " ++ [10134] ++ u " No tests mapped yet";
     []] in
  table_row req_statuses req_to_tests req_id = row /\
  detail_block req_statuses req_to_tests test_outcomes req_id = block /\
  is_line_of row text /\
  is_line_of (join [NL] block) text.
Proof.
  intros Hin Hget req_statuses text row block.
  assert (Hst : PyDict.get req_statuses req_id = None).
  { subst req_statuses. unfold get_requirement_statuses.
    rewrite fold_status_absent; [done|]. by apply PyDictFacts.get_None_keys. }
  assert (Hrow : table_row req_statuses req_to_tests req_id = row).
  { unfold table_row. rewrite Hst, Hget. reflexivity. }
  assert (Hblock : detail_block req_statuses req_to_tests test_outcomes req_id = block).
  { unfold detail_block. rewrite Hst, Hget. reflexivity. }
  split; [done|]. split; [done|].
  subst text. unfold build_markdown_report, report_lines. split.
  - apply is_line_of_In. rewrite in_app_iff. right. rewrite in_app_iff. left.
    rewrite <- Hrow. by apply in_map.
  - apply in_split in Hin as (l1 & l2 & Hsplit). rewrite Hsplit.
    rewrite flat_map_app. cbn [flat_map]. rewrite Hblock.
    generalize (report_preamble w req_statuses req_to_tests test_outcomes).
    intros pre.
    pose proof (is_line_of_join block
                  (pre
                   ++ List.map (table_row req_statuses req_to_tests) (l1 ++ req_id :: l2)
                   ++ [[]; u "## Details"; []]
                   ++ flat_map (detail_block req_statuses req_to_tests test_outcomes) l1)
                  (flat_map (detail_block req_statuses req_to_tests test_outcomes) l2)
                  ltac:(done)) as Hline.
    rewrite <- !app_assoc in Hline. exact Hline.
Qed.

(** ** Counters *)

Lemma count_if_nonneg {A} (p : A -> bool) xs : (0 <= count_if p xs)%Z.
Proof. unfold count_if. lia. Qed.

Lemma count_if_cons {A} (p : A -> bool) x xs :
  count_if p (x :: xs) = ((if p x then 1 else 0) + count_if p xs)%Z.
Proof. unfold count_if. simpl. destruct (p x); simpl; lia. Qed.

Lemma count_if_ext_in {A} (p q : A -> bool) xs :
  (forall x, In x xs -> p x = q x) -> count_if p xs = count_if q xs.
Proof.
  induction xs as [|x xs IH]; intros H; [done|].
  rewrite !count_if_cons, IH, (H x).
  - reflexivity.
  - by left.
  - intros y Hy. apply H. by right.
Qed.

Lemma status_of_range test_outcomes req_to_tests req_id :
  let s := status_of (get_requirement_statuses test_outcomes req_to_tests) req_id in
  s = FAILED \/ s = VERIFIED \/ s = NOT_STARTED.
Proof.
  simpl. unfold status_of.
  destruct (PyDict.get _ req_id) as [s|] eqn:Hget; simpl; [|auto].
  apply PyDictFacts.get_Some_In in Hget.
  pose proof (fold_status_values test_outcomes req_to_tests [] (Forall_nil _)) as Hall.
  rewrite List.Forall_forall in Hall. apply Hall in Hget. simpl in Hget. tauto.
Qed.

(** The counters of the summary count the ids shown as Verified, Failed and
    Not Started. *)
Lemma counters_are_shown
    (w : world) (test_outcomes : PyDict.t pystr) (req_to_tests : PyDict.t (list pystr)) :
  let req_statuses := get_requirement_statuses test_outcomes req_to_tests in
  let ids := all_req_ids_sorted w req_to_tests in
  let shown s := count_if (fun rid => str_eqb (status_of req_statuses rid) s) ids in
  Forall (fun entry => snd entry = FAILED \/ snd entry = VERIFIED) req_statuses /\
  Forall (fun entry => str_eqb (snd entry) NOT_STARTED = false) req_statuses /\
  verified_count req_statuses ids = shown VERIFIED /\
  req_failed_count req_statuses ids = shown FAILED /\
  pending_count req_statuses ids = shown NOT_STARTED /\
  (verified_count req_statuses ids + req_failed_count req_statuses ids
   + pending_count req_statuses ids = total_reqs ids)%Z /\
  (forall any_statuses any_ids,
     verified_count any_statuses any_ids + req_failed_count any_statuses any_ids
     + pending_count any_statuses any_ids = total_reqs any_ids)%Z.
Proof.
  intros req_statuses ids shown.
  assert (Hvals : Forall (fun entry => snd entry = FAILED \/ snd entry = VERIFIED)
                         req_statuses).
  { apply fold_status_values. constructor. }
  assert (Hv : verified_count req_statuses ids = shown VERIFIED).
  { apply count_if_ext_in. intros rid _.
    destruct (status_of_range test_outcomes req_to_tests rid) as [H|[H|H]];
      fold req_statuses in H; rewrite H; reflexivity. }
  assert (Hf : req_failed_count req_statuses ids = shown FAILED).
  { apply count_if_ext_in. intros rid _.
    destruct (status_of_range test_outcomes req_to_tests rid) as [H|[H|H]];
      fold req_statuses in H; rewrite H; reflexivity. }
  split; [done|]. split.
  { eapply Forall_impl; [|exact Hvals]. intros [k s] [->| ->]; reflexivity. }
  split; [done|]. split; [done|].
  split; [|split; [|intros ? ?]; unfold pending_count; lia].
  unfold pending_count. rewrite Hv, Hf. subst shown. simpl. unfold total_reqs.
  clear Hv Hf. induction ids as [|rid ids IH]; [reflexivity|].
  rewrite !count_if_cons. simpl length. rewrite Nat2Z.inj_succ.
  destruct (status_of_range test_outcomes req_to_tests rid) as [H|[H|H]];
    fold req_statuses in H; rewrite H;
    change (str_eqb FAILED VERIFIED) with false;
    change (str_eqb FAILED NOT_STARTED) with false;
    change (str_eqb VERIFIED FAILED) with false;
    change (str_eqb VERIFIED NOT_STARTED) with false;
    change (str_eqb NOT_STARTED VERIFIED) with false;
    change (str_eqb NOT_STARTED FAILED) with false;
    rewrite ?str_eqb_refl; lia.
Qed.

(** C10: status resolution stores only Failed and Verified, so Not Started is
    never an entry of the status map. The rendered report has the line
    - Requirements: V verified, F failed, P pending (total T), in which V, F
    and P are the numbers of requirement ids shown as Verified, as Failed and
    as Not Started and T is the number of requirement ids; V, F and P add up
    to T. *)
Theorem status_map_partial_and_counters
    (w : world) (test_outcomes : PyDict.t pystr) (req_to_tests : PyDict.t (list pystr)) :
  let req_statuses := get_requirement_statuses test_outcomes req_to_tests in
  let ids := all_req_ids_sorted w req_to_tests in
  let text := build_markdown_report w req_statuses req_to_tests test_outcomes in
  let shown s := count_if (fun rid => str_eqb (status_of req_statuses rid) s) ids in
  Forall (fun entry => snd entry = FAILED \/ snd entry = VERIFIED) req_statuses /\
  Forall (fun entry => str_eqb (snd entry) NOT_STARTED = false) req_statuses /\
  is_line_of
    (u "- Requirements: " ++ str_of_int (shown VERIFIED) ++ u " verified, "
       ++ str_of_int (shown FAILED) ++ u " failed, "
       ++ str_of_int (shown NOT_STARTED) ++ u " pending (total "
       ++ str_of_int (Z.of_nat (length ids)) ++ u ")")
    text /\
  (shown VERIFIED + shown FAILED + shown NOT_STARTED = Z.of_nat (length ids))%Z /\
  (0 <= shown VERIFIED)%Z /\ (0 <= shown FAILED)%Z /\ (0 <= shown NOT_STARTED)%Z.
Proof.
  intros req_statuses ids text shown.
  destruct (counters_are_shown w test_outcomes req_to_tests)
    as (Hvals & Hnot & Hv & Hf & Hp & Hsum & _).
  fold req_statuses ids in Hvals, Hnot, Hv, Hf, Hp, Hsum.
  split; [done|]. split; [done|]. split; [|split].
  - subst text. unfold build_markdown_report. apply is_line_of_In.
    unfold report_lines, report_preamble. rewrite !in_app_iff. left. right. right. left.
    unfold summary_lines. fold ids. rewrite Hv, Hf, Hp. right. left. reflexivity.
  - rewrite Hv, Hf, Hp in Hsum. exact Hsum.
  - repeat split; apply count_if_nonneg.
Qed.

(** ** Determinism of the renderer *)

Lemma wf_NoDup {V} (d : PyDict.t V) : PyDict.wf d -> List.NoDup d.
Proof. apply NoDup_map_inv. Qed.

Lemma same_dict_Permutation {V} (d1 d2 : PyDict.t V) :
  PyDict.wf d1 -> PyDict.wf d2 -> same_dict d1 d2 -> Permutation d1 d2.
Proof.
  intros Hwf1 Hwf2 Hsame.
  apply Permutation.NoDup_Permutation; try by apply wf_NoDup.
  intros [k v]. split; intros Hin.
  - apply PyDictFacts.get_Some_In. rewrite <- Hsame. by apply PyDictFacts.In_get.
  - apply PyDictFacts.get_Some_In. rewrite Hsame. by apply PyDictFacts.In_get.
Qed.

Lemma same_dict_keys {V} (d1 d2 : PyDict.t V) k :
  same_dict d1 d2 -> In k (PyDict.keys d1) <-> In k (PyDict.keys d2).
Proof.
  intros Hsame.
  destruct (PyDict.get d1 k) as [v|] eqn:Hget.
  - split; intros _.
    + rewrite Hsame in Hget. eapply PyDictFacts.In_keys, PyDictFacts.get_Some_In, Hget.
    + eapply PyDictFacts.In_keys, PyDictFacts.get_Some_In, Hget.
  - pose proof Hget as Hget'. rewrite Hsame in Hget'.
    apply PyDictFacts.get_None_keys in Hget, Hget'. tauto.
Qed.

Lemma count_if_Permutation {A} (p : A -> bool) xs ys :
  Permutation xs ys -> count_if p xs = count_if p ys.
Proof.
  intros Hp. unfold count_if. f_equal.
  induction Hp; simpl; try destruct (p x); try destruct (p y); simpl; lia.
Qed.

Lemma all_req_ids_sorted_ext w w' (req_to_tests req_to_tests' : PyDict.t (list pystr)) :
  same_dict req_to_tests req_to_tests' ->
  (forall x, In x (extract_requirement_ids_from_docs w) <->
             In x (extract_requirement_ids_from_docs w')) ->
  all_req_ids_sorted w req_to_tests = all_req_ids_sorted w' req_to_tests'.
Proof.
  intros Hsame Hdocs. unfold all_req_ids_sorted, PySet.union, PySet.of_list.
  apply sorted_set_ext.
  - apply PySet_update_NoDup, PySet_update_NoDup. constructor.
  - apply PySet_update_NoDup, PySet_update_NoDup. constructor.
  - intros x. rewrite !PySet_update_In, Hdocs, (same_dict_keys _ _ x Hsame). tauto.
Qed.

Lemma verified_count_ext (st st' : PyDict.t pystr) ids :
  (forall rid, status_of st rid = status_of st' rid) ->
  verified_count st ids = verified_count st' ids.
Proof. intros H. apply count_if_ext_in. intros rid _. by rewrite H. Qed.

Lemma req_failed_count_ext (st st' : PyDict.t pystr) ids :
  (forall rid, status_of st rid = status_of st' rid) ->
  req_failed_count st ids = req_failed_count st' ids.
Proof. intros H. apply count_if_ext_in. intros rid _. by rewrite H. Qed.

(** C9: the report text is a function of what the inputs hold, not of the
    order in which the dictionaries were filled or the id set is iterated. *)
Theorem build_markdown_report_deterministic
    (w w' : world)
    (req_statuses req_statuses' : PyDict.t pystr)
    (req_to_tests req_to_tests' : PyDict.t (list pystr))
    (test_outcomes test_outcomes' : PyDict.t pystr) :
  PyDict.wf test_outcomes -> PyDict.wf test_outcomes' ->
  same_dict test_outcomes test_outcomes' ->
  same_dict req_to_tests req_to_tests' ->
  same_dict req_statuses req_statuses' ->
  (forall x, In x (extract_requirement_ids_from_docs w) <->
             In x (extract_requirement_ids_from_docs w')) ->
  _get_release_metadata w = _get_release_metadata w' ->
  build_markdown_report w req_statuses req_to_tests test_outcomes =
  build_markdown_report w' req_statuses' req_to_tests' test_outcomes'.
Proof.
  intros Hwf Hwf' Hto Hr2t Hst Hdocs Hmeta.
  pose proof (all_req_ids_sorted_ext w w' _ _ Hr2t Hdocs) as Hids.
  pose proof (same_dict_Permutation _ _ Hwf Hwf' Hto) as Hperm.
  assert (Hvals : Permutation (PyDict.values test_outcomes) (PyDict.values test_outcomes')).
  { by apply Permutation_map. }
  assert (Hstatus : forall rid, status_of req_statuses rid = status_of req_statuses' rid).
  { intros rid. unfold status_of. by rewrite Hst. }
  unfold build_markdown_report, report_lines. f_equal.
  rewrite <- Hids. f_equal; [|f_equal; [|f_equal]].
  - unfold report_preamble. f_equal.
    + unfold front_matter. by rewrite Hmeta.
    + f_equal. f_equal.
      unfold summary_lines. rewrite <- Hids.
      rewrite (Permutation_length Hperm).
      rewrite !(count_if_Permutation _ _ _ Hvals).
      unfold pending_count.
      rewrite (verified_count_ext _ _ _ Hstatus), (req_failed_count_ext _ _ _ Hstatus).
      reflexivity.
  - apply map_ext. intros rid. unfold table_row. by rewrite Hst, Hr2t.
  - apply flat_map_ext. intros rid. unfold detail_block.
    rewrite Hst, Hr2t. do 2 f_equal.
    apply map_ext. intros nodeid. unfold evidence_line. by rewrite Hto.
Qed.

(** ** Release metadata *)

Lemma py_or_truthy a b : truthy a = true -> py_or a b = a.
Proof. unfold py_or. by intros ->. Qed.

Lemma py_or_falsy a b : truthy a = false -> py_or a b = b.
Proof. unfold py_or. by intros ->. Qed.

Lemma or_else_falsy a b : truthy a = false -> or_else a b = b.
Proof. by destruct a as [[|c s]|]. Qed.

Lemma read_doc_author_exists_raises w e :
  f_exists (srvp w) = Raise e -> _read_doc_author_from_srvp w = None.
Proof. unfold _read_doc_author_from_srvp. by intros ->. Qed.

Lemma read_doc_author_read_raises w e :
  f_read (srvp w) = Raise e -> _read_doc_author_from_srvp w = None.
Proof.
  unfold _read_doc_author_from_srvp. intros ->.
  by destruct (f_exists (srvp w)) as [[|]|].
Qed.

Lemma read_doc_author_missing w :
  f_exists (srvp w) = Ok false -> _read_doc_author_from_srvp w = None.
Proof. unfold _read_doc_author_from_srvp. by intros ->. Qed.

Lemma git_cmd_output_raises w args e :
  git w args = Raise e -> _git_cmd_output w args = None.
Proof. unfold _git_cmd_output. by intros ->. Qed.


(** ** The pipeline *)

Lemma bind_eq {S A B} (m : run S A) (k : A -> run S B) s :
  (m ≫= k) s =
  match m s with
  | (Ok a, s') => k a s'
  | (Raise e, s') => (Raise e, s')
  end.
Proof. reflexivity. Qed.

Lemma agrees_ret {A} w (a : A) : agrees w (mret a) (Ok a).
Proof. intros s. by repeat split. Qed.

Lemma agrees_lift {A} w (r : result A) : agrees w (lift r) r.
Proof. intros s. by repeat split. Qed.

Lemma agrees_print w m : agrees w (print w m) (Ok tt).
Proof.
  intros s. unfold print. destruct (stdout w (console s) m) as [[]|e] eqn:Hm; cbn.
  - by repeat split.
  - repeat split; [done|]. intros Hq. by rewrite Hq in Hm.
Qed.

Lemma agrees_bind {A B} w (m : run state A) (k : A -> run state B) r k' :
  agrees w m r -> (forall a, agrees w (k a) (k' a)) -> agrees w (m ≫= k) (r ≫= k').
Proof.
  intros Hm Hk s. rewrite bind_eq.
  destruct (Hm s) as (Hout & Hval & Hq). destruct (m s) as [[a|e] s1]; cbn [fst snd] in *.
  - destruct (Hk a s1) as (Hout' & Hval' & Hq').
    split; [congruence|]. split.
    + intros b Hb. rewrite (Hval a eq_refl). cbn. by apply Hval'.
    + intros Hquiet. rewrite <- (Hq Hquiet). cbn. by apply Hq'.
  - split; [done|]. split; [done|]. intros Hquiet. by rewrite <- (Hq Hquiet).
Qed.

Lemma agrees_after_print {A} w msg (k : run state A) r :
  agrees w k r -> agrees w (print w msg ≫= fun _ => k) r.
Proof.
  intros Hk. apply (agrees_bind w _ _ (Ok tt) (fun _ => r)); [apply agrees_print|done].
Qed.

Lemma result_bind_ret {A} (r : result A) : (r ≫= fun a => Ok a) = r.
Proof. by destruct r. Qed.

Lemma agrees_then {A} w (m : run state A) (k : A -> run state A) r :
  agrees w m r -> (forall a, agrees w (k a) (Ok a)) -> agrees w (m ≫= k) r.
Proof.
  intros Hm Hk. rewrite <- (result_bind_ret r). by apply agrees_bind.
Qed.

Lemma agrees_for_each {A} w (body : A -> run state unit) xs :
  (forall x, agrees w (body x) (Ok tt)) -> agrees w (for_each body xs) (Ok tt).
Proof.
  intros Hbody. induction xs as [|x xs IH]; cbn [for_each]; [apply agrees_ret|].
  apply (agrees_bind w (body x) _ (Ok tt) (fun _ => Ok tt)); [apply Hbody|by intros _].
Qed.

Lemma agrees_fold_run {A B} w (body : B -> A -> run state B) (f : B -> A -> B) xs b :
  (forall b x, agrees w (body b x) (Ok (f b x))) ->
  agrees w (fold_run body xs b) (Ok (fold_left f xs b)).
Proof.
  intros Hbody. revert b. induction xs as [|x xs IH]; intros b; cbn [fold_run fold_left].
  - apply agrees_ret.
  - apply (agrees_bind w (body b x) _ (Ok (f b x)) (fun b' => Ok (fold_left f xs b')));
      [apply Hbody|apply IH].
Qed.

Lemma parse_test_report_agrees w :
  agrees w (Logged.parse_test_report w) (parse_test_report w).
Proof.
  unfold Logged.parse_test_report. apply agrees_after_print.
  apply agrees_then; [apply agrees_lift|]. intros test_outcomes.
  apply agrees_after_print, agrees_ret.
Qed.

Lemma scan_file_agrees w req_to_tests file_name read_text :
  agrees w (Logged.scan_file w req_to_tests (file_name, read_text))
           (content ← read_text; Ok (scan_file req_to_tests file_name content)).
Proof.
  unfold Logged.scan_file. apply agrees_after_print.
  apply agrees_bind; [apply agrees_lift|]. intros content.
  unfold scan_file. apply agrees_fold_run. intros d m.
  unfold Logged.scan_match, scan_match. apply agrees_fold_run. intros d' req_id.
  unfold Logged.add_req. apply agrees_after_print, agrees_ret.
Qed.

Lemma scan_files_agrees w files req_to_tests :
  agrees w (fold_run (Logged.scan_file w) files req_to_tests) (scan_files files req_to_tests).
Proof.
  revert req_to_tests.
  induction files as [|[file_name read_text] files IH]; intros req_to_tests;
    cbn [fold_run scan_files]; [apply agrees_ret|].
  assert (Heq : (content ← read_text;
                  scan_files files (scan_file req_to_tests file_name content))
                = ((content ← read_text; Ok (scan_file req_to_tests file_name content))
                     ≫= scan_files files)) by by destruct read_text.
  rewrite Heq. apply agrees_bind; [apply scan_file_agrees|apply IH].
Qed.

Lemma extract_req_ids_from_docstrings_agrees w :
  agrees w (Logged.extract_req_ids_from_docstrings w) (extract_req_ids_from_docstrings w).
Proof.
  unfold Logged.extract_req_ids_from_docstrings, extract_req_ids_from_docstrings.
  apply agrees_after_print.
  apply agrees_then; [apply scan_files_agrees|]. intros req_to_tests.
  apply agrees_after_print, agrees_ret.
Qed.

Lemma get_requirement_statuses_agrees w test_outcomes req_to_tests :
  agrees w (Logged.get_requirement_statuses w test_outcomes req_to_tests)
           (Ok (get_requirement_statuses test_outcomes req_to_tests)).
Proof.
  unfold Logged.get_requirement_statuses, get_requirement_statuses.
  apply agrees_after_print.
  apply agrees_then.
  - apply agrees_fold_run. intros d [req_id test_names].
    unfold Logged.status_step, status_step. apply agrees_after_print.
    destruct (existsb _ _); [apply agrees_ret|].
    destruct (_ && _); [apply agrees_ret|].
    apply agrees_after_print, agrees_ret.
  - intros d. apply agrees_after_print, agrees_ret.
Qed.

(** What a step that agrees with [r] does from a state [s]. *)
Lemma agrees_run {A} w (m : run state A) r s :
  agrees w m r ->
  exists res s',
    m s = (res, s') /\ output s' = output s /\
    (forall a, res = Ok a -> r = Ok a) /\ (quiet w -> res = r).
Proof.
  intros H. destruct (H s) as (Hout & Hval & Hq).
  destruct (m s) as [res s']. by exists res, s'.
Qed.

Lemma print_run w m s :
  exists res s',
    print w m s = (res, s') /\ output s' = output s /\ (quiet w -> res = Ok tt).
Proof.
  destruct (agrees_run w _ _ s (agrees_print w m)) as (res & s' & H & Hout & _ & Hq).
  by exists res, s'.
Qed.

(** A subprocess call guarded by [except subprocess.CalledProcessError]. *)
Lemma guarded_run {A} w (r : result A) (ok : A -> run state bool) (failed : run state bool) s :
  (forall a, agrees w (ok a) (Ok true)) ->
  agrees w failed (Ok false) ->
  exists res s',
    try_catch (a ← lift r; ok a)
      (fun e => match e with CalledProcessError => failed | _ => raise e end) s
      = (res, s') /\
    output s' = output s /\
    (res = Ok true -> exists a, r = Ok a) /\
    (res = Ok true \/ res = Ok false \/ exists e, res = Raise e) /\
    (quiet w -> forall a, r = Ok a -> res = Ok true).
Proof.
  intros Hok Hfailed. unfold try_catch. rewrite bind_eq. unfold lift at 1.
  assert (Hhandler : forall e s1, output s1 = output s ->
    exists res s',
      match e with CalledProcessError => failed | _ => raise e end s1 = (res, s') /\
      output s' = output s /\ res <> Ok true /\
      (res = Ok true \/ res = Ok false \/ exists e, res = Raise e)).
  { intros e s1 Hs1. destruct e; cbn [raise].
    2,3: eexists _, s1; repeat split; eauto; done.
    destruct (agrees_run w _ _ s1 Hfailed) as (res & s2 & -> & Hout & Hval & _).
    exists res, s2. split; [done|]. split; [congruence|].
    destruct res as [[|]|e]; [by specialize (Hval _ eq_refl)|split; auto|split; eauto]. }
  destruct r as [a|e].
  - destruct (agrees_run w _ _ s (Hok a)) as (res & s1 & -> & Hout & Hval & Hq).
    destruct res as [b|e].
    + specialize (Hval _ eq_refl) as [= <-]. exists (Ok true), s1.
      split; [done|]. split; [done|]. split; [eauto|]. split; [auto|done].
    + destruct (Hhandler e s1 Hout) as (res & s2 & -> & Hout2 & Hne & Hcases).
      exists res, s2.
      split; [done|]. split; [done|]. split; [done|]. split; [done|].
      intros Hquiet. by specialize (Hq Hquiet).
  - destruct (Hhandler e s eq_refl) as (res & s2 & -> & Hout2 & Hne & Hcases).
    exists res, s2.
    split; [done|]. split; [done|]. split; [done|]. split; [done|]. done.
Qed.

Lemma check_pytest_available_run w s :
  exists res s',
    check_pytest_available w s = (res, s') /\ output s' = output s /\
    (res = Ok true -> exists v, pytest_version w = Ok v) /\
    (res = Ok true \/ res = Ok false \/ exists e, res = Raise e) /\
    (quiet w -> forall v, pytest_version w = Ok v -> res = Ok true).
Proof.
  apply guarded_run.
  - intros v. apply agrees_after_print, agrees_ret.
  - apply agrees_after_print, agrees_after_print, agrees_ret.
Qed.

Lemma run_tests_run w s :
  exists res s',
    run_tests w s = (res, s') /\ output s' = output s /\
    (res = Ok true -> exists out, pytest_run w = Ok out) /\
    (res = Ok true \/ res = Ok false \/ exists e, res = Raise e) /\
    (quiet w -> forall out, pytest_run w = Ok out -> res = Ok true).
Proof.
  unfold run_tests. rewrite bind_eq.
  destruct (agrees_run w _ _ s (agrees_print w MsgRunning))
    as (res0 & s0 & -> & Hout0 & _ & Hq0).
  destruct res0 as [[]|e].
  - edestruct (guarded_run w (pytest_run w)) as (res & s1 & -> & Hout & Hok & Hcases & Hq).
    + intros out. apply agrees_after_print, agrees_after_print, agrees_ret.
    + apply agrees_after_print, agrees_after_print, agrees_after_print, agrees_ret.
    + exists res, s1. repeat split; eauto. congruence.
  - exists (Raise e), s0. repeat split; eauto; try done.
    intros Hquiet. by specialize (Hq0 Hquiet).
Qed.

(** One step of a run recorded in [H], by a computation that [lemma] shows
    to leave the report file alone; [failed] closes the case in which the
    step raises. *)
Ltac step_at H lemma failed :=
  let res := fresh "res" in
  let s' := fresh "s" in
  let Hrun := fresh "Hrun" in
  let Hout := fresh "Hout" in
  let Hval := fresh "Hval" in
  lazymatch type of H with
  | match ?m ?s with _ => _ end = _ =>
      destruct (agrees_run _ m _ s lemma) as (res & s' & Hrun & Hout & Hval & _);
      rewrite Hrun in H; clear Hrun; cbn [output] in Hout;
      destruct res as [?|?];
      [specialize (Hval _ eq_refl)|injection H as <- <-; failed]
  end.

Ltac step H lemma failed := rewrite bind_eq in H; step_at H lemma failed.

Ltac nothing_written := left; split; [congruence|eauto].

(** The same step when the console never raises. *)
Ltac quiet_step_at H Hquiet lemma :=
  let res := fresh "res" in
  let s' := fresh "s" in
  let Hrun := fresh "Hrun" in
  let Hout := fresh "Hout" in
  let Hq := fresh "Hq" in
  lazymatch type of H with
  | match ?m ?s with _ => _ end = _ =>
      destruct (agrees_run _ m _ s lemma) as (res & s' & Hrun & Hout & _ & Hq);
      rewrite Hrun in H; clear Hrun; cbn [output] in Hout;
      specialize (Hq Hquiet); subst res
  end.

Ltac quiet_step H Hquiet lemma := rewrite bind_eq in H; quiet_step_at H Hquiet lemma.

(** A run of the [try] block of [main] either writes nothing and fails, or
    gets as far as writing the report. *)
Lemma main_steps_run w s r sf :
  main_steps w s = (r, sf) ->
  (output sf = output s /\ (r = Ok 1%Z \/ exists e, r = Raise e)) \/
  exists out test_outcomes req_to_tests,
    pytest_run w = Ok out /\
    parse_test_report w = Ok test_outcomes /\
    extract_req_ids_from_docstrings w = Ok req_to_tests /\
    let report :=
      build_markdown_report w (get_requirement_statuses test_outcomes req_to_tests)
        req_to_tests test_outcomes in
    ((exists e kept, output_write w report = Truncated e kept /\
                     r = Raise e /\ output sf = Some kept) \/
     (output_write w report = Written /\ output sf = Some report /\
      (r = Ok 0%Z \/ exists e, r = Raise e))).
Proof.
  unfold main_steps. intros H. rewrite bind_eq in H.
  destruct (run_tests_run w s) as (ran & s0 & Hran & Hout0 & Hok & Hcases & _).
  rewrite Hran in H. clear Hran.
  destruct Hcases as [->|[->|[e ->]]]; cbn [negb] in H.
  2: { step H (agrees_print w MsgRunFailed) nothing_written.
       injection H as <- <-. nothing_written. }
  2: { injection H as <- <-. nothing_written. }
  destruct (Hok eq_refl) as [out Hpytest].
  step H (parse_test_report_agrees w) nothing_written.
  step H (agrees_print w MsgDebugOutcomes) nothing_written.
  step H (agrees_for_each w (fun item : pystr * pystr => print w (MsgOutcome item.1 item.2))
            (take 5 a) (fun item => agrees_print w _)) nothing_written.
  step H (agrees_print w (MsgMore (Z.of_nat (length a) - 5))) nothing_written.
  step H (extract_req_ids_from_docstrings_agrees w) nothing_written.
  step H (agrees_print w MsgDebugMapping) nothing_written.
  step H (agrees_for_each w
            (fun item : pystr * list pystr => print w (MsgMappingEntry item.1 item.2))
            (take 5 a3) (fun item => agrees_print w _)) nothing_written.
  step H (agrees_print w (MsgMore (Z.of_nat (length a3) - 5))) nothing_written.
  step H (get_requirement_statuses_agrees w a a3) nothing_written.
  injection Hval7 as <-.
  step H (agrees_print w MsgDebugStatuses) nothing_written.
  step H (agrees_for_each w (fun item : pystr * pystr => print w (MsgStatus item.1 item.2))
            (get_requirement_statuses a a3) (fun item => agrees_print w _)) nothing_written.
  rewrite bind_eq in H. unfold write_markdown_report in H. rewrite bind_eq in H.
  unfold write_text at 1 in H.
  destruct (output_write w _) as [|e|e kept] eqn:Hwrite.
  - right. exists out, a, a3. split; [done|]. split; [done|]. split; [done|].
    cbv zeta. right. split; [done|].
    step_at H (agrees_print w MsgReportWritten) ltac:(split; [done|eauto]).
    step H (agrees_print w MsgCompleted) ltac:(split; [congruence|eauto]).
    injection H as <- <-. split; [congruence|auto].
  - injection H as <- <-. nothing_written.
  - injection H as <- <-. right. exists out, a, a3.
    split; [done|]. split; [done|]. split; [done|].
    cbv zeta. left. by exists e, kept.
Qed.

(** The console never raising, the [try] block writes the report when every
    step succeeds. *)
Lemma main_steps_quiet w s out test_outcomes req_to_tests :
  quiet w ->
  pytest_run w = Ok out ->
  parse_test_report w = Ok test_outcomes ->
  extract_req_ids_from_docstrings w = Ok req_to_tests ->
  let report :=
    build_markdown_report w (get_requirement_statuses test_outcomes req_to_tests)
      req_to_tests test_outcomes in
  output_write w report = Written ->
  exists sf, main_steps w s = (Ok 0%Z, sf) /\ output sf = Some report.
Proof.
  intros Hquiet Hpytest Hparse Hextract report Hwrite.
  destruct (main_steps w s) as [r sf] eqn:H. unfold main_steps in H.
  rewrite bind_eq in H.
  destruct (run_tests_run w s) as (ran & s0 & Hran & Hout0 & _ & _ & Hq).
  rewrite Hran, (Hq Hquiet out Hpytest) in H. clear Hran. cbn [negb] in H.
  quiet_step H Hquiet (parse_test_report_agrees w). rewrite Hparse in H.
  quiet_step H Hquiet (agrees_print w MsgDebugOutcomes).
  quiet_step H Hquiet
    (agrees_for_each w (fun item : pystr * pystr => print w (MsgOutcome item.1 item.2))
       (take 5 test_outcomes) (fun item => agrees_print w _)).
  quiet_step H Hquiet (agrees_print w (MsgMore (Z.of_nat (length test_outcomes) - 5))).
  quiet_step H Hquiet (extract_req_ids_from_docstrings_agrees w). rewrite Hextract in H.
  quiet_step H Hquiet (agrees_print w MsgDebugMapping).
  quiet_step H Hquiet
    (agrees_for_each w
       (fun item : pystr * list pystr => print w (MsgMappingEntry item.1 item.2))
       (take 5 req_to_tests) (fun item => agrees_print w _)).
  quiet_step H Hquiet (agrees_print w (MsgMore (Z.of_nat (length req_to_tests) - 5))).
  quiet_step H Hquiet (get_requirement_statuses_agrees w test_outcomes req_to_tests).
  quiet_step H Hquiet (agrees_print w MsgDebugStatuses).
  quiet_step H Hquiet
    (agrees_for_each w (fun item : pystr * pystr => print w (MsgStatus item.1 item.2))
       (get_requirement_statuses test_outcomes req_to_tests)
       (fun item => agrees_print w _)).
  rewrite bind_eq in H. unfold write_markdown_report in H. rewrite bind_eq in H.
  unfold write_text at 1 in H. fold report in H. rewrite Hwrite in H.
  quiet_step_at H Hquiet (agrees_print w MsgReportWritten).
  quiet_step H Hquiet (agrees_print w MsgCompleted).
  injection H as <- <-. eexists. split; [reflexivity|congruence].
Qed.

(** What a run of the script comes to: it writes nothing and exits with
    status 1, or every step before the write has succeeded and [write_text]
    has opened the report file. *)
Lemma script_cases w :
  script w = (1%Z, output_file w) \/
  exists v b out test_outcomes req_to_tests,
    pytest_version w = Ok v /\
    f_exists (srvp w) = Ok b /\
    tests_dir_exists w = Ok true /\
    pytest_run w = Ok out /\
    parse_test_report w = Ok test_outcomes /\
    extract_req_ids_from_docstrings w = Ok req_to_tests /\
    let report :=
      build_markdown_report w (get_requirement_statuses test_outcomes req_to_tests)
        req_to_tests test_outcomes in
    ((exists e kept, output_write w report = Truncated e kept /\
                     script w = (1%Z, Some kept)) \/
     (output_write w report = Written /\
      (script w = (0%Z, Some report) \/ script w = (1%Z, Some report)))).
Proof.
  unfold script. destruct (main w (State [] (output_file w))) as [r sf] eqn:H.
  set (s := State [] (output_file w)) in H.
  assert (Hfail : output sf = output s /\ (r = Ok 1%Z \/ exists e, r = Raise e) ->
                  (match r with Ok status => status | Raise _ => 1%Z end, output sf)
                  = (1%Z, output_file w)).
  { intros [-> [->|[e ->]]]; reflexivity. }
  unfold main in H.
  step H (agrees_print w MsgBanner) ltac:(left; apply Hfail; split; [congruence|eauto]).
  rewrite bind_eq in H.
  destruct (check_pytest_available_run w s0) as (avail & s1 & Hrun & Hout1 & Hok & Hcases & _).
  rewrite Hrun in H. clear Hrun.
  destruct Hcases as [->|[->|[e ->]]]; cbn [negb] in H.
  2,3: injection H as <- <-; left; apply Hfail; split; [congruence|eauto].
  destruct (Hok eq_refl) as [v Hversion].
  step H (agrees_lift w (f_exists (srvp w)))
    ltac:(left; apply Hfail; split; [congruence|eauto]).
  assert (Hwarn : agrees w (if negb a0 then print w MsgNoSrvp else mret ()) (Ok tt)).
  { destruct a0; [apply agrees_ret|apply agrees_print]. }
  step H Hwarn ltac:(left; apply Hfail; split; [congruence|eauto]).
  step H (agrees_lift w (tests_dir_exists w))
    ltac:(left; apply Hfail; split; [congruence|eauto]).
  destruct a2; cbn [negb] in H.
  2: { step H (agrees_print w MsgNoTestsDir)
         ltac:(left; apply Hfail; split; [congruence|eauto]).
       injection H as <- <-. left. apply Hfail. split; [congruence|eauto]. }
  unfold try_catch in H.
  destruct (main_steps w s4) as [r0 s5] eqn:Hsteps.
  apply main_steps_run in Hsteps.
  assert (Hhandler : forall e, agrees w
            (_ ← print w (MsgError e); _ ← print w (MsgTraceback e); mret 1%Z) (Ok 1%Z)).
  { intros e. apply agrees_after_print, agrees_after_print, agrees_ret. }
  destruct Hsteps as [[Hout5 Hr0]|(out & test_outcomes & req_to_tests & Hpytest & Hparse
                                   & Hextract & Hwritten)].
  - left. apply Hfail. destruct Hr0 as [->|[e ->]].
    + injection H as <- <-. split; [congruence|eauto].
    + destruct (agrees_run w _ _ s5 (Hhandler e)) as (res & s6 & Hrun & Hout6 & Hval6 & _).
      rewrite Hrun in H. injection H as <- <-. split; [congruence|].
      destruct res as [z|e']; [|eauto]. specialize (Hval6 _ eq_refl) as [= <-]. auto.
  - right. exists v, a0, out, test_outcomes, req_to_tests.
    split; [done|]. split; [done|]. split; [done|]. split; [done|].
    split; [done|]. split; [done|]. cbv zeta in *.
    destruct Hwritten as [(e & kept & Hwrite & -> & Hout5)|(Hwrite & Hout5 & Hr0)].
    + left. exists e, kept. split; [done|].
      destruct (agrees_run w _ _ s5 (Hhandler e)) as (res & s6 & Hrun & Hout6 & Hval6 & _).
      rewrite Hrun in H. injection H as <- <-. rewrite Hout6, Hout5.
      destruct res as [z|e']; [|done]. by specialize (Hval6 _ eq_refl) as [= <-].
    + right. split; [done|]. destruct Hr0 as [->|[e ->]].
      * injection H as <- <-. left. by rewrite Hout5.
      * destruct (agrees_run w _ _ s5 (Hhandler e)) as (res & s6 & Hrun & Hout6 & Hval6 & _).
        rewrite Hrun in H. injection H as <- <-. right. rewrite Hout6, Hout5.
        destruct res as [z|e']; [|done]. by specialize (Hval6 _ eq_refl) as [= <-].
Qed.

(** The console never raising, the script succeeds when every step does. *)
Lemma script_quiet w v b out test_outcomes req_to_tests :
  quiet w ->
  pytest_version w = Ok v ->
  f_exists (srvp w) = Ok b ->
  tests_dir_exists w = Ok true ->
  pytest_run w = Ok out ->
  parse_test_report w = Ok test_outcomes ->
  extract_req_ids_from_docstrings w = Ok req_to_tests ->
  let report :=
    build_markdown_report w (get_requirement_statuses test_outcomes req_to_tests)
      req_to_tests test_outcomes in
  output_write w report = Written ->
  script w = (0%Z, Some report).
Proof.
  intros Hquiet Hversion Hsrvp Hdir Hpytest Hparse Hextract report Hwrite.
  unfold script. destruct (main w (State [] (output_file w))) as [r sf] eqn:H.
  unfold main in H.
  quiet_step H Hquiet (agrees_print w MsgBanner).
  rewrite bind_eq in H.
  destruct (check_pytest_available_run w s) as (avail & s1 & Hrun & Hout1 & _ & _ & Hq).
  rewrite Hrun, (Hq Hquiet v Hversion) in H. clear Hrun. cbn [negb] in H.
  quiet_step H Hquiet (agrees_lift w (f_exists (srvp w))). rewrite Hsrvp in H.
  assert (Hwarn : agrees w (if negb b then print w MsgNoSrvp else mret ()) (Ok tt)).
  { destruct b; [apply agrees_ret|apply agrees_print]. }
  quiet_step H Hquiet Hwarn.
  quiet_step H Hquiet (agrees_lift w (tests_dir_exists w)). rewrite Hdir in H.
  cbn [negb] in H. unfold try_catch in H.
  destruct (main_steps_quiet w s3 out test_outcomes req_to_tests
              Hquiet Hpytest Hparse Hextract Hwrite) as (s4 & Hsteps & Hout4).
  rewrite Hsteps in H. injection H as <- <-. by rewrite Hout4.
Qed.

Lemma parse_needs_the_feed w test_outcomes :
  parse_test_report w = Ok test_outcomes ->
  report_exists w = Ok true /\ exists report, report_load w = Ok report.
Proof.
  unfold parse_test_report.
  destruct (report_exists w) as [[|]|]; cbn; try done.
  destruct (report_load w) as [report|]; cbn; [eauto|done].
Qed.

(** C8: on a fatal failure the script exits with status 1 and OUTPUT_PATH
    keeps the text it held. The file holds another text afterwards only if
    every earlier step has succeeded and the run has reached the write: it
    then holds the report, or what a write that raised has left in it. A run
    that exits with status 0 has passed every step and written the report. *)
Theorem fatal_failure_writes_no_report (w : world) :
  (fatal_failure w -> script w = (1%Z, output_file w)) /\
  (snd (script w) <> output_file w ->
     exists v out test_outcomes req_to_tests,
       pytest_version w = Ok v /\
       pytest_run w = Ok out /\
       parse_test_report w = Ok test_outcomes /\
       extract_req_ids_from_docstrings w = Ok req_to_tests /\
       let report :=
         build_markdown_report w (get_requirement_statuses test_outcomes req_to_tests)
           req_to_tests test_outcomes in
       (output_write w report = Written /\ snd (script w) = Some report) \/
       (exists e kept, output_write w report = Truncated e kept /\
                       script w = (1%Z, Some kept))) /\
  (fst (script w) = 0%Z ->
     exists v out test_outcomes req_to_tests,
       pytest_version w = Ok v /\
       pytest_run w = Ok out /\
       parse_test_report w = Ok test_outcomes /\
       extract_req_ids_from_docstrings w = Ok req_to_tests /\
       let report :=
         build_markdown_report w (get_requirement_statuses test_outcomes req_to_tests)
           req_to_tests test_outcomes in
       output_write w report = Written /\ snd (script w) = Some report) /\
  (fst (script w) = 0%Z \/ fst (script w) = 1%Z).
Proof.
  destruct (script_cases w) as
    [Hfail|(v & b & out & test_outcomes & req_to_tests & Hversion & Hsrvp & Hdir & Hpytest
            & Hparse & Hextract & Hwritten)].
  - rewrite Hfail. cbn [fst snd]. split; [done|]. split; [done|]. split; [done|auto].
  - cbv zeta in Hwritten. split; [|split; [|split]].
    + intros Hfatal. exfalso.
      destruct (parse_needs_the_feed w _ Hparse) as (Hexists & report & Hload).
      destruct Hfatal as [e H|e H|H|e H|e H|e H]; congruence.
    + intros _. exists v, out, test_outcomes, req_to_tests.
      split; [done|]. split; [done|]. split; [done|]. split; [done|]. cbv zeta.
      destruct Hwritten as [(e & kept & Hwrite & ->)|(Hwrite & [-> | ->])]; cbn [fst snd].
      * right. by exists e, kept.
      * by left.
      * by left.
    + intros Hstatus. exists v, out, test_outcomes, req_to_tests.
      split; [done|]. split; [done|]. split; [done|]. split; [done|]. cbv zeta.
      destruct Hwritten as [(e & kept & Hwrite & Hscript)|(Hwrite & [Hscript|Hscript])];
        rewrite Hscript in Hstatus |- *; cbn [fst snd] in *; done.
    + destruct Hwritten as [(e & kept & Hwrite & ->)|(Hwrite & [-> | ->])]; cbn [fst]; auto.
Qed.

(** ** The requirement grammar *)

Lemma is_upper_AZ_range c : is_upper_AZ c = true <-> 65 <= c <= 90.
Proof. unfold is_upper_AZ. rewrite andb_true_iff, !N.leb_le. tauto. Qed.

Lemma upper_not_dash c : is_upper_AZ c = true -> (c =? 45) = false.
Proof. rewrite is_upper_AZ_range. intros H. apply N.eqb_neq. lia. Qed.

Lemma upper_not_digit c : is_upper_AZ c = true -> is_digit c = false.
Proof.
  rewrite is_upper_AZ_range. intros H. unfold is_digit, is_ascii_digit.
  destruct (N.ltb_spec c 128); [|lia].
  apply andb_false_iff. right. apply N.leb_gt. lia.
Qed.

Lemma seg_tail_length s s' : seg_tail s = Some s' -> (length s' < length s)%nat.
Proof.
  revert s'. induction s as [|y s IH]; intros s'; simpl; [done|].
  destruct (is_upper_AZ y).
  - intros H%IH. lia.
  - destruct (y =? 45); [|done]. intros [= ->]. lia.
Qed.

Lemma upper_seg_length s s' : upper_seg s = Some s' -> (length s' < length s)%nat.
Proof.
  destruct s as [|x s]; simpl; [done|]. destruct (is_upper_AZ x); [|done].
  intros H%seg_tail_length. lia.
Qed.

(** ** The matcher on the requirement pattern *)

Lemma rmatch_Lit l c p s :
  rmatch (Lit l) (Thread c p s) =
  match strip_prefix l s with
  | Some tail => [Thread c (fold_left (fun _ a => Some a) l p) tail]
  | None => []
  end.
Proof.
  revert p s. induction l as [|a l IH]; intros p s; [done|].
  cbn [Lit rmatch Chr rest caps strip_prefix fold_left].
  destruct s as [|x s]; [done|]. unfold is_char.
  destruct (N.eqb_spec x a) as [->|Hne]; [|done].
  cbn [flat_map]. rewrite IH, app_nil_r. done.
Qed.

Lemma star_upper_then_dash fuel c p s :
  (length s <= fuel)%nat ->
  flat_map (rmatch (Chr 45))
           (star_iter (rmatch (Cls is_upper_AZ)) true fuel (Thread c p s)) =
  match seg_tail s with
  | Some tail => [Thread c (Some 45) tail]
  | None => []
  end.
Proof.
  revert c p s. induction fuel as [|fuel IH]; intros c p s Hfuel.
  - destruct s; [done|simpl in Hfuel; lia].
  - cbn [star_iter rmatch rest caps].
    destruct s as [|y s]; [done|]. cbn [seg_tail].
    destruct (is_upper_AZ y) eqn:Hy.
    + cbn [flat_map rest length]. rewrite app_nil_r.
      assert ((length s <? S (length s))%nat = true) as -> by (apply Nat.ltb_lt; lia).
      rewrite flat_map_app. cbn [flat_map rmatch Chr rest]. unfold is_char at 2.
      rewrite (upper_not_dash _ Hy), !app_nil_r.
      apply IH. simpl in Hfuel. lia.
    + cbn [flat_map app rmatch Chr rest caps]. unfold is_char.
      destruct (N.eqb_spec y 45) as [->|Hne]; done.
Qed.

Lemma rmatch_GROUP c p s :
  rmatch GROUP (Thread c p s) =
  match upper_seg s with
  | Some tail => [Thread c (Some 45) tail]
  | None => []
  end.
Proof.
  unfold GROUP, Plus. cbn [rmatch rest caps].
  destruct s as [|x s]; [done|]. cbn [upper_seg].
  destruct (is_upper_AZ x); [|done].
  cbn [flat_map rest]. rewrite !app_nil_r.
  by apply star_upper_then_dash.
Qed.

Lemma rmatch_three_digits c p s :
  rmatch (Rep 3 (Cls is_digit)) (Thread c p s) = thread_after c (three_digits s).
Proof.
  cbn [Rep rmatch rest caps].
  destruct s as [|d1 [|d2 [|d3 tail]]]; cbn [three_digits thread_after].
  - done.
  - by destruct (is_digit d1).
  - destruct (is_digit d1); [|done]. cbn [flat_map rest caps]. by destruct (is_digit d2).
  - destruct (is_digit d1); [|done]. cbn [flat_map rest caps].
    destruct (is_digit d2); [|done]. cbn [flat_map rest caps andb app].
    by destruct (is_digit d3).
Qed.

Lemma upper_seg_no_digits s tail : upper_seg s = Some tail -> three_digits s = None.
Proof.
  destruct s as [|x s]; [done|]. cbn [upper_seg].
  destruct (is_upper_AZ x) eqn:Hx; [|done]. intros _.
  unfold three_digits. destruct s as [|d2 [|d3 t]]; try done.
  by rewrite (upper_not_digit _ Hx).
Qed.

Lemma star_groups_then_digits fuel c p s :
  (length s <= fuel)%nat ->
  flat_map (rmatch (Rep 3 (Cls is_digit)))
           (star_iter (rmatch GROUP) true fuel (Thread c p s)) =
  thread_after c (groups_digits fuel s).
Proof.
  revert p s. induction fuel as [|fuel IH]; intros p s Hfuel.
  - cbn [star_iter flat_map groups_digits]. by rewrite app_nil_r, rmatch_three_digits.
  - cbn [star_iter groups_digits]. rewrite rmatch_GROUP.
    destruct (upper_seg s) as [tail|] eqn:Hseg.
    + pose proof (upper_seg_length _ _ Hseg) as Hlen.
      cbn [flat_map rest]. rewrite app_nil_r.
      assert ((length tail <? length s)%nat = true) as -> by (by apply Nat.ltb_lt).
      rewrite flat_map_app. cbn [flat_map]. rewrite rmatch_three_digits.
      rewrite (upper_seg_no_digits _ _ Hseg). cbn [thread_after]. rewrite !app_nil_r.
      apply IH. lia.
    + cbn [flat_map app]. by rewrite app_nil_r, rmatch_three_digits.
Qed.

Lemma rmatch_REQ_PATTERN c p s :
  rmatch REQ_PATTERN (Thread c p s) = thread_after c (req_match s).
Proof.
  unfold REQ_PATTERN, req_match. cbn [rmatch]. rewrite rmatch_Lit.
  destruct (strip_prefix (u "REQ-") s) as [s1|]; [|done].
  cbn [flat_map]. rewrite app_nil_r.
  change (Seq (Plus (Cls is_upper_AZ)) (Chr 45)) with GROUP.
  unfold Plus at 1. cbn [rmatch]. rewrite rmatch_GROUP.
  destruct (upper_seg s1) as [s2|]; [|done].
  cbn [flat_map rest]. rewrite !app_nil_r.
  by apply star_groups_then_digits.
Qed.

(** ** The reference matcher and the grammar *)

Lemma seg_tail_sound s tail :
  seg_tail s = Some tail ->
  exists g, Forall (fun c => is_upper_AZ c = true) g /\ s = g ++ 45 :: tail.
Proof.
  revert tail. induction s as [|y s IH]; intros tail; simpl; [done|].
  destruct (is_upper_AZ y) eqn:Hy.
  - intros (g & Hg & ->)%IH. exists (y :: g). split; [by constructor|done].
  - destruct (N.eqb_spec y 45) as [->|]; [|done].
    intros [= ->]. exists []. split; [constructor|done].
Qed.

Lemma upper_seg_sound s tail :
  upper_seg s = Some tail -> exists g, is_segment g /\ s = g ++ 45 :: tail.
Proof.
  destruct s as [|x s]; simpl; [done|].
  destruct (is_upper_AZ x) eqn:Hx; [|done].
  intros (g & Hg & ->)%seg_tail_sound. exists (x :: g).
  split; [|done]. split; [done|by constructor].
Qed.

Lemma three_digits_sound s d tail :
  three_digits s = Some (d, tail) ->
  exists d1 d2, is_digit d1 = true /\ is_digit d2 = true /\ is_digit d = true /\
    s = [d1; d2; d] ++ tail.
Proof.
  unfold three_digits. destruct s as [|d1 [|d2 [|d3 t]]]; try done.
  destruct (is_digit d1) eqn:H1, (is_digit d2) eqn:H2, (is_digit d3) eqn:H3; try done.
  intros [= -> ->]. by exists d1, d2.
Qed.

Lemma groups_digits_sound fuel s d tail :
  groups_digits fuel s = Some (d, tail) ->
  exists segs d1 d2,
    Forall is_segment segs /\
    is_digit d1 = true /\ is_digit d2 = true /\ is_digit d = true /\
    s = concat (List.map (fun g => g ++ [45]) segs) ++ [d1; d2; d] ++ tail.
Proof.
  revert s. induction fuel as [|fuel IH]; intros s; simpl.
  - intros (d1 & d2 & ? & ? & ? & ->)%three_digits_sound.
    exists [], d1, d2. repeat split; done.
  - destruct (upper_seg s) as [s'|] eqn:Hseg.
    + apply upper_seg_sound in Hseg as (g & Hg & ->).
      intros (segs & d1 & d2 & Hsegs & ? & ? & ? & ->)%IH.
      exists (g :: segs), d1, d2. repeat split; try done; [by constructor|].
      simpl. by rewrite <- !app_assoc.
    + intros (d1 & d2 & ? & ? & ? & ->)%three_digits_sound.
      exists [], d1, d2. repeat split; done.
Qed.

Lemma req_match_sound s d tail :
  req_match s = Some (d, tail) -> exists x, is_req_id x /\ s = x ++ tail.
Proof.
  unfold req_match.
  destruct (strip_prefix (u "REQ-") s) as [s1|] eqn:Hpre; [|done].
  apply strip_prefix_sound in Hpre as ->.
  destruct (upper_seg s1) as [s2|] eqn:Hseg; [|done].
  apply upper_seg_sound in Hseg as (g & Hg & ->).
  intros (segs & d1 & d2 & Hsegs & ? & ? & ? & ->)%groups_digits_sound.
  exists (u "REQ-" ++ concat (List.map (fun g => g ++ [45]) (g :: segs)) ++ [d1; d2; d]).
  split.
  - exists (g :: segs), d1, d2, d. repeat split; try done. by constructor.
  - simpl. by rewrite <- !app_assoc.
Qed.

Lemma seg_tail_complete g tail :
  Forall (fun c => is_upper_AZ c = true) g -> seg_tail (g ++ 45 :: tail) = Some tail.
Proof. induction 1 as [|c g Hc Hg IH]; simpl; [done|]. by rewrite Hc. Qed.

Lemma upper_seg_complete g tail :
  is_segment g -> upper_seg (g ++ 45 :: tail) = Some tail.
Proof.
  intros [Hne Hg]. destruct g as [|c g]; [done|].
  inversion Hg as [|? ? Hc Hg']; subst. simpl. rewrite Hc.
  by apply seg_tail_complete.
Qed.

Lemma digit_not_upper d : is_digit d = true -> is_upper_AZ d = false.
Proof.
  intros Hd. destruct (is_upper_AZ d) eqn:Hu; [|done].
  apply upper_not_digit in Hu. congruence.
Qed.

Lemma groups_digits_complete segs d1 d2 d3 tail fuel :
  Forall is_segment segs ->
  is_digit d1 = true -> is_digit d2 = true -> is_digit d3 = true ->
  (length (concat (List.map (fun g : pystr => g ++ [45%N]) segs)) <= fuel)%nat ->
  groups_digits fuel (concat (List.map (fun g => g ++ [45]) segs) ++ [d1; d2; d3] ++ tail)
  = Some (d3, tail).
Proof.
  intros Hsegs H1 H2 H3. revert fuel.
  induction Hsegs as [|g segs Hg Hsegs IH]; intros fuel Hfuel.
  - simpl. destruct fuel; simpl; rewrite ?(digit_not_upper _ H1), H1, H2, H3; done.
  - cbn [List.map concat] in *. rewrite !length_app in Hfuel. cbn [length] in Hfuel.
    destruct fuel as [|fuel]; [lia|].
    cbn [groups_digits]. rewrite <- !app_assoc. cbn [app].
    rewrite (upper_seg_complete g _ Hg). apply IH. lia.
Qed.

Lemma req_match_complete x tail :
  is_req_id x -> exists d, req_match (x ++ tail) = Some (d, tail).
Proof.
  intros (segs & d1 & d2 & d3 & Hne & Hsegs & H1 & H2 & H3 & ->).
  exists d3. unfold req_match. rewrite <- !app_assoc, strip_prefix_complete.
  destruct segs as [|g segs]; [done|]. inversion Hsegs as [|? ? Hg Hsegs']; subst.
  simpl. rewrite <- !app_assoc. simpl. rewrite (upper_seg_complete g _ Hg).
  apply groups_digits_complete; try done.
  rewrite length_app. apply Nat.le_add_r.
Qed.

(** ** [findall] on the requirement pattern *)

Lemma is_req_id_nonempty x : is_req_id x -> x <> [].
Proof. intros (segs & d1 & d2 & d3 & _ & _ & _ & _ & _ & ->). done. Qed.

Lemma take_matched (x tail : pystr) :
  take (length (x ++ tail) - length tail) (x ++ tail) = x.
Proof.
  rewrite length_app. replace (length x + length tail - length tail)%nat with (length x) by lia.
  by rewrite take_app_length.
Qed.

Lemma scan_REQ_sound fuel p s m :
  In m (scan REQ_PATTERN fuel p s) ->
  is_req_id (m_text m) /\ exists before after, s = before ++ m_text m ++ after.
Proof.
  revert p s. induction fuel as [|fuel IH]; intros p s; cbn [scan]; [done|].
  rewrite rmatch_REQ_PATTERN.
  destruct (req_match s) as [[d tail]|] eqn:Hm; cbn [thread_after head].
  - apply req_match_sound in Hm as (x & Hx & ->).
    destruct (x ++ tail) as [|c s'] eqn:Hs.
    { apply app_eq_nil in Hs as [-> _]. by apply is_req_id_nonempty in Hx. }
    rewrite <- Hs. cbn [rest prev caps]. rewrite take_matched.
    intros [<-|Hin].
    + split; [done|]. by exists [], tail.
    + destruct (length tail <? length (x ++ tail))%nat.
      * apply IH in Hin as (Hid & pre & post & ->).
        split; [done|]. exists (x ++ pre), post. by rewrite <- app_assoc.
      * apply IH in Hin as (Hid & pre & post & ->).
        split; [done|]. exists (c :: pre), post. by rewrite Hs.
  - destruct s as [|c s']; [done|].
    intros (Hid & pre & post & ->)%IH.
    split; [done|]. by exists (c :: pre), post.
Qed.

Lemma findall_REQ_sound text x :
  In x (findall REQ_PATTERN text) ->
  is_req_id x /\ exists before after, text = before ++ x ++ after.
Proof.
  unfold findall, finditer. intros (m & <- & Hin)%in_map_iff.
  by eapply scan_REQ_sound.
Qed.

Lemma scan_REQ_nil fuel p : scan REQ_PATTERN fuel p [] = [].
Proof. destruct fuel; cbn [scan]; [done|]. by rewrite rmatch_REQ_PATTERN. Qed.

Lemma findall_REQ_exact x : is_req_id x -> findall REQ_PATTERN x = [x].
Proof.
  intros Hx. unfold findall, finditer.
  destruct (req_match_complete x [] Hx) as [d Hm]. rewrite app_nil_r in Hm.
  pose proof (is_req_id_nonempty _ Hx) as Hne.
  cbn [scan]. rewrite rmatch_REQ_PATTERN, Hm. cbn [thread_after head rest caps prev].
  destruct x as [|c s']; [done|].
  replace (length (c :: s') - length (@nil N))%nat with (length (c :: s')) by (simpl; lia).
  rewrite firstn_all. cbn [length Nat.ltb Nat.leb]. rewrite scan_REQ_nil. done.
Qed.

(** C4 (amended): every identifier that extraction yields is a piece of the
    text that has exactly the form of the grammar, and a text that is an
    identifier yields itself; a lowercase segment or two digits yield
    nothing, while of four digits the first three are taken, the pattern
    not being anchored at the end. *)
Theorem extraction_matches_grammar :
  (forall text x, In x (findall REQ_PATTERN text) ->
     is_req_id x /\ exists before after, text = before ++ x ++ after) /\
  (forall x, is_req_id x -> findall REQ_PATTERN x = [x]) /\
  findall REQ_PATTERN (u "REQ-func-010") = [] /\
  findall REQ_PATTERN (u "REQ-FUNC-10") = [] /\
  findall REQ_PATTERN (u "REQ-FUNC-0100") = [u "REQ-FUNC-010"].
Proof.
  split; [exact findall_REQ_sound|]. split; [exact findall_REQ_exact|].
  repeat split; vm_compute; reflexivity.
Qed.

(** C4, as stated, fails on four digits: the text REQ-FUNC-0100 is not an
    identifier of the grammar, and extraction yields REQ-FUNC-010 for it. *)
Lemma four_digits_yield_an_identifier :
  findall REQ_PATTERN (u "REQ-FUNC-0100") = [u "REQ-FUNC-010"] /\
  ¬ is_req_id (u "REQ-FUNC-0100") /\
  PySet.update [] (findall REQ_PATTERN (u "see REQ-FUNC-0100")) = [u "REQ-FUNC-010"].
Proof.
  split; [by vm_compute|]. split; [|by vm_compute].
  intros Hid%findall_REQ_exact. vm_compute in Hid. congruence.
Qed.

(** ** The association map *)

Lemma tests_mentioning_app ms1 ms2 r :
  tests_mentioning (ms1 ++ ms2) r = tests_mentioning ms1 r ++ tests_mentioning ms2 r.
Proof. unfold tests_mentioning. by rewrite filter_app, map_app. Qed.

Lemma add_req_tests_for t d r' r :
  tests_for (add_req t d r') r = tests_for d r ++ tests_mentioning [(r', t)] r.
Proof.
  unfold tests_for, tests_mentioning, add_req, PyDict.mem. cbn [List.filter fst].
  destruct (str_eqb r' r) eqn:Heq.
  - apply str_eqb_eq in Heq as ->. rewrite PyDictFacts.get_set_eq.
    destruct (PyDict.get d r) eqn:Hget; simpl.
    + by rewrite Hget.
    + by rewrite PyDictFacts.get_set_eq.
  - apply str_eqb_neq in Heq. rewrite PyDictFacts.get_set_ne by done.
    simpl. rewrite app_nil_r.
    destruct (PyDict.get d r'); [done|]. by rewrite PyDictFacts.get_set_ne.
Qed.

Lemma add_req_wf t d r : PyDict.wf d -> PyDict.wf (add_req t d r).
Proof.
  intros Hwf. unfold add_req. apply PyDictFacts.wf_set.
  destruct (PyDict.mem d r); [done|]. by apply PyDictFacts.wf_set.
Qed.

Lemma fold_add_req_tests_for t ids d r :
  tests_for (fold_left (add_req t) ids d) r =
  tests_for d r ++ tests_mentioning (List.map (fun i => (i, t)) ids) r.
Proof.
  revert d. induction ids as [|i ids IH]; intros d; cbn [fold_left List.map].
  - unfold tests_mentioning. simpl. by rewrite app_nil_r.
  - rewrite IH, add_req_tests_for, <- app_assoc, <- tests_mentioning_app. done.
Qed.

Lemma scan_match_tests_for file_name d m r :
  tests_for (scan_match file_name d m) r =
  tests_for d r ++ tests_mentioning (match_mentions file_name m) r.
Proof. unfold scan_match, match_mentions. apply fold_add_req_tests_for. Qed.

Lemma scan_file_tests_for d file_name content r :
  tests_for (scan_file d file_name content) r =
  tests_for d r ++ tests_mentioning (file_mentions file_name content) r.
Proof.
  unfold scan_file, file_mentions.
  generalize (finditer DOCSTRING_PATTERN content). intros ms. revert d.
  induction ms as [|m ms IH]; intros d; cbn [fold_left flat_map].
  - unfold tests_mentioning. simpl. by rewrite app_nil_r.
  - rewrite IH, scan_match_tests_for, tests_mentioning_app, <- app_assoc. done.
Qed.

Lemma scan_files_tests_for files d d' r :
  scan_files files d = Ok d' ->
  tests_for d' r = tests_for d r ++ tests_mentioning (annotation_mentions files) r.
Proof.
  revert d. induction files as [|[file_name [content|e]] files IH]; intros d; simpl.
  - intros [= <-]. unfold tests_mentioning. simpl. by rewrite app_nil_r.
  - intros H%IH. rewrite H, scan_file_tests_for, tests_mentioning_app, <- app_assoc. done.
  - done.
Qed.

Lemma scan_file_wf d file_name content :
  PyDict.wf d -> PyDict.wf (scan_file d file_name content).
Proof.
  unfold scan_file. generalize (finditer DOCSTRING_PATTERN content). intros ms.
  revert d. induction ms as [|m ms IH]; intros d Hwf; cbn [fold_left]; [done|].
  apply IH. unfold scan_match.
  generalize (findall REQ_PATTERN (group m 2)). intros ids. revert d Hwf.
  induction ids as [|i ids IHi]; intros d Hwf; cbn [fold_left]; [done|].
  by apply IHi, add_req_wf.
Qed.

(** The association map is a dictionary: no requirement id twice. *)
Lemma extract_req_ids_from_docstrings_wf w req_to_tests :
  extract_req_ids_from_docstrings w = Ok req_to_tests -> PyDict.wf req_to_tests.
Proof.
  unfold extract_req_ids_from_docstrings.
  assert (Hwf : PyDict.wf (@PyDict.empty (list pystr))) by constructor.
  revert Hwf. generalize (@PyDict.empty (list pystr)). 
  induction (test_files w) as [|[file_name [content|e]] files IH]; intros d Hwf; simpl.
  - by intros [= <-].
  - apply IH. by apply scan_file_wf.
  - done.
Qed.

Lemma tests_mentioning_NoDup ms r :
  List.NoDup ms -> List.NoDup (tests_mentioning ms r).
Proof.
  unfold tests_mentioning. induction 1 as [|[r' t] ms Hnotin Hnd IH]; simpl; [constructor|].
  destruct (str_eqb r' r) eqn:Heq; [|done].
  apply str_eqb_eq in Heq as ->. simpl. constructor; [|done].
  intros ([r2 t2] & Ht & Hin)%in_map_iff. simpl in Ht. subst t2.
  apply filter_In in Hin as [Hin Hr]. simpl in Hr. apply str_eqb_eq in Hr as ->.
  done.
Qed.


(** ** The claims on sample inputs *)

Ltac solve_NoDup :=
  repeat (constructor; [simpl; intuition discriminate|]); constructor.

Lemma same_dict_by_keys {V} (d1 d2 : PyDict.t V) :
  (forall k, In k (PyDict.keys d1 ++ PyDict.keys d2) -> PyDict.get d1 k = PyDict.get d2 k) ->
  same_dict d1 d2.
Proof.
  intros H k. destruct (in_dec (list_eq_dec N.eq_dec) k (PyDict.keys d1 ++ PyDict.keys d2))
    as [Hin|Hout]; [auto|].
  rewrite in_app_iff in Hout.
  assert (PyDict.get d1 k = None) as -> by (apply PyDictFacts.get_None_keys; tauto).
  symmetry. apply PyDictFacts.get_None_keys. tauto.
Qed.

Ltac solve_same_dict :=
  apply same_dict_by_keys; intros k Hk; vm_compute in Hk;
  decompose [or] Hk; subst; try contradiction; vm_compute; reflexivity.

Lemma status_resolution_priority_witness :
  status_of (get_requirement_statuses sample_outcomes sample_req_to_tests)
            (u "REQ-FUNC-LOG-010") = FAILED /\
  status_of (get_requirement_statuses sample_outcomes sample_req_to_tests)
            (u "REQ-FUNC-UI-030") = VERIFIED /\
  status_of (get_requirement_statuses sample_outcomes sample_req_to_tests)
            (u "REQ-NFR-REL-001") = NOT_STARTED.
Proof.
  assert (Hwf : PyDict.wf sample_req_to_tests) by (unfold PyDict.wf; simpl; solve_NoDup).
  split; [|split].
  - refine (proj1 (status_resolution_priority sample_outcomes sample_req_to_tests
      (u "REQ-FUNC-LOG-010") [u "tests/test_x.py::test_log"; u "tests/test_x.py::test_cli"]
      Hwf eq_refl _) _); [discriminate|].
    vm_compute. auto.
  - refine (proj1 (proj2 (status_resolution_priority sample_outcomes sample_req_to_tests
      (u "REQ-FUNC-UI-030") [u "tests/test_x.py::test_log"] Hwf eq_refl _)) _ _);
      [discriminate| |].
    + vm_compute. intuition discriminate.
    + repeat constructor.
  - refine (proj2 (proj2 (status_resolution_priority sample_outcomes sample_req_to_tests
      (u "REQ-NFR-REL-001") [u "tests/test_x.py::test_rel"] Hwf eq_refl _)) _ _);
      [discriminate| |].
    + vm_compute. intuition discriminate.
    + intros Hall. inversion Hall. discriminate.
Defined.

Lemma untested_requirement_reported_witness :
  let text :=
    build_markdown_report sample_world
      (get_requirement_statuses sample_outcomes sample_req_to_tests)
      sample_req_to_tests sample_outcomes in
  is_line_of (u "| REQ-DOC-ONLY-123 | [ ] Not Started |  |") text /\
  is_line_of
    (join [NL]
       [u "### REQ-DOC-ONLY-123";
        [];
        u "- Status: [ ] Not Started";
        u "- Tests:";
        u "  - " ++ [10134] ++ u " No tests mapped yet";
        []])
    text.
Proof.
  assert (Hin : In (u "REQ-DOC-ONLY-123") (all_req_ids_sorted sample_world sample_req_to_tests)).
  { vm_compute. auto. }
  destruct (untested_requirement_reported sample_world sample_outcomes sample_req_to_tests
              (u "REQ-DOC-ONLY-123") Hin eq_refl) as (_ & _ & Hrow & Hblock).
  split; [exact Hrow|exact Hblock].
Defined.



Lemma build_markdown_report_deterministic_witness :
  build_markdown_report sample_world
    (get_requirement_statuses sample_outcomes sample_req_to_tests)
    sample_req_to_tests sample_outcomes =
  build_markdown_report sample_world
    (get_requirement_statuses sample_outcomes_reordered sample_req_to_tests_reordered)
    sample_req_to_tests_reordered sample_outcomes_reordered.
Proof.
  apply build_markdown_report_deterministic.
  - unfold PyDict.wf. simpl. solve_NoDup.
  - unfold PyDict.wf. simpl. solve_NoDup.
  - solve_same_dict.
  - solve_same_dict.
  - solve_same_dict.
  - intros x. reflexivity.
  - reflexivity.
Defined.


Lemma fatal_failure_writes_no_report_witness :
  script failing_world = (1%Z, Some (u "old report")).
Proof.
  apply (proj1 (fatal_failure_writes_no_report failing_world)).
  by apply (tests_run_failed failing_world CalledProcessError).
Defined.

(** C5: a test without a docstring is given the requirement ids of the next
    triple-quoted block of the file: the docstring of the test that follows
    it, which in turn gets none, or a string of its own body. *)
Theorem undocumented_test_takes_next_docstring :
  List.map (fun m => (group m 1, group m 2)) (finditer DOCSTRING_PATTERN undocumented_first)
  = [(u "test_a", u "Covers REQ-FUNC-010.")] /\
  scan_file PyDict.empty (u "test_x.py") undocumented_first
  = [(u "REQ-FUNC-010", [u "tests/test_x.py::test_a"])] /\
  scan_file PyDict.empty (u "test_x.py") string_in_body
  = [(u "REQ-FUNC-020", [u "tests/test_x.py::test_a"])].
Proof. repeat split; vm_compute; reflexivity. Qed.


(** * Further properties of the script *)

(** ** The outcome store *)

Lemma PyDict_get_app {V} (d1 d2 : PyDict.t V) k :
  PyDict.get (d1 ++ d2) k =
  match PyDict.get d1 k with
  | Some v => Some v
  | None => PyDict.get d2 k
  end.
Proof.
  induction d1 as [|[k' v'] d1 IH]; simpl; [done|].
  by destruct (str_eqb k' k).
Qed.

Lemma PyDict_set_length {V} (d : PyDict.t V) k v :
  (length (PyDict.set d k v) <= S (length d))%nat.
Proof.
  induction d as [|[k' v'] d IH]; simpl; [lia|].
  destruct (str_eqb k' k); simpl; lia.
Qed.

Lemma load_outcomes_complete records acc :
  load_outcomes (List.map complete_record records) acc =
  Ok (fold_left (fun d r => PyDict.set d (fst r) (snd r)) records acc).
Proof.
  revert acc. induction records as [|[n o] records IH]; intros acc; simpl; [done|].
  apply IH.
Qed.

Lemma fold_set_get (records : list (pystr * pystr)) acc k :
  PyDict.get (fold_left (fun d r => PyDict.set d (fst r) (snd r)) records acc) k =
  match feed_outcome records k with
  | Some o => Some o
  | None => PyDict.get acc k
  end.
Proof.
  unfold feed_outcome. revert acc.
  induction records as [|[n o] records IH]; intros acc; simpl; [done|].
  rewrite IH, PyDict_get_app. destruct (PyDict.get (rev records) k); [done|].
  simpl. unfold str_eqb. case_bool_decide as Heq.
  - subst. apply PyDictFacts.get_set_eq.
  - by apply PyDictFacts.get_set_ne.
Qed.

Lemma fold_set_wf (records : list (pystr * pystr)) acc :
  PyDict.wf acc ->
  PyDict.wf (fold_left (fun d r => PyDict.set d (fst r) (snd r)) records acc).
Proof.
  revert acc. induction records as [|[n o] records IH]; intros acc Hwf; simpl; [done|].
  by apply IH, PyDictFacts.wf_set.
Qed.

Lemma fold_set_length (records : list (pystr * pystr)) acc :
  (length (fold_left (fun d r => PyDict.set d (fst r) (snd r)) records acc)
   <= length acc + length records)%nat.
Proof.
  revert acc. induction records as [|[n o] records IH]; intros acc; simpl; [lia|].
  etrans; [apply IH|]. pose proof (PyDict_set_length acc n o). lia.
Qed.

(** X1: on a feed whose records all carry a test id and an outcome, the
    outcome store is a dictionary that gives every test id the outcome of
    its last record, and no entry to a test id the feed does not name. *)
Theorem parse_test_report_last_record_wins (w : world) (records : list (pystr * pystr)) :
  report_exists w = Ok true ->
  report_load w = Ok (JObject (Some (List.map complete_record records))) ->
  exists test_outcomes,
    parse_test_report w = Ok test_outcomes /\
    PyDict.wf test_outcomes /\
    (forall nodeid, PyDict.get test_outcomes nodeid = feed_outcome records nodeid) /\
    (forall nodeid, In nodeid (PyDict.keys test_outcomes) <->
                    In nodeid (List.map fst records)) /\
    (length test_outcomes <= length records)%nat.
Proof.
  intros Hex Hload. unfold parse_test_report. rewrite Hex, Hload. simpl.
  rewrite load_outcomes_complete. eexists. split; [reflexivity|].
  assert (Hget : forall nodeid,
    PyDict.get (fold_left (fun d r => PyDict.set d (fst r) (snd r)) records PyDict.empty)
      nodeid = feed_outcome records nodeid).
  { intros nodeid. rewrite fold_set_get. by destruct (feed_outcome records nodeid). }
  split; [apply fold_set_wf; constructor|]. split; [exact Hget|]. split.
  - intros nodeid.
    destruct (PyDict.get (fold_left (fun d r => PyDict.set d (fst r) (snd r)) records
                PyDict.empty) nodeid) as [o|] eqn:Hd.
    + pose proof Hd as Hd'. rewrite Hget in Hd'. unfold feed_outcome in Hd'.
      apply PyDictFacts.get_Some_In in Hd, Hd'. apply PyDictFacts.In_keys in Hd.
      apply in_rev in Hd'. apply (in_map fst) in Hd'. tauto.
    + pose proof Hd as Hd'. rewrite Hget in Hd'. unfold feed_outcome in Hd'.
      apply PyDictFacts.get_None_keys in Hd, Hd'.
      unfold PyDict.keys in Hd'. rewrite map_rev, <- in_rev in Hd'. tauto.
  - apply (fold_set_length records PyDict.empty).
Qed.

Lemma parse_test_report_last_record_wins_witness :
  exists test_outcomes,
    parse_test_report (with_feed (Ok (JObject (Some (List.map complete_record repeated_feed)))))
      = Ok test_outcomes /\
    PyDict.get test_outcomes (u "tests/test_x.py::test_log") = Some (u "passed") /\
    length test_outcomes = 2%nat.
Proof.
  destruct (parse_test_report_last_record_wins
              (with_feed (Ok (JObject (Some (List.map complete_record repeated_feed)))))
              repeated_feed eq_refl eq_refl) as (test_outcomes & Hparse & _ & Hget & _).
  exists test_outcomes. split; [exact Hparse|]. split; [apply Hget|].
  vm_compute in Hparse. injection Hparse as <-. reflexivity.
Defined.

Lemma load_outcomes_incomplete recs acc r :
  In r recs -> fst r = None \/ snd r = None ->
  load_outcomes recs acc = Raise OtherException.
Proof.
  intros Hin Hr. revert acc.
  induction recs as [|[[n|] [o|]] recs IH]; intros acc; simpl; try done.
  destruct Hin as [<-|Hin]; [simpl in Hr; by destruct Hr|]. by apply IH.
Qed.



(** ** The release date *)

Arguments replace_Z : simpl never.

Lemma or_else_truthy a b : truthy a = true -> or_else a b = default [] a.
Proof. by destruct a as [[|c s]|]. Qed.

(** X3: the date of the front matter is RELEASE_DATE when it is set; else
    the date of the last commit when git answers and the timestamp converts;
    else, also when git or the conversion raises, today's date. It is empty
    only if today's date is. *)
Theorem release_date_chain (w : world) :
  let date := snd (_get_release_metadata w) in
  let log := [u "log"; u "-1"; u "--format=%aI"] in
  (forall d, environ w (u "RELEASE_DATE") = Some d -> d <> [] -> date = d) /\
  (truthy (environ w (u "RELEASE_DATE")) = false ->
   (forall e, git w log = Raise e -> date = today w) /\
   (forall out, git w log = Ok out -> strip out = [] -> date = today w) /\
   (forall out e, git w log = Ok out ->
      iso_to_date w (replace_Z (strip out)) = Raise e -> date = today w) /\
   (forall out d, git w log = Ok out -> strip out <> [] ->
      iso_to_date w (replace_Z (strip out)) = Ok d -> d <> [] -> date = d)) /\
  (today w <> [] -> date <> []).
Proof.
  intros date log. subst date log. cbn [_get_release_metadata snd]. unfold release_date.
  split; [|split].
  - intros d Hd Hne. rewrite Hd. destruct d as [|c s]; [done|]. reflexivity.
  - intros Henv. rewrite Henv. unfold _git_cmd_output. repeat split.
    + intros e ->. simpl. by apply or_else_falsy.
    + intros out -> Hs. simpl. rewrite Hs. simpl. by apply or_else_falsy.
    + intros out e -> Hiso. simpl.
      destruct (strip out) as [|c s] eqn:Hs; simpl; [by apply or_else_falsy|].
      by rewrite Hiso.
    + intros out d -> Hs Hiso Hd. simpl.
      destruct (strip out) as [|c s] eqn:Hs'; [done|]. simpl. rewrite Hiso. simpl.
      by destruct d.
  - intros Htoday.
    destruct (truthy (environ w (u "RELEASE_DATE"))) eqn:Henv.
    + destruct (environ w (u "RELEASE_DATE")) as [[|c s]|]; done.
    + destruct (truthy (_git_cmd_output w _)) eqn:Hgit.
      * destruct (try_except _ _) as [[|c s]|]; done.
      * by rewrite or_else_falsy.
Qed.

Lemma release_date_chain_witness :
  snd (_get_release_metadata sample_world) = u "2025-09-16".
Proof.
  refine (proj2 (proj2 (proj2 (proj1 (proj2 (release_date_chain sample_world)) eq_refl)))
            (line "2025-09-16T09:58:12+00:00") (u "2025-09-16") eq_refl _ eq_refl _);
    vm_compute; discriminate.
Defined.

(** ** More on status resolution *)

Lemma existsb_same_members {A} (p : A -> bool) l l' :
  (forall x, In x l <-> In x l') -> existsb p l = existsb p l'.
Proof.
  intros H. apply eq_true_iff_eq. rewrite !existsb_exists.
  split; intros (x & Hx & Hp); exists x; split; try done; by apply H.
Qed.

Lemma forallb_same_members {A} (p : A -> bool) l l' :
  (forall x, In x l <-> In x l') -> forallb p l = forallb p l'.
Proof.
  intros H. apply eq_true_iff_eq. rewrite !forallb_forall.
  split; intros Hall x Hx; apply Hall; by apply H.
Qed.

Lemma is_empty_same_members {A} (l l' : list A) :
  (forall x, In x l <-> In x l') -> is_empty l = is_empty l'.
Proof.
  intros H. destruct l as [|a l], l' as [|a' l']; try done.
  - destruct (proj2 (H a')). by left.
  - destruct (proj1 (H a)). by left.
Qed.

Lemma stored_status_same_tests test_outcomes ts ts' :
  (forall t, In t ts <-> In t ts') ->
  stored_status test_outcomes ts = stored_status test_outcomes ts'.
Proof.
  intros H. unfold stored_status, outcomes_of.
  assert (Hout : forall o,
    In o (List.map (fun name => default (u "skipped") (PyDict.get test_outcomes name)) ts) <->
    In o (List.map (fun name => default (u "skipped") (PyDict.get test_outcomes name)) ts')).
  { intros o. rewrite !in_map_iff. split; intros (t & Ht & Hin); exists t; split; try done;
      by apply H. }
  rewrite (existsb_same_members _ _ _ Hout), (forallb_same_members _ _ _ Hout),
    (is_empty_same_members _ _ Hout). done.
Qed.

(** X4: the status of a requirement depends on which tests are associated
    with it, not on their order nor on how often a test id is listed. *)
Theorem status_ignores_order_and_repeats
    (test_outcomes : PyDict.t pystr) (req_to_tests req_to_tests' : PyDict.t (list pystr))
    (req_id : pystr) (tests tests' : list pystr) :
  PyDict.wf req_to_tests -> PyDict.wf req_to_tests' ->
  PyDict.get req_to_tests req_id = Some tests ->
  PyDict.get req_to_tests' req_id = Some tests' ->
  (forall t, In t tests <-> In t tests') ->
  status_of (get_requirement_statuses test_outcomes req_to_tests) req_id =
  status_of (get_requirement_statuses test_outcomes req_to_tests') req_id.
Proof.
  intros Hwf Hwf' Hget Hget' Hsame. unfold status_of, get_requirement_statuses.
  rewrite (fold_status_present _ _ _ _ _ Hwf Hget),
    (fold_status_present _ _ _ _ _ Hwf' Hget').
  by rewrite (stored_status_same_tests _ _ _ Hsame).
Qed.

Lemma status_ignores_order_and_repeats_witness :
  status_of (get_requirement_statuses sample_outcomes
               [(u "REQ-FUNC-LOG-010",
                 [u "tests/test_x.py::test_cli"; u "tests/test_x.py::test_log";
                  u "tests/test_x.py::test_cli"])])
            (u "REQ-FUNC-LOG-010") =
  status_of (get_requirement_statuses sample_outcomes sample_req_to_tests)
            (u "REQ-FUNC-LOG-010").
Proof.
  eapply status_ignores_order_and_repeats.
  - unfold PyDict.wf. simpl. solve_NoDup.
  - unfold PyDict.wf. simpl. solve_NoDup.
  - reflexivity.
  - reflexivity.
  - intros t. simpl. tauto.
Defined.

Lemma status_step_wf test_outcomes acc item :
  PyDict.wf acc -> PyDict.wf (status_step test_outcomes acc item).
Proof.
  intros Hwf. destruct item as [k ts]. rewrite status_step_stored.
  destruct (stored_status test_outcomes ts); [|done]. by apply PyDictFacts.wf_set.
Qed.

Lemma get_requirement_statuses_wf test_outcomes (req_to_tests : PyDict.t (list pystr)) :
  PyDict.wf (get_requirement_statuses test_outcomes req_to_tests).
Proof.
  unfold get_requirement_statuses.
  assert (Hwf : PyDict.wf (@PyDict.empty pystr)) by constructor.
  revert Hwf. generalize (@PyDict.empty pystr).
  induction req_to_tests as [|item items IH]; intros acc Hwf; simpl; [done|].
  by apply IH, status_step_wf.
Qed.

Lemma stored_status_nonempty test_outcomes ts s :
  stored_status test_outcomes ts = Some s -> ts <> [].
Proof. by destruct ts. Qed.

(** X5: the status map is a dictionary that holds an entry only for a
    requirement with at least one associated test, and that entry is Failed
    or Verified. *)
Theorem status_only_for_tested_requirements
    (test_outcomes : PyDict.t pystr) (req_to_tests : PyDict.t (list pystr))
    (req_id status : pystr) :
  PyDict.wf req_to_tests ->
  PyDict.get (get_requirement_statuses test_outcomes req_to_tests) req_id = Some status ->
  PyDict.wf (get_requirement_statuses test_outcomes req_to_tests) /\
  (status = FAILED \/ status = VERIFIED) /\
  exists tests, PyDict.get req_to_tests req_id = Some tests /\ tests <> [].
Proof.
  intros Hwf Hst. split; [apply get_requirement_statuses_wf|].
  unfold get_requirement_statuses in Hst.
  destruct (PyDict.get req_to_tests req_id) as [tests|] eqn:Hget.
  - rewrite (fold_status_present _ _ _ _ _ Hwf Hget) in Hst.
    destruct (stored_status test_outcomes tests) as [s|] eqn:Hs; [|done].
    injection Hst as ->. split; [by eapply stored_status_range|].
    exists tests. split; [done|]. by eapply stored_status_nonempty.
  - rewrite fold_status_absent in Hst; [done|]. by apply PyDictFacts.get_None_keys.
Qed.

Lemma status_only_for_tested_requirements_witness :
  exists tests,
    PyDict.get sample_req_to_tests (u "REQ-FUNC-UI-030") = Some tests /\ tests <> [].
Proof.
  refine (proj2 (proj2 (status_only_for_tested_requirements sample_outcomes
            sample_req_to_tests (u "REQ-FUNC-UI-030") VERIFIED _ eq_refl))).
  unfold PyDict.wf. simpl. solve_NoDup.
Defined.

(** ** The test counters of the summary *)

Lemma three_counters (outcomes : list pystr) :
  let n s := count_if (fun o => str_eqb o s) outcomes in
  (n (u "passed") + n (u "failed") + n (u "skipped") <= Z.of_nat (length outcomes))%Z /\
  ((n (u "passed") + n (u "failed") + n (u "skipped") = Z.of_nat (length outcomes))%Z <->
   Forall counted_outcome outcomes).
Proof.
  induction outcomes as [|o outcomes [IHle IHeq]]; cbv beta zeta in *.
  - split; [done|]. split; [constructor|done].
  - rewrite !count_if_cons. cbn [length]. rewrite Nat2Z.inj_succ.
    rewrite List.Forall_cons_iff. unfold counted_outcome at 1.
    destruct (str_eqb o (u "passed")) eqn:Hp.
    { apply str_eqb_eq in Hp as ->.
      change (str_eqb (u "passed") (u "failed")) with false.
      change (str_eqb (u "passed") (u "skipped")) with false.
      split; [lia|]. rewrite <- IHeq. split; [intros; split; [by left|lia]|intros [_ ?]; lia]. }
    destruct (str_eqb o (u "failed")) eqn:Hf.
    { apply str_eqb_eq in Hf as ->.
      change (str_eqb (u "failed") (u "skipped")) with false.
      split; [lia|]. rewrite <- IHeq.
      split; [intros; split; [right; by left|lia]|intros [_ ?]; lia]. }
    destruct (str_eqb o (u "skipped")) eqn:Hs.
    { apply str_eqb_eq in Hs as ->.
      split; [lia|]. rewrite <- IHeq.
      split; [intros; split; [right; by right|lia]|intros [_ ?]; lia]. }
    apply str_eqb_neq in Hp, Hf, Hs. split; [lia|].
    split; [intros; lia|]. intros [[?|[?|?]] _]; done.
Qed.

(** X6: the first summary line prints the numbers of passed, failed and
    skipped entries of the outcome store and its size; the three numbers add
    up to the size exactly when every outcome is one of these three, and to
    less when the feed holds another outcome. *)
Theorem test_counters_cover_known_outcomes
    (w : world) (req_statuses : PyDict.t pystr)
    (req_to_tests : PyDict.t (list pystr)) (test_outcomes : PyDict.t pystr) :
  let n s := count_if (fun o => str_eqb o s) (PyDict.values test_outcomes) in
  let total := Z.of_nat (length test_outcomes) in
  head (summary_lines w req_statuses req_to_tests test_outcomes) =
    Some (u "- Tests: " ++ str_of_int (n (u "passed")) ++ u " passed, "
          ++ str_of_int (n (u "failed")) ++ u " failed, "
          ++ str_of_int (n (u "skipped")) ++ u " skipped (total "
          ++ str_of_int total ++ u ")") /\
  (n (u "passed") + n (u "failed") + n (u "skipped") <= total)%Z /\
  ((n (u "passed") + n (u "failed") + n (u "skipped") = total)%Z <->
   Forall counted_outcome (PyDict.values test_outcomes)).
Proof.
  intros n total. split; [reflexivity|].
  pose proof (three_counters (PyDict.values test_outcomes)) as H. cbv beta zeta in H.
  subst n total. unfold PyDict.values in *. rewrite length_map in H. exact H.
Qed.

(** ** When the script succeeds *)

Lemma scan_files_readable files d :
  (exists d', scan_files files d = Ok d') <->
  Forall (fun file => exists content, snd file = Ok content) files.
Proof.
  revert d. induction files as [|[name [content|e]] files IH]; intros d; simpl.
  - split; [constructor|eauto].
  - rewrite IH, List.Forall_cons_iff. simpl. split; [eauto|tauto].
  - rewrite List.Forall_cons_iff. simpl. split.
    + by intros [d' ?].
    + by intros [[c ?] _].
Qed.



(** ** More on the association map *)

Lemma add_req_keys t (d : PyDict.t (list pystr)) r' x :
  In x (PyDict.keys (add_req t d r')) <-> In x (PyDict.keys d) \/ x = r'.
Proof.
  unfold add_req. rewrite PyDictFacts.keys_set.
  destruct (PyDict.mem d r'); [done|]. rewrite PyDictFacts.keys_set. tauto.
Qed.

Lemma fold_add_req_keys t ids (d : PyDict.t (list pystr)) x :
  In x (PyDict.keys (fold_left (add_req t) ids d)) <-> In x (PyDict.keys d) \/ In x ids.
Proof.
  revert d. induction ids as [|i ids IH]; intros d; simpl; [tauto|].
  rewrite IH, add_req_keys. intuition.
Qed.

Lemma match_mentions_fst file_name m :
  List.map fst (match_mentions file_name m) = findall REQ_PATTERN (group m 2).
Proof. unfold match_mentions. rewrite map_map. simpl. apply map_id. Qed.

Lemma scan_file_keys (d : PyDict.t (list pystr)) file_name content x :
  In x (PyDict.keys (scan_file d file_name content)) <->
  In x (PyDict.keys d) \/ In x (List.map fst (file_mentions file_name content)).
Proof.
  unfold scan_file, file_mentions.
  generalize (finditer DOCSTRING_PATTERN content). intros ms. revert d.
  induction ms as [|m ms IH]; intros d; cbn [fold_left flat_map List.map].
  - simpl. tauto.
  - rewrite IH. unfold scan_match. rewrite fold_add_req_keys.
    rewrite map_app, in_app_iff, match_mentions_fst. tauto.
Qed.

Lemma scan_files_keys files (d d' : PyDict.t (list pystr)) x :
  scan_files files d = Ok d' ->
  In x (PyDict.keys d') <->
  In x (PyDict.keys d) \/ In x (List.map fst (annotation_mentions files)).
Proof.
  revert d. induction files as [|[file_name [content|e]] files IH]; intros d; simpl.
  - intros [= <-]. tauto.
  - intros H%IH. rewrite H, scan_file_keys, map_app, in_app_iff. tauto.
  - done.
Qed.

Lemma annotation_mentions_In files r t :
  In (r, t) (annotation_mentions files) <->
  exists file_name content m,
    In (file_name, Ok content) files /\
    In m (finditer DOCSTRING_PATTERN content) /\
    In r (findall REQ_PATTERN (group m 2)) /\
    t = u "tests/" ++ file_name ++ u "::" ++ group m 1.
Proof.
  unfold annotation_mentions, file_mentions, match_mentions.
  rewrite in_flat_map. split.
  - intros ([file_name [content|e]] & Hfile & Hin); simpl in Hin; [|done].
    apply in_flat_map in Hin as (m & Hm & Hin).
    apply in_map_iff in Hin as (r' & [= <- <-] & Hr).
    by exists file_name, content, m.
  - intros (file_name & content & m & Hfile & Hm & Hr & ->).
    exists (file_name, Ok content). split; [done|]. simpl.
    apply in_flat_map. exists m. split; [done|].
    apply in_map_iff. by exists r.
Qed.

(** ** The requirement universe *)

(** X9: document mode never fails and yields, without repeats, exactly the
    ids found in the SRVP and the SRS where the document exists and can be
    read; when each of the two is missing or raises on lookup or read, the
    set is empty. *)
Theorem document_ids_from_readable_documents (w : world) :
  List.NoDup (extract_requirement_ids_from_docs w) /\
  (forall x, In x (extract_requirement_ids_from_docs w) <->
     exists path, In path [srvp w; srs w] /\ f_exists path = Ok true /\
       exists text, f_read path = Ok text /\ In x (findall REQ_PATTERN text)) /\
  (Forall (fun path => f_exists path <> Ok true \/ exists e, f_read path = Raise e)
          [srvp w; srs w] ->
   extract_requirement_ids_from_docs w = []).
Proof.
  split; [apply extract_requirement_ids_from_docs_NoDup|].
  split; [apply extract_requirement_ids_from_docs_In|].
  intros Hall. destruct (extract_requirement_ids_from_docs w) as [|x ids] eqn:Hids; [done|].
  assert (In x (extract_requirement_ids_from_docs w)) as Hin by (rewrite Hids; by left).
  apply extract_requirement_ids_from_docs_In in Hin as (path & Hpath & Hex & text & Hread & _).
  rewrite List.Forall_forall in Hall. destruct (Hall path Hpath) as [Hn|[e He]]; congruence.
Qed.

(** X10: every requirement id of the report, whether it comes from a
    document or from a test annotation, has the form of the grammar. *)
Theorem requirement_universe_is_grammatical
    (w : world) (req_to_tests : PyDict.t (list pystr)) :
  extract_req_ids_from_docstrings w = Ok req_to_tests ->
  Forall is_req_id (all_req_ids_sorted w req_to_tests).
Proof.
  intros Hext. apply List.Forall_forall. intros x Hx.
  apply all_req_ids_sorted_In in Hx as [Hkey|Hdoc].
  - unfold extract_req_ids_from_docstrings in Hext.
    apply (scan_files_keys _ _ _ x Hext) in Hkey as [[]|Hin].
    apply in_map_iff in Hin as ([r t] & Hr & Hin). simpl in Hr. subst r.
    apply annotation_mentions_In in Hin as (f & c & m & _ & _ & Hr & _).
    apply findall_REQ_sound in Hr as [Hid _]. exact Hid.
  - apply extract_requirement_ids_from_docs_In in Hdoc as (path & _ & _ & text & _ & Hin).
    apply findall_REQ_sound in Hin as [Hid _]. exact Hid.
Qed.

Lemma requirement_universe_is_grammatical_witness :
  Forall is_req_id (all_req_ids_sorted sample_world sample_req_to_tests).
Proof.
  apply requirement_universe_is_grammatical. vm_compute. reflexivity.
Defined.

(** ** [str.strip] *)

Lemma lstrip_spaces pre x :
  Forall (fun c => is_space c = true) pre -> lstrip (pre ++ x) = lstrip x.
Proof. induction 1 as [|c pre Hc Hpre IH]; simpl; [done|]. by rewrite Hc. Qed.

Lemma lstrip_all_spaces s : Forall (fun c => is_space c = true) s -> lstrip s = [].
Proof. intros H. rewrite <- (app_nil_r s). by rewrite lstrip_spaces. Qed.

Lemma lstrip_no_space c x : is_space c = false -> lstrip (c :: x) = c :: x.
Proof. simpl. by intros ->. Qed.

Lemma lstrip_split s :
  exists pre, s = pre ++ lstrip s /\ Forall (fun c => is_space c = true) pre.
Proof.
  induction s as [|c s (pre & Hs & Hpre)]; simpl.
  - by exists [].
  - destruct (is_space c) eqn:Hc.
    + exists (c :: pre). split; [simpl; by f_equal|by constructor].
    + by exists [].
Qed.

Lemma lstrip_head s c : head (lstrip s) = Some c -> is_space c = false.
Proof.
  induction s as [|c' s IH]; simpl; [done|].
  destruct (is_space c') eqn:Hc; [done|]. simpl. by intros [= <-].
Qed.

Lemma head_rev_last {A} (l : list A) : head (rev l) = list.last l.
Proof.
  induction l as [|a l IH] using rev_ind; [done|].
  by rewrite rev_app_distr, last_snoc.
Qed.

(** [strip] removes exactly the whitespace at both ends. *)
Lemma strip_unique pre m post :
  Forall (fun c => is_space c = true) pre ->
  Forall (fun c => is_space c = true) post ->
  (forall c, head m = Some c -> is_space c = false) ->
  (forall c, list.last m = Some c -> is_space c = false) ->
  strip (pre ++ m ++ post) = m.
Proof.
  intros Hpre Hpost Hhead Hlast. unfold strip. rewrite lstrip_spaces by done.
  destruct m as [|c m].
  { simpl. rewrite (lstrip_all_spaces post) by done. done. }
  rewrite <- app_comm_cons, lstrip_no_space by (by apply Hhead).
  rewrite app_comm_cons, rev_app_distr, lstrip_spaces.
  2: { apply List.Forall_forall. intros x Hx%in_rev. rewrite List.Forall_forall in Hpost. auto. }
  destruct (rev (c :: m)) as [|d r] eqn:Hrev.
  { apply (f_equal (@length N)) in Hrev. rewrite length_rev in Hrev. done. }
  rewrite lstrip_no_space.
  - by rewrite <- Hrev, rev_involutive.
  - apply Hlast. by rewrite <- head_rev_last, Hrev.
Qed.

Lemma strip_split s :
  exists pre post,
    s = pre ++ strip s ++ post /\
    Forall (fun c => is_space c = true) pre /\
    Forall (fun c => is_space c = true) post /\
    (forall c, head (strip s) = Some c -> is_space c = false) /\
    (forall c, list.last (strip s) = Some c -> is_space c = false).
Proof.
  unfold strip. destruct (lstrip_split s) as (pre & Hs & Hpre).
  destruct (lstrip_split (rev (lstrip s))) as (pre2 & Hr & Hpre2).
  set (b := lstrip (rev (lstrip s))) in *.
  assert (Ha : lstrip s = rev b ++ rev pre2).
  { rewrite <- rev_app_distr, <- Hr. by rewrite rev_involutive. }
  exists pre, (rev pre2). split; [by rewrite <- Ha|]. split; [done|]. split.
  { apply List.Forall_forall. intros x Hx%in_rev. rewrite List.Forall_forall in Hpre2. auto. }
  split.
  - intros c Hc. apply (lstrip_head s). rewrite Ha.
    destruct (rev b); [done|]. exact Hc.
  - intros c Hc. rewrite <- head_rev_last, rev_involutive in Hc.
    by apply (lstrip_head (rev (lstrip s))).
Qed.

Lemma strip_idempotent s : strip (strip s) = strip s.
Proof.
  destruct (strip_split s) as (pre & post & _ & _ & _ & Hhead & Hlast).
  rewrite <- (app_nil_r (strip s)) at 1. by apply (strip_unique [] (strip s) []).
Qed.

(** ** core/version.py *)

(** X11: [_load_version] never raises: it gives 0.0.0 when the version file
    cannot be opened or read, and else the text of the file without the
    whitespace at its ends, which has no whitespace at either end and is
    empty for a blank file; reading back a loaded version gives the same
    version. *)
Theorem load_version_is_stripped (version_info : result pystr) :
  let version := _load_version version_info in
  (forall e, version_info = Raise e -> version = u "0.0.0") /\
  (forall text, version_info = Ok text ->
     exists before after,
       text = before ++ version ++ after /\
       Forall (fun c => is_space c = true) before /\
       Forall (fun c => is_space c = true) after) /\
  (forall text, version_info = Ok text ->
     Forall (fun c => is_space c = true) text -> version = []) /\
  (forall c, head version = Some c -> is_space c = false) /\
  (forall c, list.last version = Some c -> is_space c = false) /\
  _load_version (Ok version) = version.
Proof.
  intros version. subst version. unfold _load_version.
  destruct version_info as [text|e]; simpl.
  - destruct (strip_split text) as (pre & post & Hs & Hpre & Hpost & Hhead & Hlast).
    split; [done|]. split; [intros t [= <-]; by exists pre, post|].
    split; [|split; [done|split; [done|apply strip_idempotent]]].
    intros t [= <-] Hall. unfold strip. rewrite (lstrip_all_spaces text Hall). reflexivity.
  - split; [done|]. split; [done|]. split; [done|].
    repeat split; try (intros c [= <-]; reflexivity).
Qed.

(** ** The matcher against what a pattern can match *)

Ltac solve_here :=
  exists [], []; split; [reflexivity|split; [constructor|reflexivity]].

Lemma star_iter_sound (step : thread -> list thread) (r : regex) g fuel t t' :
  (forall t t', In t' (step t) ->
     exists x added,
       rest t = x ++ rest t' /\ matches r x added /\ caps t' = added ++ caps t) ->
  In t' (star_iter step g fuel t) ->
  exists x added,
    rest t = x ++ rest t' /\ matches (Star g r) x added /\ caps t' = added ++ caps t.
Proof.
  intros Hstep. revert t. induction fuel as [|fuel IH]; intros t; cbn [star_iter].
  - intros [<-|[]]. solve_here.
  - assert (Hmore : In t' (flat_map (fun t1 =>
        if (length (rest t1) <? length (rest t))%nat
        then star_iter step g fuel t1 else []) (step t)) ->
      exists x added,
        rest t = x ++ rest t' /\ matches (Star g r) x added /\ caps t' = added ++ caps t).
    { intros (t1 & Ht1 & Hin)%in_flat_map.
      destruct (length (rest t1) <? length (rest t))%nat; [|done].
      apply Hstep in Ht1 as (x1 & a1 & Hr1 & Hl1 & Hc1).
      apply IH in Hin as (x2 & a2 & Hr2 & Hl2 & Hc2).
      exists (x1 ++ x2), (a2 ++ a1). repeat split.
      - by rewrite Hr1, Hr2, app_assoc.
      - by constructor.
      - by rewrite Hc2, Hc1, app_assoc. }
    assert (Hhere : t' = t ->
      exists x added,
        rest t = x ++ rest t' /\ matches (Star g r) x added /\ caps t' = added ++ caps t).
    { intros ->. solve_here. }
    destruct g.
    + rewrite in_app_iff. intros [?|[?|[]]]; auto.
    + intros [?|?]; auto.
Qed.

(** Every result of the matcher is a match of the pattern: the text consumed
    and the groups recorded are those of one way to match it. *)
Lemma rmatch_sound r t t' :
  In t' (rmatch r t) ->
  exists x added,
    rest t = x ++ rest t' /\ matches r x added /\ caps t' = added ++ caps t.
Proof.
  revert t t'. induction r as [|p|r1 IH1 r2 IH2|g r1 IH1|i r1 IH1| |]; intros t t'; cbn [rmatch].
  - intros [<-|[]]. solve_here.
  - destruct (rest t) as [|c s] eqn:Hrest; [done|].
    destruct (p c) eqn:Hp; [|done]. intros [<-|[]].
    exists [c], []. repeat split; try done. by constructor.
  - intros (t1 & Ht1 & Hin)%in_flat_map.
    apply IH1 in Ht1 as (x1 & a1 & Hr1 & Hl1 & Hc1).
    apply IH2 in Hin as (x2 & a2 & Hr2 & Hl2 & Hc2).
    exists (x1 ++ x2), (a2 ++ a1). repeat split.
    + by rewrite Hr1, Hr2, app_assoc.
    + by constructor.
    + by rewrite Hc2, Hc1, app_assoc.
  - intros Hin. by eapply star_iter_sound in Hin.
  - intros (t1 & <- & Hin)%in_map_iff.
    apply IH1 in Hin as (x & added & Hr & Hl & Hc). cbn [rest caps].
    exists x, ((i, x) :: added). repeat split.
    + done.
    + by constructor.
    + rewrite Hr, length_app.
      replace (length x + length (rest t1) - length (rest t1))%nat with (length x) by lia.
      rewrite take_app_length. by rewrite Hc.
  - intros Hin. assert (t' = t) as ->; [|solve_here].
    destruct (prev t) as [c|]; [destruct (c =? NL)|]; try done;
      by destruct Hin as [<-|[]].
  - intros Hin. assert (t' = t) as ->; [|solve_here].
    destruct (rest t) as [|c s]; [|destruct (c =? NL)]; try done;
      by destruct Hin as [<-|[]].
Qed.

Lemma scan_sound r fuel p s m :
  In m (scan r fuel p s) ->
  (exists before after, s = before ++ m_text m ++ after) /\
  matches r (m_text m) (m_caps m).
Proof.
  revert p s. induction fuel as [|fuel IH]; intros p s; cbn [scan]; [done|].
  assert (Hlater : forall c s' q, s = c :: s' -> In m (scan r fuel q s') ->
    (exists before after, s = before ++ m_text m ++ after) /\
    matches r (m_text m) (m_caps m)).
  { intros c s' q -> Hin. apply IH in Hin as ((b & a & ->) & ?).
    split; [by exists (c :: b), a|done]. }
  destruct (head (rmatch r (Thread [] p s))) as [t'|] eqn:Hhead.
  - assert (Ht' : In t' (rmatch r (Thread [] p s))).
    { destruct (rmatch r (Thread [] p s)); [done|]. injection Hhead as ->. by left. }
    pose proof (rmatch_sound _ _ _ Ht') as (x & added & Hr & Hl & Hc).
    cbn [rest caps] in Hr, Hc. rewrite app_nil_r in Hc.
    assert (Htake : take (length s - length (rest t')) s = x).
    { rewrite Hr at 2. rewrite Hr at 1. rewrite length_app.
      replace (length x + length (rest t') - length (rest t'))%nat with (length x) by lia.
      apply take_app_length. }
    assert (Hhere : m = Rematch (take (length s - length (rest t')) s) (caps t') ->
      (exists before after, s = before ++ m_text m ++ after) /\
      matches r (m_text m) (m_caps m)).
    { intros ->. cbn [m_text m_caps]. rewrite Htake, Hc. split; [by exists [], (rest t')|done]. }
    destruct s as [|c s'].
    + intros [<-|[]]. apply Hhere. f_equal.
    + intros [<-|Hin]; [by apply Hhere|].
      destruct (length (rest t') <? length (c :: s'))%nat.
      * apply IH in Hin as ((b & a & Hs) & ?). split; [|done].
        exists (x ++ b), a. by rewrite Hr, Hs, <- app_assoc.
      * by eapply Hlater.
  - destruct s as [|c s']; [done|]. intros Hin. by eapply Hlater.
Qed.

Lemma finditer_sound r text m :
  In m (finditer r text) ->
  (exists before after, text = before ++ m_text m ++ after) /\
  matches r (m_text m) (m_caps m).
Proof. apply scan_sound. Qed.

(** ** Where a match stands *)

Lemma char_before_app p x y : char_before (char_before p x) y = char_before p (x ++ y).
Proof.
  unfold char_before. destruct y as [|c y _] using rev_ind.
  - rewrite app_nil_r. cbn. by destruct (list.last x).
  - by rewrite app_assoc, !last_snoc.
Qed.

Lemma char_before_cons p c before :
  char_before (Some c) before = char_before p (c :: before).
Proof. apply (char_before_app p [c] before). Qed.

Lemma star_iter_prev (step : thread -> list thread) g fuel t t' :
  (forall t t', In t' (step t) ->
     exists x, rest t = x ++ rest t' /\ prev t' = char_before (prev t) x) ->
  In t' (star_iter step g fuel t) ->
  exists x, rest t = x ++ rest t' /\ prev t' = char_before (prev t) x.
Proof.
  intros Hstep. revert t. induction fuel as [|fuel IH]; intros t; cbn [star_iter].
  - intros [<-|[]]. by exists [].
  - assert (Hmore : In t' (flat_map (fun t1 =>
        if (length (rest t1) <? length (rest t))%nat
        then star_iter step g fuel t1 else []) (step t)) ->
      exists x, rest t = x ++ rest t' /\ prev t' = char_before (prev t) x).
    { intros (t1 & Ht1 & Hin)%in_flat_map.
      destruct (length (rest t1) <? length (rest t))%nat; [|done].
      apply Hstep in Ht1 as (x1 & Hr1 & Hp1).
      apply IH in Hin as (x2 & Hr2 & Hp2).
      exists (x1 ++ x2). split.
      - by rewrite Hr1, Hr2, app_assoc.
      - by rewrite Hp2, Hp1, char_before_app. }
    assert (Hhere : t' = t ->
      exists x, rest t = x ++ rest t' /\ prev t' = char_before (prev t) x).
    { intros ->. by exists []. }
    destruct g.
    + rewrite in_app_iff. intros [?|[?|[]]]; auto.
    + intros [?|?]; auto.
Qed.

(** The matcher keeps track of the character before its position. *)
Lemma rmatch_prev r t t' :
  In t' (rmatch r t) ->
  exists x, rest t = x ++ rest t' /\ prev t' = char_before (prev t) x.
Proof.
  revert t t'. induction r as [|p|r1 IH1 r2 IH2|g r1 IH1|i r1 IH1| |]; intros t t'; cbn [rmatch].
  - intros [<-|[]]. by exists [].
  - destruct (rest t) as [|c s] eqn:Hrest; [done|].
    destruct (p c); [|done]. intros [<-|[]]. by exists [c].
  - intros (t1 & Ht1 & Hin)%in_flat_map.
    apply IH1 in Ht1 as (x1 & Hr1 & Hp1). apply IH2 in Hin as (x2 & Hr2 & Hp2).
    exists (x1 ++ x2). split.
    + by rewrite Hr1, Hr2, app_assoc.
    + by rewrite Hp2, Hp1, char_before_app.
  - intros Hin. by eapply star_iter_prev in Hin.
  - intros (t1 & <- & Hin)%in_map_iff. apply IH1 in Hin as (x & Hr & Hp). by exists x.
  - intros Hin. assert (t' = t) as ->; [|by exists []].
    destruct (prev t) as [c|]; [destruct (c =? NL)|]; try done;
      by destruct Hin as [<-|[]].
  - intros Hin. assert (t' = t) as ->; [|by exists []].
    destruct (rest t) as [|c s]; [|destruct (c =? NL)]; try done;
      by destruct Hin as [<-|[]].
Qed.

(** A match that [scan] reports stands in the text at a position where the
    matcher succeeds, the character before the position being the one that
    stands before it in the text. *)
Lemma scan_at r fuel p s m :
  In m (scan r fuel p s) ->
  exists before after,
    s = before ++ m_text m ++ after /\
    matches r (m_text m) (m_caps m) /\
    rmatch r (Thread [] (char_before p before) (m_text m ++ after)) <> [].
Proof.
  revert p s. induction fuel as [|fuel IH]; intros p s; cbn [scan]; [done|].
  assert (Hlater : forall c s', s = c :: s' -> In m (scan r fuel (Some c) s') ->
    exists before after,
      s = before ++ m_text m ++ after /\
      matches r (m_text m) (m_caps m) /\
      rmatch r (Thread [] (char_before p before) (m_text m ++ after)) <> []).
  { intros c s' -> Hin. apply IH in Hin as (b & a & -> & Hm & Hne).
    exists (c :: b), a. split; [done|]. split; [done|].
    by rewrite <- (char_before_cons p). }
  destruct (head (rmatch r (Thread [] p s))) as [t'|] eqn:Hhead.
  - assert (Ht' : In t' (rmatch r (Thread [] p s))).
    { destruct (rmatch r (Thread [] p s)); [done|]. injection Hhead as ->. by left. }
    pose proof (rmatch_sound _ _ _ Ht') as (x & added & Hr & Hl & Hc).
    pose proof (rmatch_prev _ _ _ Ht') as (x' & Hr' & Hp').
    cbn [rest caps prev] in Hr, Hc, Hr', Hp'. rewrite app_nil_r in Hc.
    assert (x' = x) as -> by (rewrite Hr in Hr'; by apply app_inv_tail in Hr').
    assert (Htake : take (length s - length (rest t')) s = x).
    { rewrite Hr at 2. rewrite Hr at 1. rewrite length_app.
      replace (length x + length (rest t') - length (rest t'))%nat with (length x) by lia.
      apply take_app_length. }
    assert (Hhere : m = Rematch (take (length s - length (rest t')) s) (caps t') ->
      exists before after,
        s = before ++ m_text m ++ after /\
        matches r (m_text m) (m_caps m) /\
        rmatch r (Thread [] (char_before p before) (m_text m ++ after)) <> []).
    { intros ->. cbn [m_text m_caps]. rewrite Htake, Hc.
      exists [], (rest t'). split; [done|]. split; [done|].
      cbn [char_before list.last]. rewrite <- Hr. intros Hnil. by rewrite Hnil in Ht'. }
    destruct s as [|c s'].
    + intros [<-|[]]. apply Hhere. f_equal.
    + intros [<-|Hin]; [by apply Hhere|].
      destruct (length (rest t') <? length (c :: s'))%nat.
      * apply IH in Hin as (b & a & Hs & Hm & Hne).
        exists (x ++ b), a. split; [by rewrite Hr, Hs, <- app_assoc|]. split; [done|].
        by rewrite <- char_before_app, <- Hp'.
      * by eapply Hlater.
  - destruct s as [|c s']; [done|]. intros Hin. by eapply Hlater.
Qed.

(** A match of a pattern that begins with [^] stands at the start of the
    text or after a line feed. *)
Lemma finditer_line_start r text m :
  In m (finditer (Seq Bol r) text) ->
  exists before after,
    text = before ++ m_text m ++ after /\
    matches (Seq Bol r) (m_text m) (m_caps m) /\
    (before = [] \/ exists b, before = b ++ [NL]).
Proof.
  intros (before & after & Htext & Hm & Hne)%scan_at.
  exists before, after. split; [done|]. split; [done|].
  cbn [rmatch prev] in Hne. unfold char_before in Hne.
  destruct before as [|c before _] using rev_ind; [by left|]. right.
  rewrite last_snoc in Hne. destruct (N.eqb_spec c NL) as [->|]; [by exists before|].
  by cbn in Hne.
Qed.

(** ** Inverting a match *)

Lemma matches_Cls_inv p x c : matches (Cls p) x c -> exists a, x = [a] /\ p a = true /\ c = [].
Proof. inversion 1; subst. eauto. Qed.

Lemma matches_Seq_inv r1 r2 x c :
  matches (Seq r1 r2) x c ->
  exists x1 x2 c1 c2, x = x1 ++ x2 /\ c = c2 ++ c1 /\ matches r1 x1 c1 /\ matches r2 x2 c2.
Proof. inversion 1; subst. eauto 10. Qed.

Lemma matches_Group_inv i r x c :
  matches (Group i r) x c -> exists c', c = (i, x) :: c' /\ matches r x c'.
Proof. inversion 1; subst. eauto. Qed.

Lemma matches_Bol_inv x c : matches Bol x c -> x = [] /\ c = [].
Proof. by inversion 1. Qed.

Lemma matches_Eol_inv x c : matches Eol x c -> x = [] /\ c = [].
Proof. by inversion 1. Qed.

Lemma matches_Chr_inv a x c : matches (Chr a) x c -> x = [a] /\ c = [].
Proof.
  intros (b & -> & Hb & ->)%matches_Cls_inv. unfold is_char in Hb.
  apply N.eqb_eq in Hb. by subst.
Qed.

Lemma matches_Lit_inv l x c : matches (Lit l) x c -> x = l /\ c = [].
Proof.
  revert x c. induction l as [|a l IH]; intros x c; cbn [Lit].
  - by inversion 1.
  - intros (x1 & x2 & c1 & c2 & -> & -> & [-> ->]%matches_Chr_inv & [-> ->]%IH)%matches_Seq_inv.
    done.
Qed.

Lemma matches_Star_Cls_inv g p x c :
  matches (Star g (Cls p)) x c -> Forall (fun a => p a = true) x /\ c = [].
Proof.
  intros H. remember (Star g (Cls p)) as r eqn:Hr.
  induction H as [| | | |g' r' y z c1 c2 Hy _ Hz IH| | |]; try discriminate; [by split|].
  injection Hr as -> ->. apply matches_Cls_inv in Hy as (a & -> & Ha & ->).
  destruct (IH eq_refl) as [Hall ->]. split; [by constructor|done].
Qed.

Lemma matches_Plus_Cls_inv p x c :
  matches (Plus (Cls p)) x c ->
  c = [] /\ exists a x', x = a :: x' /\ p a = true /\ Forall (fun a => p a = true) x'.
Proof.
  unfold Plus.
  intros (x1 & x2 & c1 & c2 & -> & -> & (a & -> & Ha & ->)%matches_Cls_inv &
          [Hall ->]%matches_Star_Cls_inv)%matches_Seq_inv.
  split; [done|]. by exists a, x2.
Qed.

(** What a match of the declaration pattern captures: the name, which is
    test_ and word characters, and some text between triple quotes that
    follow the declaration. *)
Lemma docstring_match_shape content m :
  In m (finditer DOCSTRING_PATTERN content) ->
  exists name params skipped before after,
    group m 1 = u "test_" ++ name /\ name <> [] /\
    Forall (fun c => is_word c = true) name /\
    content = before ++ u "def " ++ group m 1 ++ [40] ++ params ++ [41; 58] ++ skipped
              ++ TRIPLE_QUOTE ++ group m 2 ++ TRIPLE_QUOTE ++ after.
Proof.
  intros ((before & after & Htext) & Hm)%finditer_sound.
  destruct m as [x captures]. cbn [m_text m_caps] in *.
  unfold DOCSTRING_PATTERN in Hm.
  apply matches_Seq_inv in Hm as (x1 & y1 & c1 & d1 & -> & -> & [-> ->]%matches_Lit_inv & Hm).
  apply matches_Seq_inv in Hm as (x2 & y2 & c2 & d2 & -> & -> & Hname & Hm).
  apply matches_Group_inv in Hname as (cn & -> & Hname).
  apply matches_Seq_inv in Hname as (n1 & n2 & e1 & e2 & -> & -> & [-> ->]%matches_Lit_inv & Hn).
  apply matches_Plus_Cls_inv in Hn as (-> & a & name & -> & Ha & Hname).
  apply matches_Seq_inv in Hm as (x3 & y3 & c3 & d3 & -> & -> & [-> ->]%matches_Chr_inv & Hm).
  apply matches_Seq_inv in Hm as (x4 & y4 & c4 & d4 & -> & -> & [Hparams ->]%matches_Star_Cls_inv & Hm).
  apply matches_Seq_inv in Hm as (x5 & y5 & c5 & d5 & -> & -> & [-> ->]%matches_Chr_inv & Hm).
  apply matches_Seq_inv in Hm as (x6 & y6 & c6 & d6 & -> & -> & [-> ->]%matches_Chr_inv & Hm).
  apply matches_Seq_inv in Hm as (x7 & y7 & c7 & d7 & -> & -> & [Hskip ->]%matches_Star_Cls_inv & Hm).
  apply matches_Seq_inv in Hm as (x8 & y8 & c8 & d8 & -> & -> & [-> ->]%matches_Lit_inv & Hm).
  apply matches_Seq_inv in Hm as (x9 & y9 & c9 & d9 & -> & -> & Hdoc & [-> ->]%matches_Lit_inv).
  apply matches_Group_inv in Hdoc as (cd & -> & [_ ->]%matches_Star_Cls_inv).
  exists (a :: name), x4, x7, before, after.
  split; [reflexivity|]. split; [done|]. split; [by constructor|].
  rewrite Htext. cbn [group m_caps List.find fst snd Nat.eqb app].
  repeat (rewrite <- app_assoc || rewrite <- app_comm_cons). reflexivity.
Qed.

(** X8: every entry of the association map has a requirement id of the
    grammar and a list of test ids that is not empty; each test id in it is
    tests/, the name of a test file that was read, two colons and the name
    captured by a match of the declaration pattern in that file, which is
    test_ followed by word characters, and the text captured with it holds
    the requirement id. *)
Theorem association_map_entries
    (w : world) (req_to_tests : PyDict.t (list pystr)) (req_id : pystr)
    (tests : list pystr) :
  extract_req_ids_from_docstrings w = Ok req_to_tests ->
  PyDict.get req_to_tests req_id = Some tests ->
  tests <> [] /\
  is_req_id req_id /\
  Forall (fun t =>
    exists file_name content m,
      In (file_name, Ok content) (test_files w) /\
      In m (finditer DOCSTRING_PATTERN content) /\
      In req_id (findall REQ_PATTERN (group m 2)) /\
      t = u "tests/" ++ file_name ++ u "::" ++ group m 1 /\
      exists name,
        group m 1 = u "test_" ++ name /\ name <> [] /\
        Forall (fun c => is_word c = true) name) tests.
Proof.
  intros Hext Hget. unfold extract_req_ids_from_docstrings in Hext.
  assert (Htests : tests = tests_mentioning (annotation_mentions (test_files w)) req_id).
  { pose proof (scan_files_tests_for _ _ _ req_id Hext) as H.
    unfold tests_for in H. rewrite Hget in H. exact H. }
  assert (Hkey : In req_id (List.map fst (annotation_mentions (test_files w)))).
  { apply PyDictFacts.get_Some_In, PyDictFacts.In_keys in Hget.
    apply (scan_files_keys _ _ _ req_id Hext) in Hget as [[]|Hin]. exact Hin. }
  apply in_map_iff in Hkey as ([r t] & Hr & Hin). simpl in Hr. subst r.
  split; [|split].
  - rewrite Htests. unfold tests_mentioning. intros Hnil.
    apply map_eq_nil in Hnil.
    assert (In (req_id, t) (List.filter (fun m => str_eqb (fst m) req_id)
                              (annotation_mentions (test_files w)))) as Hf.
    { apply filter_In. split; [done|]. apply str_eqb_refl. }
    by rewrite Hnil in Hf.
  - apply annotation_mentions_In in Hin as (f & c & m & _ & _ & Hr & _).
    apply findall_REQ_sound in Hr as [Hid _]. exact Hid.
  - rewrite Htests. apply List.Forall_forall. intros t' Ht'.
    unfold tests_mentioning in Ht'. apply in_map_iff in Ht' as ([r t2] & Heq & Hf).
    simpl in Heq. subst t2. apply filter_In in Hf as [Hm Hr]. simpl in Hr.
    apply str_eqb_eq in Hr. subst r.
    apply annotation_mentions_In in Hm as (f & c & m & Hfile & Hmatch & Hr & Ht).
    exists f, c, m. repeat split; try done. destruct (docstring_match_shape _ _ Hmatch) as (name & _ & _ & _ & _ & ? & ? & ? & _).
    by exists name.
Qed.

Lemma association_map_entries_witness :
  is_req_id (u "REQ-FUNC-CLI-020").
Proof.
  refine (proj1 (proj2 (association_map_entries sample_world sample_req_to_tests
            (u "REQ-FUNC-CLI-020") [u "tests/test_x.py::test_cli"] _ eq_refl))).
  vm_compute. reflexivity.
Defined.


(** ** hooks/update_version_from_changelog.py *)

Lemma ranges_disjoint (t1 t2 : list (N * N)) c :
  forallb (fun r1 => forallb (fun r2 => (snd r1 <? fst r2) || (snd r2 <? fst r1)) t2) t1 = true ->
  in_ranges t1 c = true -> in_ranges t2 c = false.
Proof.
  intros Hdis H1. unfold in_ranges in *.
  apply existsb_exists in H1 as (r1 & Hr1 & Hc1).
  rewrite forallb_forall in Hdis. specialize (Hdis r1 Hr1). rewrite forallb_forall in Hdis.
  destruct (existsb _ t2) eqn:H2; [|done].
  apply existsb_exists in H2 as (r2 & Hr2 & Hc2). specialize (Hdis r2 Hr2).
  apply andb_true_iff in Hc1 as [?%N.leb_le ?%N.leb_le].
  apply andb_true_iff in Hc2 as [?%N.leb_le ?%N.leb_le].
  apply orb_true_iff in Hdis as [?%N.ltb_lt|?%N.ltb_lt]; lia.
Qed.

Lemma digit_not_space c : is_digit c = true -> is_space c = false.
Proof.
  unfold is_digit, is_space, is_ascii_digit. destruct (N.ltb_spec c 128).
  - rewrite andb_true_iff, !N.leb_le. intros [? ?].
    apply orb_false_iff. split; apply andb_false_iff.
    + right. apply N.leb_gt. lia.
    + right. apply N.leb_gt. lia.
  - apply ranges_disjoint. vm_compute. reflexivity.
Qed.

Lemma matches_VERSION_NUMBER v c :
  matches VERSION_NUMBER v c -> c = [] /\ is_version_number v.
Proof.
  unfold VERSION_NUMBER.
  intros (a & r1 & ca & c1 & -> & -> & Ha & H1)%matches_Seq_inv.
  apply matches_Seq_inv in H1 as (p1 & r2 & cp1 & c2 & -> & -> & [-> ->]%matches_Chr_inv & H2).
  apply matches_Seq_inv in H2 as (b & r3 & cb & c3 & -> & -> & Hb & H3).
  apply matches_Seq_inv in H3 as (p2 & c & cp2 & cc & -> & -> & [-> ->]%matches_Chr_inv & Hc).
  apply matches_Plus_Cls_inv in Ha as (-> & a0 & a' & -> & Ha0 & Ha').
  apply matches_Plus_Cls_inv in Hb as (-> & b0 & b' & -> & Hb0 & Hb').
  apply matches_Plus_Cls_inv in Hc as (-> & c0 & c' & -> & Hc0 & Hc').
  split; [done|].
  exists (a0 :: a'), (b0 :: b'), (c0 :: c'). repeat split; try done.
  repeat (apply Forall_app; split); by constructor.
Qed.

Lemma version_number_strip v : is_version_number v -> strip (v ++ [NL]) = v.
Proof.
  intros (a & b & c & -> & Ha & Hb & Hc & Hall).
  apply Forall_app in Hall as [Hda Hdbc]. apply Forall_app in Hdbc as [Hdb Hdc].
  apply (strip_unique [] _ [NL]); try by repeat constructor.
  - destruct a as [|a0 a]; [done|]. inversion Hda; subst. simpl.
    intros d [= <-]. by apply digit_not_space.
  - intros d Hd. destruct c as [|c0 c] using rev_ind; [done|].
    rewrite !app_assoc, last_snoc in Hd. injection Hd as <-.
    apply Forall_app in Hdc as [_ Hc0]. inversion Hc0; subst. by apply digit_not_space.
Qed.

Lemma version_number_nonempty v : is_version_number v -> v <> [].
Proof. intros (a & b & c & -> & Ha & _). by destruct a. Qed.

Lemma universal_newlines_id s :
  Forall (fun c => c <> 13) s -> universal_newlines s = s.
Proof.
  induction 1 as [|c s Hc _ IH]; [done|]. cbn [universal_newlines].
  apply N.eqb_neq in Hc. by rewrite Hc, IH.
Qed.

Lemma version_line_read v : is_version_number v -> universal_newlines (v ++ [NL]) = v ++ [NL].
Proof.
  intros (a & b & c & -> & _ & _ & _ & Hall). apply universal_newlines_id.
  assert (Hdigit : forall l, Forall (fun d => is_digit d = true) l ->
                             Forall (fun d => d <> 13) l).
  { intros l Hl. eapply Forall_impl; [|exact Hl]. intros d Hd ->. by vm_compute in Hd. }
  apply Forall_app in Hall as [Ha Hbc]. apply Forall_app in Hbc as [Hb Hc].
  repeat (apply Forall_app; split); auto; by repeat constructor.
Qed.

Section UpdateVersionFacts.
Import UpdateVersion.
Variable lower : pystr -> pystr.

Lemma RE_RELEASE_match text m :
  In m (finditer RE_RELEASE text) ->
  is_version_number (group m 1) /\
  exists before after,
    text = before ++ u "## [" ++ group m 1 ++ [93] ++ after /\
    (before = [] \/ exists b, before = b ++ [NL]).
Proof.
  intros (before & after & Htext & Hm & Hstart)%finditer_line_start.
  destruct m as [x captures]. cbn [m_text m_caps] in *.
  apply matches_Seq_inv in Hm as (x0 & y0 & c0 & d0 & -> & -> & [-> ->]%matches_Bol_inv & Hm).
  apply matches_Seq_inv in Hm as (x1 & y1 & c1 & d1 & -> & -> & [-> ->]%matches_Lit_inv & Hm).
  apply matches_Seq_inv in Hm as (v & y2 & c2 & d2 & -> & -> & Hv & [-> ->]%matches_Chr_inv).
  apply matches_Group_inv in Hv as (cv & -> & [-> Hv]%matches_VERSION_NUMBER).
  cbn [group m_caps List.find fst snd Nat.eqb app].
  split; [done|]. exists before, after. split; [|done]. rewrite Htext.
  repeat (rewrite <- app_assoc || rewrite <- app_comm_cons). reflexivity.
Qed.

Lemma first_release_sound text v :
  first_release lower (finditer RE_RELEASE text) = Some v ->
  is_version_number v /\
  exists before after,
    text = before ++ u "## [" ++ v ++ [93] ++ after /\
    (before = [] \/ exists b, before = b ++ [NL]).
Proof.
  pose proof (RE_RELEASE_match text) as Hall.
  induction (finditer RE_RELEASE text) as [|m ms IH]; cbn [first_release]; [done|].
  destruct (negb _).
  - intros [= <-]. apply Hall. by left.
  - apply IH. intros m' Hm'. apply Hall. by right.
Qed.

(** Either the hook changes no file, or it replaces the version file by the
    first release of the changelog and a newline, and rewrites the project
    file as it has read it. *)
Lemma main_cases fs :
  snd (main lower fs) = fs \/
  exists text old v,
    CHANGELOG fs = Some text /\
    VERSION_FILE fs = Some old /\
    first_release lower (finditer RE_RELEASE (universal_newlines text)) = Some v /\
    is_version_number v /\
    v <> strip (universal_newlines old) /\
    is_infix v (strip (universal_newlines old)) = false /\
    main lower fs =
      (match PYPROJECT fs with Some _ => Ok 0%Z | None => Raise FileNotFoundError end,
       Files (Some text) (Some (v ++ [NL])) (option_map universal_newlines (PYPROJECT fs))).
Proof.
  unfold main, read_current_version, extract_latest_release, update_version_files.
  destruct fs as [[text|] vf py]; cbn [CHANGELOG VERSION_FILE PYPROJECT snd]; [|auto].
  destruct vf as [old|]; cbn [read_text mbind result_bind]; [|auto].
  destruct (first_release lower (finditer RE_RELEASE (universal_newlines text)))
    as [v|] eqn:Hfirst; [|simpl; auto].
  destruct (first_release_sound _ _ Hfirst) as (Hv & _).
  pose proof (version_number_nonempty _ Hv) as Hne.
  remember (strip (universal_newlines old)) as current eqn:Hcur.
  destruct v as [|c v]; [done|]. simpl truthy. simpl negb. simpl default. cbv iota.
  destruct (str_eqb (c :: v) current) eqn:Heq; [simpl; auto|].
  apply str_eqb_neq in Heq.
  destruct (is_infix (c :: v) current) eqn:Hinfix; [simpl; auto|].
  simpl orb. cbv iota. right.
  exists text, old, (c :: v). subst current.
  destruct py as [p|];
    cbn [read_text write_text snd CHANGELOG VERSION_FILE PYPROJECT option_map];
    by repeat split.
Qed.

Lemma main_after_update text v py :
  first_release lower (finditer RE_RELEASE (universal_newlines text)) = Some v ->
  is_version_number v ->
  main lower (Files (Some text) (Some (v ++ [NL])) py) =
  (Ok 0%Z, Files (Some text) (Some (v ++ [NL])) py).
Proof.
  intros Hfirst Hv. unfold main, read_current_version, extract_latest_release.
  cbn [CHANGELOG VERSION_FILE read_text mbind result_bind].
  rewrite Hfirst, (version_line_read _ Hv), (version_number_strip _ Hv).
  pose proof (version_number_nonempty _ Hv) as Hne.
  destruct v as [|c v]; [done|]. simpl truthy. simpl negb. simpl default. cbv iota.
  by rewrite str_eqb_refl.
Qed.
End UpdateVersionFacts.


(** X13: the version hook is idempotent: a second run on the files the first
    run leaves behind changes nothing, and returns 0 whenever the first run
    returned; after a run that wrote the version file, [_load_version] reads
    back exactly the version written. *)
Theorem update_version_idempotent (lower : pystr -> pystr) (fs : UpdateVersion.files) :
  let fs' := snd (UpdateVersion.main lower fs) in
  snd (UpdateVersion.main lower fs') = fs' /\
  (forall code, fst (UpdateVersion.main lower fs) = Ok code ->
     UpdateVersion.main lower fs' = (Ok 0%Z, fs')) /\
  (UpdateVersion.VERSION_FILE fs' <> UpdateVersion.VERSION_FILE fs ->
   forall text, UpdateVersion.VERSION_FILE fs' = Some text ->
     _load_version (Ok text) ++ [NL] = text).
Proof.
  cbv zeta. destruct (main_cases lower fs) as
    [Hsame|(text & old & v & Hcl & Hvf & Hfirst & Hv & _ & _ & Hmain)].
  - rewrite Hsame. split; [done|]. split; [|done].
    intros code Hcode. destruct (UpdateVersion.main lower fs) as [r fs0] eqn:Hm.
    simpl in *. subst. unfold UpdateVersion.main in *.
    repeat (match type of Hm with
            | context [match ?x with _ => _ end] => destruct x eqn:?
            | context [if ?x then _ else _] => destruct x eqn:?
            end; try (injection Hm as <-; reflexivity); try done).
  - rewrite Hmain. cbn [snd fst]. rewrite (main_after_update lower _ _ _ Hfirst Hv).
    split; [done|]. split; [done|].
    cbn [UpdateVersion.VERSION_FILE]. intros _ t [= <-].
    unfold _load_version. simpl. by rewrite (version_number_strip _ Hv).
Qed.

(** ** hooks/create_git_tag_from_changelog.py *)

Lemma VERSION_PATTERN_match text m :
  In m (finditer CreateTag.VERSION_PATTERN text) ->
  is_version_number (group m 1) /\
  exists before blanks after,
    Forall (fun c => is_space c = true) blanks /\
    text = before ++ u "##" ++ blanks ++ [91] ++ group m 1 ++ [93] ++ after.
Proof.
  intros ((before & after & Htext) & Hm)%finditer_sound.
  destruct m as [x captures]. cbn [m_text m_caps] in *. unfold CreateTag.VERSION_PATTERN in Hm.
  apply matches_Seq_inv in Hm as (x1 & y1 & c1 & d1 & -> & -> & [-> ->]%matches_Lit_inv & Hm).
  apply matches_Seq_inv in Hm as (sp & y2 & c2 & d2 & -> & -> & [Hsp ->]%matches_Star_Cls_inv & Hm).
  apply matches_Seq_inv in Hm as (x3 & y3 & c3 & d3 & -> & -> & [-> ->]%matches_Chr_inv & Hm).
  apply matches_Seq_inv in Hm as (v & y4 & c4 & d4 & -> & -> & Hv & [-> ->]%matches_Chr_inv).
  apply matches_Group_inv in Hv as (cv & -> & [-> Hv]%matches_VERSION_NUMBER).
  cbn [group m_caps List.find fst snd Nat.eqb app].
  split; [done|]. exists before, sp, after. split; [done|]. rewrite Htext.
  repeat (rewrite <- app_assoc || rewrite <- app_comm_cons). reflexivity.
Qed.

(** X14: the tag hook takes its version from the changelog or fails: a
    missing changelog raises FileNotFoundError; a version that is returned is
    a number X.Y.Z of decimal digits that stands in the changelog between
    square brackets after ## and optional whitespace. *)
Theorem tag_version_from_changelog (changelog : option pystr) :
  (changelog = None ->
   CreateTag.get_latest_version_from_changelog changelog = Raise FileNotFoundError) /\
  (forall version,
     CreateTag.get_latest_version_from_changelog changelog = Ok version ->
     is_version_number version /\
     exists content before blanks after,
       changelog = Some content /\
       Forall (fun c => is_space c = true) blanks /\
       content = before ++ u "##" ++ blanks ++ [91] ++ version ++ [93] ++ after).
Proof.
  split; [by intros ->|]. intros version.
  unfold CreateTag.get_latest_version_from_changelog, CreateTag.findall_group.
  destruct changelog as [content|]; [|done].
  pose proof (VERSION_PATTERN_match content) as Hall.
  destruct (finditer CreateTag.VERSION_PATTERN content) as [|m ms]; [done|].
  cbn [List.map]. intros [= <-].
  destruct (Hall m) as (Hv & before & blanks & after & Hsp & Htext); [by left|].
  split; [done|]. by exists content, before, blanks, after.
Qed.

Ltac clash H :=
  apply (f_equal (fun l => nth 1 l [])) in H; vm_compute in H; discriminate.

(** Which of the commands run is the one named in [H]. *)
Ltac by_commands H :=
  simpl in H;
  repeat match type of H with
         | _ \/ _ => destruct H as [H|H]
         | False => destruct H
         | _ = _ => first [clash H|clear H]
         end.

(** The next operation of a run recorded in [H]. *)
Ltac head_of t :=
  lazymatch t with
  | match ?x with _ => _ end => head_of x
  | (match ?x with _ => _ end) _ => head_of x
  | negb ?x => head_of x
  | is_empty ?x => head_of x
  | _ => constr:(t)
  end.

Ltac tag_hook_run H git stdout :=
  repeat (
    cbn [fst snd CreateTag.commands CreateTag.console negb app is_empty] in H;
    lazymatch type of H with
    | ?run = _ =>
        let h := head_of run in
        lazymatch h with
        | stdout _ _ => let Hp := fresh "Hprint" in destruct h as [[]|?] eqn:Hp
        | git _ => let Hg := fresh "Hgit" in destruct h as [?|[]] eqn:Hg
        | strip _ => let Hb := fresh "Hblank" in destruct h eqn:Hb
        | _ => lazymatch type of h with exn => destruct h end
        end
    end).


(** ** core/utils.py *)

Lemma below_256 b : b < 256 -> In b (List.map N.of_nat (seq 0 256)).
Proof.
  intros Hb. apply in_map_iff. exists (N.to_nat b). split; [lia|].
  apply in_seq. lia.
Qed.

Lemma format_02X_byte b :
  b < 256 -> format_02X b = [hex_digit (b / 16); hex_digit (b mod 16)].
Proof.
  intros Hb%below_256.
  assert (Hall : forallb (fun b =>
            str_eqb (format_02X b) [hex_digit (b / 16); hex_digit (b mod 16)])
            (List.map N.of_nat (seq 0 256)) = true) by (vm_compute; reflexivity).
  rewrite forallb_forall in Hall. by apply str_eqb_eq, Hall.
Qed.

Lemma hex_value_digit d : d < 16 -> hex_value (hex_digit d) = Some d.
Proof.
  intros Hd. unfold hex_value, hex_digit.
  destruct (N.ltb_spec d 10).
  - assert ((48 <=? 48 + d) && (48 + d <=? 57) = true) as ->.
    { apply andb_true_iff. split; apply N.leb_le; lia. }
    f_equal. lia.
  - assert ((48 <=? 55 + d) && (55 + d <=? 57) = false) as ->.
    { apply andb_false_iff. right. apply N.leb_gt. lia. }
    assert ((65 <=? 55 + d) && (55 + d <=? 70) = true) as ->.
    { apply andb_true_iff. split; apply N.leb_le; lia. }
    f_equal. lia.
Qed.

Lemma parse_hex_data_join data fuel :
  Forall (fun b => b < 256) data ->
  (length data <= fuel)%nat ->
  parse_hex_data fuel (join (u " ") (List.map format_02X data)) = Some data.
Proof.
  intros Hall. revert fuel. induction Hall as [|b data Hb Hdata IH]; intros fuel Hfuel.
  - by destruct fuel.
  - destruct fuel as [|fuel]; [simpl in Hfuel; lia|].
    assert (Hdiv : b / 16 < 16) by (apply N.Div0.div_lt_upper_bound; lia).
    assert (Hmod : b mod 16 < 16) by (apply N.mod_lt; lia).
    assert (Hbyte : 16 * (b / 16) + b mod 16 = b) by (symmetry; apply N.div_mod; lia).
    destruct data as [|b' data].
    + cbn [List.map join]. rewrite (format_02X_byte b Hb).
      cbn [parse_hex_data]. rewrite !hex_value_digit by done. by rewrite Hbyte.
    + specialize (IH fuel ltac:(simpl in Hfuel; simpl; lia)).
      inversion Hdata as [|? ? Hb' Hdata']; subst.
      cbn [List.map] in *. rewrite join_cons2, (format_02X_byte b Hb).
      remember (join (u " ") (format_02X b' :: List.map format_02X data)) as tail eqn:Htail.
      assert (Hne : exists c cs, tail = c :: cs).
      { rewrite Htail. destruct data; cbn [List.map]; [cbn [join]|rewrite join_cons2];
          rewrite (format_02X_byte b' Hb'); eauto. }
      destruct Hne as (c & cs & ->).
      change (u " ") with [32]. cbn [app parse_hex_data].
      rewrite !hex_value_digit by done.
      change (32 =? 32) with true. cbv iota. by rewrite IH, Hbyte.
Qed.

Lemma length_hex_data data :
  Forall (fun b => b < 256) data ->
  length (join (u " ") (List.map format_02X data)) = (3 * length data - 1)%nat.
Proof.
  induction 1 as [|b data Hb Hdata IH]; [reflexivity|].
  destruct data as [|b' data].
  - cbn [List.map join]. by rewrite (format_02X_byte b Hb).
  - cbn [List.map] in *. rewrite join_cons2, (format_02X_byte b Hb).
    rewrite !length_app, IH. simpl. lia.
Qed.

Lemma hex_digits_of_value fuel : forall n acc,
  n < 16 ^ N.of_nat fuel ->
  exists ds, hex_digits_of fuel n acc = ds ++ acc /\
             hex_number_le (rev ds) = Some n /\ (fuel <> O -> ds <> []).
Proof.
  induction fuel as [|fuel IH]; intros n acc Hn.
  - exists []. simpl in *. repeat split; [f_equal; lia|done].
  - assert (Hmod : n mod 16 < 16) by (apply N.mod_lt; lia).
    cbn [hex_digits_of]. destruct (N.ltb_spec n 16) as [Hlt|Hge].
    + exists [hex_digit (n mod 16)]. repeat split; [|done].
      simpl. rewrite hex_value_digit by done. f_equal.
      rewrite N.mod_small by done. lia.
    + destruct (IH (n / 16) (hex_digit (n mod 16) :: acc)) as (ds & Hds & Hval & _).
      { apply N.Div0.div_lt_upper_bound.
        replace (N.of_nat (S fuel)) with (N.succ (N.of_nat fuel)) in Hn by lia.
        by rewrite N.pow_succ_r' in Hn. }
      exists (ds ++ [hex_digit (n mod 16)]). repeat split.
      * by rewrite Hds, <- app_assoc.
      * rewrite rev_app_distr. simpl. rewrite hex_value_digit, Hval by done.
        f_equal. rewrite (N.div_mod n 16) at 3 by lia. lia.
      * by destruct ds.
Qed.

Lemma hex_of_N_value n : hex_number (hex_of_N n) = Some n /\ hex_of_N n <> [].
Proof.
  unfold hex_number, hex_of_N.
  destruct (hex_digits_of_value (S (N.to_nat (N.log2 n))) n []) as (ds & -> & Hval & Hne).
  - replace (N.of_nat (S (N.to_nat (N.log2 n)))) with (N.succ (N.log2 n)) by lia.
    destruct (N.eq_dec n 0) as [->|Hn]; [done|].
    apply N.lt_le_trans with (2 ^ N.succ (N.log2 n)).
    + apply N.log2_spec. lia.
    + apply N.pow_le_mono_l. lia.
  - rewrite app_nil_r. split; [done|]. by apply Hne.
Qed.

(** X16 (core/utils.py, format_can_frame).  A frame without an id cannot be
    formatted.  Otherwise the text is ID=0x, the identifier as a hexadecimal
    numeral (after a minus sign when it is negative), DATA= and the data
    bytes as two upper-case hexadecimal digits each with single spaces
    between them: both the identifier and the bytes can be read back from
    the text, and an absent data field is formatted as no byte at all. *)
Theorem can_frame_text_reads_back (f : frame) :
  let data := default [] (frame_data f) in
  Forall (fun b => b < 256) data ->
  match frame_id f with
  | None => format_can_frame f = Raise OtherException
  | Some id =>
      exists hex_id hex_data,
        format_can_frame f =
          Ok (u "ID=0x" ++ (if (id <? 0)%Z then u "-" else []) ++ hex_id
                ++ u " DATA=" ++ hex_data) /\
        hex_number hex_id = Some (Z.abs_N id) /\ hex_id <> [] /\
        parse_data hex_data = Some data /\
        length hex_data = (3 * length data - 1)%nat
  end.
Proof.
  intros data Hbytes. unfold format_can_frame. fold data.
  destruct (frame_id f) as [id|]; [|reflexivity].
  exists (hex_of_N (Z.abs_N id)), (join (u " ") (List.map format_02X data)).
  pose proof (length_hex_data data Hbytes) as Hlen.
  split; [|split; [apply hex_of_N_value|split; [apply hex_of_N_value|split; [|done]]]].
  - do 2 f_equal. destruct id; simpl; by rewrite <- ?app_assoc.
  - unfold parse_data. apply parse_hex_data_join; [done|]. rewrite Hlen.
    destruct data; simpl; lia.
Qed.

Lemma can_frame_text_reads_back_witness :
  Forall (fun b => b < 256) [222; 173; 0; 15] /\
  exists hex_id hex_data,
    format_can_frame (Frame (Some 291%Z) (Some [222; 173; 0; 15])) =
      Ok (u "ID=0x" ++ [] ++ hex_id ++ u " DATA=" ++ hex_data) /\
    hex_number hex_id = Some 291 /\ hex_id <> [] /\
    parse_data hex_data = Some [222; 173; 0; 15] /\
    length hex_data = 11%nat.
Proof.
  split; [repeat constructor|].
  apply (can_frame_text_reads_back (Frame (Some 291%Z) (Some [222; 173; 0; 15]))).
  repeat constructor.
Defined.

(** ** The author line of the SRVP document *)

Lemma DOC_AUTHOR_PATTERN_match text m :
  In m (finditer DOC_AUTHOR_PATTERN text) ->
  exists before blanks after,
    text = before ++ u "docAuthor:" ++ blanks ++ group m 1 ++ after /\
    Forall (fun c => is_space c = true) blanks /\
    group m 1 <> [] /\
    Forall (fun c => c <> NL) (group m 1).
Proof.
  intros ((before & after & Htext) & Hm)%finditer_sound.
  destruct m as [x captures]. cbn [m_text m_caps] in *. unfold DOC_AUTHOR_PATTERN in Hm.
  apply matches_Seq_inv in Hm as (x0 & y0 & c0 & d0 & -> & -> & [-> ->]%matches_Bol_inv & Hm).
  apply matches_Seq_inv in Hm as (x1 & y1 & c1 & d1 & -> & -> & [-> ->]%matches_Lit_inv & Hm).
  apply matches_Seq_inv in Hm as (sp & y2 & c2 & d2 & -> & -> & [Hsp ->]%matches_Star_Cls_inv & Hm).
  apply matches_Seq_inv in Hm as (g & y3 & c3 & d3 & -> & -> & Hg & [-> ->]%matches_Eol_inv).
  apply matches_Group_inv in Hg as (cg & -> & (-> & a & g' & -> & Ha & Hg')%matches_Plus_Cls_inv).
  cbn [group m_caps List.find fst snd Nat.eqb app].
  assert (Hline : forall c, not_newline c = true -> c <> NL).
  { intros c Hc ->. by vm_compute in Hc. }
  exists before, sp, after. split; [|split; [done|split; [done|]]].
  - rewrite Htext. repeat (rewrite <- app_assoc || rewrite <- app_comm_cons || rewrite app_nil_r).
    reflexivity.
  - constructor; [by apply Hline|]. eapply Forall_impl; [exact Hline|exact Hg'].
Qed.

(** X17 (update_srvp.py, _read_doc_author_from_srvp): an author is read from
    the SRVP document only if the document exists and can be read; it is
    then the stripped form of a run of one or more characters other than the
    line feed that follows docAuthor: and optional whitespace in the
    document, so it holds no line feed and no whitespace at its ends. *)
Theorem doc_author_from_one_line (w : world) (author : pystr) :
  _read_doc_author_from_srvp w = Some author ->
  (exists txt before blanks body after,
     f_exists (srvp w) = Ok true /\
     f_read (srvp w) = Ok txt /\
     txt = before ++ u "docAuthor:" ++ blanks ++ body ++ after /\
     Forall (fun c => is_space c = true) blanks /\
     body <> [] /\
     Forall (fun c => c <> NL) body /\
     author = strip body) /\
  Forall (fun c => c <> NL) author /\
  (forall c, head author = Some c -> is_space c = false) /\
  (forall c, list.last author = Some c -> is_space c = false).
Proof.
  unfold _read_doc_author_from_srvp, search.
  destruct (f_exists (srvp w)) as [[|]|] eqn:Hex; cbn [mbind result_bind try_except];
    try discriminate.
  destruct (f_read (srvp w)) as [txt|] eqn:Hread; cbn [mbind result_bind try_except];
    [|discriminate].
  pose proof (DOC_AUTHOR_PATTERN_match txt) as Hall.
  destruct (finditer DOC_AUTHOR_PATTERN txt) as [|m ms]; cbn [head try_except];
    [discriminate|].
  intros [= <-].
  destruct (Hall m) as (before & blanks & after & Htxt & Hsp & Hne & Hline); [by left|].
  destruct (strip_split (group m 1)) as (pre & post & Hsplit & _ & _ & Hhead & Hlast).
  split; [by exists txt, before, blanks, (group m 1), after|].
  split; [|done].
  rewrite Hsplit in Hline.
  apply Forall_app in Hline as [_ Hline]. by apply Forall_app in Hline as [Hline _].
Qed.

Lemma doc_author_from_one_line_witness :
  _read_doc_author_from_srvp sample_world = Some (u "Jane Doe") /\
  Forall (fun c => c <> NL) (u "Jane Doe").
Proof.
  split; [reflexivity|].
  apply (doc_author_from_one_line sample_world (u "Jane Doe")). reflexivity.
Defined.
